(** * uoscore-uedhoc: the outbound OSCORE transform and two EDHOC encoders

    A shallow embedding of
      - [modules/edhoc/cbor/encode_th3.c]            (TH_3 hash input),
      - [modules/edhoc/src/associated_data_encode.c] (COSE Enc_structure),
      - [src/oscore/coap2oscore.c]                   (CoAP -> OSCORE),
    followed by the properties proved about them.

    Conventions.  A C unsigned integer of width w is a [Z] with the
    wrap-around written out ([u8], [u16], [u32], [u64]).  A byte buffer is a
    [list Z]; a [struct byte_array] is the list of its [len] valid bytes.
    A function returning [enum err] returns a [result]: [Ok] stands for the
    enumerator [ok], [Err e] for any other enumerator. *)

From Stdlib Require Import ZArith List Bool Lia Ascii String.
Import ListNotations.
Open Scope Z_scope.

Set Warnings "-register-all".

(** ** Machine integers and buffers *)

Definition bytes := list Z.

Definition u8 (x : Z) : Z := x mod 256.
Definition u16 (x : Z) : Z := x mod 65536.
Definition u32 (x : Z) : Z := x mod 4294967296.
Definition u64 (x : Z) : Z := x mod 18446744073709551616.

(** [NULL] data pointers are only ever paired with a length of 0. *)
Definition NULL : bytes := [].

(** ** CBOR items (RFC 8949), the encoder adapter *)

Module Cbor.

(** [be_bytes k n]: the [k] low-order bytes of [n], most significant first. *)
Fixpoint be_bytes (k : nat) (n : Z) : bytes :=
  match k with
  | O => []
  | S k' => be_bytes k' (n / 256) ++ [n mod 256]
  end.

Definition be_value (l : bytes) : Z :=
  fold_left (fun acc b => acc * 256 + b) l 0.

(** Modelled from the spec: the initial bytes of a CBOR data item (the codec,
    [cbor_encode.c], is an external collaborator that is not under src/).
    The major type sits in the three high bits; the argument is encoded in
    the shortest form: inline below 24, then on 1, 2, 4 or 8 bytes. *)
Definition header (major n : Z) : bytes :=
  if n <? 24 then [major * 32 + n]
  else if n <? 256 then (major * 32 + 24) :: be_bytes 1 n
  else if n <? 65536 then (major * 32 + 25) :: be_bytes 2 n
  else if n <? 4294967296 then (major * 32 + 26) :: be_bytes 4 n
  else (major * 32 + 27) :: be_bytes 8 n.

Definition MAJOR_BSTR : Z := 2.
Definition MAJOR_TSTR : Z := 3.
Definition MAJOR_LIST : Z := 4.

(** Byte string, text string and array items as they appear on the wire. *)
Definition bstr (v : bytes) : bytes := header MAJOR_BSTR (Zlength v) ++ v.
Definition tstr (v : bytes) : bytes := header MAJOR_TSTR (Zlength v) ++ v.

(** The data model of the items used by EDHOC, and its serialization.  This
    is the reading of 'the CBOR serialization of' in the specification; the
    encoders below are compared with it. *)
Inductive item : Type :=
| Bstr (v : bytes)
| Tstr (s : string)
| Array (l : list item).

Definition bytes_of_string (s : string) : bytes :=
  map (fun a => Z.of_N (N_of_ascii a)) (list_ascii_of_string s).

Fixpoint serialize (i : item) : bytes :=
  match i with
  | Bstr v => bstr v
  | Tstr s => tstr (bytes_of_string s)
  | Array l => header MAJOR_LIST (Zlength l) ++ List.concat (map serialize l)
  end.

(** Reading the head of an item back. *)
Definition take (k : nat) (l : bytes) : option (bytes * bytes) :=
  if (k <=? List.length l)%nat then Some (firstn k l, skipn k l) else None.

Definition decode_header (major : Z) (l : bytes) : option (Z * bytes) :=
  match l with
  | [] => None
  | b :: r =>
      if negb (b / 32 =? major) then None
      else
        let ai := b mod 32 in
        if ai <? 24 then Some (ai, r)
        else
          let k := if ai =? 24 then Some 1%nat
                   else if ai =? 25 then Some 2%nat
                   else if ai =? 26 then Some 4%nat
                   else if ai =? 27 then Some 8%nat
                   else None in
          match k with
          | None => None
          | Some k =>
              match take k r with
              | Some (a, r') => Some (be_value a, r')
              | None => None
              end
          end
  end.

Definition decode_bstr (l : bytes) : option (bytes * bytes) :=
  match decode_header MAJOR_BSTR l with
  | None => None
  | Some (n, r) => take (Z.to_nat n) r
  end.

(** A CBOR sequence made of byte strings only. *)
Fixpoint decode_bstr_seq (fuel : nat) (l : bytes) : option (list bytes) :=
  match l with
  | [] => Some []
  | _ =>
      match fuel with
      | O => None
      | S fuel' =>
          match decode_bstr l with
          | None => None
          | Some (v, r) =>
              match decode_bstr_seq fuel' r with
              | None => None
              | Some vs => Some (v :: vs)
              end
          end
      end
  end.

(** The encoder state of the generated code ([cbor_state_t]): [payload]
    points into the output buffer, [payload_end] is its end.  The model keeps
    the bytes written so far between the start of the buffer and [payload],
    and the size of the buffer. *)
Record cbor_state_t : Type := mk_state {
  payload : bytes;
  payload_end : Z
}.

Definition new_state (payload_len : Z) : cbor_state_t :=
  {| payload := []; payload_end := payload_len |}.

(** Emit the bytes of one item, or fail and leave the state as it is when
    they do not fit in what is left of the buffer. *)
Definition emit (state : cbor_state_t) (bs : bytes) : bool * cbor_state_t :=
  if Zlength (payload state) + Zlength bs <=? payload_end state
  then (true, {| payload := payload state ++ bs;
                 payload_end := payload_end state |})
  else (false, state).

(** Modelled from the spec: [bstrx_encode] and [tstrx_encode] of the CBOR
    codec adapter (not under src/): a definite-length byte or text string. *)
Definition bstrx_encode (state : cbor_state_t) (v : bytes)
  : bool * cbor_state_t :=
  emit state (bstr v).

Definition tstrx_encode (state : cbor_state_t) (v : bytes)
  : bool * cbor_state_t :=
  emit state (tstr v).

(** Modelled from the spec: the head of a definite-length array of [n]
    items, as [list_start_encode] and [list_end_encode] leave it. *)
Definition list_encode (state : cbor_state_t) (n : Z) : bool * cbor_state_t :=
  emit state (header MAJOR_LIST n).

End Cbor.

(** ** EDHOC: the input of the transcript hash TH_3 and the associated data *)

Module Edhoc.
Import Cbor.

(** [struct th3], the type generated from the CDDL of the hash input; the two
    members are the ones [encode_th3] reads. *)
Record th3 : Type := mk_th3 {
  _th3_th_2 : bytes;
  _th3_CIPHERTEXT_2 : bytes
}.

(** [encode_th3] (encode_th3.c, 19-31): the operands of [&&] run left to
    right on the same state, the second only when the first succeeded. *)
Definition encode_th3 (state : cbor_state_t) (input : th3)
  : bool * cbor_state_t :=
  let (r1, state1) := bstrx_encode state (_th3_th_2 input) in
  if r1 then bstrx_encode state1 (_th3_CIPHERTEXT_2 input)
  else (false, state1).

(** [cbor_encode_th3] (encode_th3.c, 35-52), called with a [payload_len_out]
    that is not NULL.  The result is the return value, the bytes in
    [payload] and what is stored through [payload_len_out] ([None] when
    nothing is stored). *)
Definition cbor_encode_th3 (payload_len : Z) (input : th3)
  : bool * bytes * option Z :=
  let states := new_state payload_len in
  let (ret, states') := encode_th3 states input in
  (ret, payload states',
   if ret then Some (Z.min payload_len (Zlength (payload states'))) else None).

(** The hash input as the specification words it: the CBOR sequence of the
    three byte strings TH_2, PLAINTEXT_2 and CRED_R. *)
Definition th3_input_spec (th_2 plaintext_2 cred_r : bytes) : bytes :=
  bstr th_2 ++ bstr plaintext_2 ++ bstr cred_r.

(** [enum edhoc_error], the two enumerators met here. *)
Inductive edhoc_error : Type :=
| edhoc_no_error
| cbor_encoding_error.

(** Modelled from the spec: [cose_enc_structure_encode] (cose.c is not under
    src/).  'The full Enc_structure is ["Encrypt0", h'' /*protected*/,
    external_aad] serialized as CBOR': an array of three items, the context
    as a text string, the protected header and the external data as byte
    strings, written to [out], whose size comes in through [out_len]; the
    length written goes out through it. *)
Definition cose_enc_structure_encode (context : bytes) (context_len : Z)
    (protected : bytes) (protected_len : Z)
    (external_aad : bytes) (external_aad_len : Z)
    (out_len : Z) : edhoc_error * bytes * Z :=
  let s0 := new_state out_len in
  let (r1, s1) := list_encode s0 3 in
  let (r2, s2) :=
    if r1 then tstrx_encode s1 (firstn (Z.to_nat context_len) context)
    else (false, s1) in
  let (r3, s3) :=
    if r2 then bstrx_encode s2 (firstn (Z.to_nat protected_len) protected)
    else (false, s2) in
  let (r4, s4) :=
    if r3
    then bstrx_encode s3 (firstn (Z.to_nat external_aad_len) external_aad)
    else (false, s3) in
  if r4 then (edhoc_no_error, payload s4, Zlength (payload s4))
  else (cbor_encoding_error, payload s4, out_len).

(** [strlen]: the number of bytes before the first NUL. *)
Fixpoint strlen (s : bytes) : Z :=
  match s with
  | [] => 0
  | c :: s' => if c =? 0 then 0 else 1 + strlen s'
  end.

(** [uint8_t context_str[] = { "Encrypt0" }]: the characters and the
    terminating NUL. *)
Definition context_str : bytes := bytes_of_string "Encrypt0" ++ [0].

(** [associated_data_encode] (associated_data_encode.c, 18-25). *)
Definition associated_data_encode (thX : bytes) (thX_len : Z) (out_len : Z)
  : edhoc_error * bytes * Z :=
  cose_enc_structure_encode context_str (strlen context_str) NULL 0
                            thX thX_len out_len.

(** The COSE Enc_structure of the specification as a CBOR item. *)
Definition Enc_structure (external_aad : bytes) : item :=
  Array [Tstr "Encrypt0"; Bstr []; Bstr external_aad].

End Edhoc.

(** ** OSCORE: from a CoAP packet to an OSCORE packet *)

Module Oscore.

(** *** Results *)

(** The enumerators of [enum err] met in coap2oscore.c, [ssn_exhausted] as
    the specification names it, and [other_error] for every enumerator a
    collaborator may return besides.  [out_of_bounds] is not an enumerator:
    it marks a run in which the C code stores outside the array it writes
    to, where the C program has no defined result. *)
Inductive err : Type :=
| not_valid_input_packet
| dest_buffer_to_small
| buffer_to_small
| oscore_valuelen_to_long_error
| ssn_exhausted
| other_error (code : Z)
| out_of_bounds.

Inductive result (A : Type) : Type :=
| Ok (a : A)
| Err (e : err).
Arguments Ok {A} a.
Arguments Err {A} e.

(** The [TRY] macro: leave with the error, or go on with the value. *)
Definition try {A B : Type} (r : result A) (k : A -> result B) : result B :=
  match r with
  | Ok a => k a
  | Err e => Err e
  end.

Notation "'TRY' x <- r ;; k" := (try r (fun x => k))
  (at level 61, x pattern, r at next level, right associativity).

(** *** Buffers *)

(** One byte stored at index [i] of an array. *)
Definition store (buf : bytes) (i : Z) (v : Z) : result bytes :=
  if (0 <=? i) && (i <? Zlength buf)
  then Ok (firstn (Z.to_nat i) buf ++ v :: skipn (Z.to_nat i + 1) buf)
  else Err out_of_bounds.

(** [memcpy(dest + off, src, n)] with [n] the length of [src]. *)
Definition memcpy (dest : bytes) (off : Z) (src : bytes) : result bytes :=
  if (0 <=? off) && (off + Zlength src <=? Zlength dest)
  then Ok (firstn (Z.to_nat off) dest ++ src
           ++ skipn (Z.to_nat (off + Zlength src)) dest)
  else Err out_of_bounds.

(** Modelled from the spec: [_memcpy_s] (common/memcpy_s.h is not under
    src/), the bounded copy: 'exceeding any [bound] is an error, never a
    reallocation'.  [dest_size] is the room the caller announces at
    [dest + off]; the copy itself is [memcpy]. *)
Definition _memcpy_s (dest : bytes) (off : Z) (dest_size : Z) (src : bytes)
  : result bytes :=
  if dest_size <? Zlength src then Err dest_buffer_to_small
  else memcpy dest off src.

(** Modelled from the spec: [check_buffer_size], the size test of the
    resource bounds (common/byte_array.h is not under src/). *)
Definition check_buffer_size (max_size size : Z) : result unit :=
  if max_size <? size then Err buffer_to_small else Ok tt.

(** *** CoAP packets *)

(** [struct o_coap_option]; [value] holds the bytes the pointer refers to. *)
Record o_coap_option : Type := mk_option {
  delta : Z;
  len : Z;
  value : bytes;
  option_number : Z
}.

Record o_coap_header : Type := mk_header {
  ver : Z;
  type : Z;
  TKL : Z;
  code : Z;
  MID : Z
}.

(** [struct o_coap_packet]; [options] holds the first [options_cnt] entries
    of the array, [payload] the [payload_len] bytes of the payload. *)
Record o_coap_packet : Type := mk_packet {
  header : o_coap_header;
  token : bytes;
  options : list o_coap_option;
  payload : bytes
}.

Definition options_cnt (p : o_coap_packet) : Z := Zlength (options p).
Definition payload_len (p : o_coap_packet) : Z := Zlength (payload p).

(** Modelled from the spec: constants of RFC 7252 and RFC 8613 that the
    headers (not under src/) define: the option numbers of Observe and
    OSCORE ('the OSCORE option number is 9'), the codes 0.00, POST (0.02),
    FETCH (0.05), Changed (2.04) and Content (2.05), the type ACK, and
    [MAX_PIV_LEN] = 5. *)
Definition OBSERVE : Z := 6.
Definition OSCORE : Z := 9.
Definition CODE_EMPTY : Z := 0.
Definition CODE_REQ_POST : Z := 2.
Definition CODE_REQ_FETCH : Z := 5.
Definition CODE_RESP_CHANGED : Z := 68.
Definition CODE_RESP_CONTENT : Z := 69.
Definition TYPE_ACK : Z := 2.
Definition MAX_PIV_LEN : Z := 5.

(** Modelled from the spec: the flag bits of the first byte of the OSCORE
    option value (option.h is not under src/): [n] in bits 0-2, then [k],
    then [h]; the value 0x09 of the RFC 8613 C.4 scenario is [k] with
    [n = 1]. *)
Definition COMP_OSCORE_OPT_KID_K_MASK : Z := 8.
Definition COMP_OSCORE_OPT_KIDC_H_MASK : Z := 16.

(** Modelled from the spec: [MAX_SSN = 2^40 - 1]. *)
Definition MAX_SSN : Z := 2 ^ 40 - 1.

(** *** The security context *)

Record common_context : Type := mk_cc {
  common_iv : bytes;
  id_context : bytes;
  aead_alg : Z
}.

Record sender_context : Type := mk_sc {
  sender_id : bytes;
  sender_key : bytes;
  sender_seq_num : Z
}.

Record req_resp_context : Type := mk_rrc {
  nonce : bytes;
  request_kid : bytes;
  request_piv : bytes;
  echo_opt_val : bytes;
  reboot : bool
}.

(** [struct context], the members coap2oscore reaches. *)
Record context : Type := mk_context {
  cc : common_context;
  sc : sender_context;
  rrc : req_resp_context
}.

(** *** Collaborators

    The functions and compile-time bounds that coap2oscore.c uses and that
    live in files that are not under src/.  Each function is given the
    arguments the call passes and returns what the call can change.  The
    last member stands for what C leaves open: the content of a local
    array that has not been written. *)
Class Platform : Type := {
  MAX_OPTION_COUNT : Z;
  E_OPTIONS_BUFF_MAX_LEN : Z;
  MAX_PLAINTEXT_LEN : Z;
  MAX_CIPHERTEXT_LEN : Z;
  MAX_AAD_LEN : Z;
  AUTH_TAG_LEN : Z;
  OSCORE_OPT_VALUE_LEN : Z;
  (** parse a buffer into a packet *)
  buf2coap : bytes -> result o_coap_packet;
  (** serialize a packet into [buf_oscore], whose size comes in through
      [buf_oscore_len]: the status, the buffer and the length after *)
  coap2buf : o_coap_packet -> bytes -> Z -> result unit * bytes * Z;
  is_request : o_coap_packet -> bool;
  is_class_e : Z -> bool;
  (** serialize options into a byte array of the given length *)
  options_into_byte_string : list o_coap_option -> Z -> result bytes;
  (** the status and the request-response context after *)
  update_request_piv_request_kid :
    context -> bytes -> bytes -> bool -> result unit * req_resp_context;
  (** the status and [echo_opt_val] after *)
  cache_echo_val : bytes -> list o_coap_option -> result unit * bytes;
  (** the status and the nonce after *)
  create_nonce : bytes -> bytes -> bytes -> bytes -> result unit * bytes;
  create_aad : Z -> bytes -> bytes -> Z -> result bytes;
  (** plaintext, length of the ciphertext, nonce, aad, key *)
  oscore_cose_encrypt : bytes -> Z -> bytes -> bytes -> bytes -> result bytes;
  (** what a local array holds before it is written: C does not initialise
      it, so the bytes are indeterminate; [uninitialized NAME i] is byte [i]
      of the array declared under [NAME] *)
  uninitialized : string -> nat -> Z
}.

(** A local array of [BUF_SIZE] bytes that has not been written yet. *)
Definition local_array {P : Platform} (NAME : string) (BUF_SIZE : Z) : bytes :=
  map (uninitialized NAME) (seq 0 (Z.to_nat BUF_SIZE)).

(** Modelled from the spec: the [BYTE_ARRAY_NEW(NAME, BUF_SIZE, SIZE)] macro
    (common/byte_array.h is not under src/): the size test, then a local
    array of [BUF_SIZE] bytes of which [SIZE] are used.  The array is not
    initialised. *)
Definition BYTE_ARRAY_NEW {P : Platform} (NAME : string) (BUF_SIZE SIZE : Z)
  : result bytes :=
  TRY _ <- check_buffer_size BUF_SIZE SIZE ;;
  Ok (local_array NAME BUF_SIZE).

(** Modelled from the spec: [is_observe] (oscore_coap.c is not under src/):
    'with observe' is an option numbered Observe among the given options. *)
Definition is_observe (options : list o_coap_option) : bool :=
  existsb (fun o => option_number o =? OBSERVE) options.

Section Split.
Context {P : Platform}.

(** The locals of [inner_outer_option_split] that live across iterations,
    with the two output arrays and [*e_options_len]. *)
Record split_state : Type := mk_split {
  temp_option_nr : Z;
  temp_E_option_delta_sum : Z;
  temp_U_option_delta_sum : Z;
  e_options : list o_coap_option;
  e_options_len : Z;
  U_options : list o_coap_option
}.

(** Lines 73-83: the extra bytes counted for an option delta or length. *)
Definition extra_bytes (v : Z) : Z :=
  if (13 <? v) && (v <? 243) then 1
  else if 243 <=? v then 2
  else 0.

(** One iteration of the loop of [inner_outer_option_split] (lines 65-202)
    on [in_o_coap->options[i]]. *)
Definition split_step (in_o_coap : o_coap_packet) (s : split_state)
    (o : o_coap_option) : split_state :=
  let delta_extra_bytes := extra_bytes (delta o) in
  let len_extra_bytes := extra_bytes (len o) in
  let temp_option_nr := u8 (temp_option_nr s + delta o) in
  let temp_len := u8 (len o) in
  let e_delta := u16 (temp_option_nr - temp_E_option_delta_sum s) in
  let u_delta := u16 (temp_option_nr - temp_U_option_delta_sum s) in
  let outer := {| delta := u_delta; len := temp_len; value := value o;
                  option_number := temp_option_nr |} in
  if temp_option_nr =? OBSERVE then
    let inner :=
      if is_request in_o_coap
      then {| delta := e_delta; len := temp_len; value := value o;
              option_number := temp_option_nr |}
      else {| delta := e_delta; len := 0; value := NULL;
              option_number := temp_option_nr |} in
    {| temp_option_nr := temp_option_nr;
       temp_E_option_delta_sum := u8 (temp_E_option_delta_sum s + e_delta);
       temp_U_option_delta_sum := u8 (temp_U_option_delta_sum s + u_delta);
       e_options := e_options s ++ [inner];
       e_options_len :=
         if is_request in_o_coap
         then u16 (e_options_len s + 1 + delta_extra_bytes
                   + len_extra_bytes + temp_len)
         else u16 (e_options_len s + 1);
       U_options := U_options s ++ [outer] |}
  else if is_class_e temp_option_nr then
    {| temp_option_nr := temp_option_nr;
       temp_E_option_delta_sum := u8 (temp_E_option_delta_sum s + e_delta);
       temp_U_option_delta_sum := temp_U_option_delta_sum s;
       e_options := e_options s
                    ++ [{| delta := e_delta; len := temp_len;
                           value := value o;
                           option_number := temp_option_nr |}];
       e_options_len := u16 (e_options_len s + 1 + delta_extra_bytes
                             + len_extra_bytes + temp_len);
       U_options := U_options s |}
  else
    {| temp_option_nr := temp_option_nr;
       temp_E_option_delta_sum := temp_E_option_delta_sum s;
       temp_U_option_delta_sum := u8 (temp_U_option_delta_sum s + u_delta);
       e_options := e_options s;
       e_options_len := e_options_len s;
       U_options := U_options s ++ [outer] |}.

Definition split_init : split_state :=
  {| temp_option_nr := 0;
     temp_E_option_delta_sum := 0;
     temp_U_option_delta_sum := 0;
     e_options := [];
     e_options_len := 0;
     U_options := [] |}.

(** [inner_outer_option_split] (lines 42-204), called as coap2oscore calls
    it, with both counts at 0: the E-options, [*e_options_len] and the
    U-options. *)
Definition inner_outer_option_split (in_o_coap : o_coap_packet)
  : result (list o_coap_option * Z * list o_coap_option) :=
  if MAX_OPTION_COUNT <? options_cnt in_o_coap then Err not_valid_input_packet
  else
    let s := fold_left (split_step in_o_coap) (options in_o_coap) split_init in
    Ok (e_options s, e_options_len s, U_options s).

End Split.

(** Leading zero bytes dropped, the last byte kept. *)
Fixpoint strip_zeros (l : bytes) : bytes :=
  match l with
  | 0 :: (_ :: _) as r => strip_zeros r
  | _ => l
  end.

(** Modelled from the spec: [sender_seq_num2piv] (not under src/).  The
    partial IV is the sender sequence number on the fewest bytes, most
    significant first, at least one and at most [MAX_PIV_LEN]; a sequence
    number past [MAX_SSN] is refused: 'at 2^40-1 sending succeeds once, at
    2^40 fails ssn_exhausted'. *)
Definition sender_seq_num2piv (ssn : Z) : result bytes :=
  if MAX_SSN <? ssn then Err ssn_exhausted
  else Ok (strip_zeros (Cbor.be_bytes (Z.to_nat MAX_PIV_LEN) ssn)).

(** *** The state of a call

    What a call can change: the context [*c], the output buffer and
    [*buf_oscore_len].  A failing call keeps the changes made so far. *)
Record world : Type := mk_world {
  c : context;
  buf_oscore : bytes;
  buf_oscore_len : Z
}.

Definition M (A : Type) : Type := world -> result A * world.

Definition ret {A : Type} (a : A) : M A := fun w => (Ok a, w).

Definition bind {A B : Type} (m : M A) (k : A -> M B) : M B :=
  fun w =>
    match m w with
    | (Ok a, w') => k a w'
    | (Err e, w') => (Err e, w')
    end.

Notation "'DO' x <- m ;; k" := (bind m (fun x => k))
  (at level 61, x pattern, m at next level, right associativity).

Definition lift {A : Type} (r : result A) : M A := fun w => (r, w).

Definition get_c : M context := fun w => (Ok (c w), w).

Definition set_rrc (r : req_resp_context) : M unit :=
  fun w => (Ok tt, {| c := {| cc := cc (c w); sc := sc (c w); rrc := r |};
                      buf_oscore := buf_oscore w;
                      buf_oscore_len := buf_oscore_len w |}).

(** [c->sc.sender_seq_num++] on [uint64_t]: the value before. *)
Definition post_increment_sender_seq_num : M Z :=
  fun w =>
    let s := sc (c w) in
    (Ok (sender_seq_num s),
     {| c := {| cc := cc (c w);
                sc := {| sender_id := sender_id s;
                         sender_key := sender_key s;
                         sender_seq_num := u64 (sender_seq_num s + 1) |};
                rrc := rrc (c w) |};
        buf_oscore := buf_oscore w;
        buf_oscore_len := buf_oscore_len w |}).

(** A collaborator that returns a status and the new request-response
    context: the context is stored whatever the status. *)
Definition call_rrc (r : result unit * req_resp_context) : M unit :=
  DO _ <- set_rrc (snd r) ;; lift (fst r).

Definition with_nonce (r : req_resp_context) (n : bytes) : req_resp_context :=
  {| nonce := n; request_kid := request_kid r; request_piv := request_piv r;
     echo_opt_val := echo_opt_val r; reboot := reboot r |}.

Definition with_echo_opt_val (r : req_resp_context) (e : bytes)
  : req_resp_context :=
  {| nonce := nonce r; request_kid := request_kid r;
     request_piv := request_piv r; echo_opt_val := e; reboot := reboot r |}.

Definition with_reboot (r : req_resp_context) (b : bool) : req_resp_context :=
  {| nonce := nonce r; request_kid := request_kid r;
     request_piv := request_piv r; echo_opt_val := echo_opt_val r;
     reboot := b |}.

Section Transform.
Context {P : Platform}.

(** [plaintext_setup] (lines 215-257).  [plaintext_ptr] is the array behind
    [plaintext->ptr] and [plaintext_len] is [plaintext->len]; the array after
    the call is returned.  [temp_plaintext_ptr] is kept as an index. *)
Definition plaintext_setup (in_o_coap : o_coap_packet)
    (E_options : list o_coap_option)
    (plaintext_ptr : bytes) (plaintext_len : Z) : result bytes :=
  let temp_plaintext_ptr := 0 in
  TRY p1 <- store plaintext_ptr temp_plaintext_ptr (code (header in_o_coap)) ;;
  let e_opt_serial_len :=
    fold_left (fun acc o => u16 (acc + 1 + 2 + 2 + len o)) E_options 0 in
  TRY _ <- BYTE_ARRAY_NEW "e_opt_serial" E_OPTIONS_BUFF_MAX_LEN
                          e_opt_serial_len ;;
  TRY e_opt_serial <- options_into_byte_string E_options e_opt_serial_len ;;
  let dest_size := u32 (plaintext_len - u32 (temp_plaintext_ptr + 1)) in
  TRY p2 <- _memcpy_s p1 (temp_plaintext_ptr + 1) dest_size e_opt_serial ;;
  let temp_plaintext_ptr := temp_plaintext_ptr + 1 + Zlength e_opt_serial in
  if negb (payload_len in_o_coap =? 0) then
    TRY p3 <- store p2 temp_plaintext_ptr 255 ;;
    let dest_size := u32 (plaintext_len - u32 (temp_plaintext_ptr + 1)) in
    _memcpy_s p3 (temp_plaintext_ptr + 1) dest_size (payload in_o_coap)
  else Ok p2.

(** [plaintext_encrypt] (lines 270-279). *)
Definition plaintext_encrypt (c : context) (aad in_plaintext : bytes)
    (out_ciphertext_len : Z) : result bytes :=
  oscore_cose_encrypt in_plaintext out_ciphertext_len (nonce (rrc c)) aad
                      (sender_key (sc c)).

(** [get_oscore_opt_val_len] (lines 289-304), on [uint8_t]. *)
Definition get_oscore_opt_val_len (piv kid kid_context : bytes) : Z :=
  let l := u8 (Zlength piv + Zlength kid_context + Zlength kid) in
  let l := if negb (l =? 0) then u8 (l + 1) else l in
  let l := if negb (Zlength kid_context =? 0) then u8 (l + 1) else l in
  l.

(** [oscore_option_generate] (lines 319-380).  The caller has set
    [oscore_option->len] and pointed [oscore_option->value] to the array
    [buf]; [value] is that array, and [temp_ptr] is an index into it. *)
Definition oscore_option_generate (piv kid kid_context : bytes)
    (oscore_option : o_coap_option) : result o_coap_option :=
  if len oscore_option =? 0 then
    Ok {| delta := delta oscore_option; len := len oscore_option;
          value := NULL; option_number := OSCORE |}
  else
    TRY v <- memcpy (value oscore_option) 0
                    (repeat 0 (Z.to_nat (len oscore_option))) ;;
    let temp_ptr := 0 in
    TRY (v, temp_ptr) <-
      (if negb (Zlength piv =? 0) then
         TRY v <- store v 0 (u8 (Z.lor (nth 0 v 0) (Zlength piv))) ;;
         let dest_size := u32 (len oscore_option - (temp_ptr + 1)) in
         TRY v <- _memcpy_s v (temp_ptr + 1) dest_size piv ;;
         Ok (v, temp_ptr + 1 + Zlength piv)
       else Ok (v, temp_ptr)) ;;
    TRY (v, temp_ptr) <-
      (if negb (Zlength kid_context =? 0) then
         TRY v <- store v 0 (u8 (Z.lor (nth 0 v 0)
                                       COMP_OSCORE_OPT_KIDC_H_MASK)) ;;
         TRY v <- store v temp_ptr (u8 (Zlength kid_context)) ;;
         let dest_size := u32 (len oscore_option - (temp_ptr + 1)) in
         TRY v <- _memcpy_s v (temp_ptr + 1) dest_size kid_context ;;
         Ok (v, temp_ptr + 1 + Zlength kid_context)
       else Ok (v, temp_ptr)) ;;
    TRY v <- store v 0 (u8 (Z.lor (nth 0 v 0) COMP_OSCORE_OPT_KID_K_MASK)) ;;
    TRY v <-
      (if negb (Zlength kid =? 0) then
         let dest_size := u32 (len oscore_option - temp_ptr) in
         _memcpy_s v temp_ptr dest_size kid
       else Ok v) ;;
    Ok {| delta := delta oscore_option; len := len oscore_option;
          value := v; option_number := OSCORE |}.

(** The first loop of [oscore_pkg_generate] (lines 429-436): the index of the
    first U-option numbered above OSCORE, [u_options_cnt] when there is
    none.  [i] is the index of the head of [u_options]. *)
Fixpoint find_oscore_opt_pos (i : Z) (u_options : list o_coap_option)
    (u_options_cnt : Z) : Z :=
  match u_options with
  | [] => u_options_cnt
  | o :: rest =>
      if OSCORE <? option_number o then i
      else find_oscore_opt_pos (i + 1) rest u_options_cnt
  end.

(** The locals of the second loop (lines 441-469) and [out_oscore->options]. *)
Record merge_state : Type := mk_merge {
  temp_opt_number_sum : Z;
  u_opt_pos : Z;
  out_options : list o_coap_option
}.

Definition merge_step (u_options : list o_coap_option) (oscore_opt_pos : Z)
    (oscore_option : o_coap_option) (s : merge_state) (i : Z) : merge_state :=
  let u := nth (Z.to_nat (u_opt_pos s)) u_options oscore_option in
  let o :=
    if i =? oscore_opt_pos then
      {| delta := u16 (option_number oscore_option - temp_opt_number_sum s);
         len := len oscore_option;
         value := value oscore_option;
         option_number := option_number oscore_option |}
    else
      {| delta := u16 (option_number u - temp_opt_number_sum s);
         len := len u;
         value := value u;
         option_number := option_number u |} in
  {| temp_opt_number_sum := u8 (temp_opt_number_sum s + delta o);
     u_opt_pos := if i =? oscore_opt_pos then u_opt_pos s else u_opt_pos s + 1;
     out_options := out_options s ++ [o] |}.

Definition merge_init : merge_state :=
  {| temp_opt_number_sum := 0; u_opt_pos := 0; out_options := [] |}.

(** [oscore_pkg_generate] (lines 393-475).  [out_oscore->options] has
    [MAX_OPTION_COUNT] entries and the loop stores [u_options_cnt + 1]. *)
Definition oscore_pkg_generate (in_o_coap : o_coap_packet)
    (u_options : list o_coap_option)
    (in_ciphertext : bytes) (in_ciphertext_len : Z)
    (oscore_option : o_coap_option) : result o_coap_packet :=
  let u_options_cnt := Zlength u_options in
  let observe := is_observe u_options in
  let out_code :=
    if is_request in_o_coap then
      if observe then CODE_REQ_FETCH else CODE_REQ_POST
    else
      if observe then CODE_RESP_CONTENT else CODE_RESP_CHANGED in
  let oscore_opt_pos := find_oscore_opt_pos 0 u_options u_options_cnt in
  if MAX_OPTION_COUNT <? u_options_cnt + 1 then Err out_of_bounds
  else
    let s := fold_left (merge_step u_options oscore_opt_pos oscore_option)
                       (map Z.of_nat (seq 0 (Z.to_nat (u_options_cnt + 1))))
                       merge_init in
    Ok {| header := {| ver := ver (header in_o_coap);
                       type := type (header in_o_coap);
                       TKL := TKL (header in_o_coap);
                       code := out_code;
                       MID := MID (header in_o_coap) |};
          token := if TKL (header in_o_coap) =? 0 then NULL
                   else token in_o_coap;
          options := out_options s;
          payload := firstn (Z.to_nat in_ciphertext_len) in_ciphertext |}.

(** *** coap2oscore *)

(** Steps 1 and 2 of coap2oscore (lines 518-542): the option split and
    the plaintext.  The result is the E-options, the U-options, the array
    behind [plaintext] and [plaintext.len]. *)
Definition coap2oscore_plaintext (o_coap_pkt : o_coap_packet)
  : result (list o_coap_option * list o_coap_option * bytes * Z) :=
  TRY (e_options, e_options_len, u_options) <-
    inner_outer_option_split o_coap_pkt ;;
  let plaintext_len := u32 (1 + e_options_len) in
  let plaintext_len :=
    if negb (payload_len o_coap_pkt =? 0)
    then u32 (plaintext_len + 1 + payload_len o_coap_pkt)
    else plaintext_len in
  TRY plaintext_buf <- BYTE_ARRAY_NEW "plaintext" MAX_PLAINTEXT_LEN
                                      plaintext_len ;;
  TRY plaintext_buf <- plaintext_setup o_coap_pkt e_options
                                       plaintext_buf plaintext_len ;;
  Ok (e_options, u_options, plaintext_buf, plaintext_len).

(** The OSCORE option of coap2oscore (lines 544-586). *)
Definition coap2oscore_option (o_coap_pkt : o_coap_packet)
    (e_options u_options : list o_coap_option) : M o_coap_option :=
  let request := is_request o_coap_pkt in
  DO c0 <- get_c ;;
  if request || is_observe u_options || reboot (rrc c0) then
    DO _ <- lift (BYTE_ARRAY_NEW "piv" MAX_PIV_LEN MAX_PIV_LEN) ;;
    DO ssn <- post_increment_sender_seq_num ;;
    DO piv <- lift (sender_seq_num2piv ssn) ;;
    DO c1 <- get_c ;;
    DO _ <- call_rrc (update_request_piv_request_kid
                        c1 piv (sender_id (sc c1)) request) ;;
    DO c2 <- get_c ;;
    DO _ <- (if reboot (rrc c2) then
               let r := cache_echo_val (echo_opt_val (rrc c2)) e_options in
               DO _ <- set_rrc (with_echo_opt_val (rrc c2) (snd r)) ;;
               DO _ <- lift (fst r) ;;
               DO c3 <- get_c ;;
               set_rrc (with_reboot (rrc c3) false)
             else ret tt) ;;
    DO c4 <- get_c ;;
    let r := create_nonce (sender_id (sc c4)) piv (common_iv (cc c4))
                          (nonce (rrc c4)) in
    DO _ <- set_rrc (with_nonce (rrc c4) (snd r)) ;;
    DO _ <- lift (fst r) ;;
    let l := get_oscore_opt_val_len piv (sender_id (sc c4))
                                    (id_context (cc c4)) in
    if OSCORE_OPT_VALUE_LEN <? l then lift (Err oscore_valuelen_to_long_error)
    else
      lift (oscore_option_generate piv (sender_id (sc c4)) (id_context (cc c4))
              {| delta := 0; len := l;
                 value := local_array "oscore_option" OSCORE_OPT_VALUE_LEN;
                 option_number := OSCORE |})
  else
    ret {| delta := 0; len := 0; value := NULL; option_number := OSCORE |}.

(** [coap2oscore] (lines 490-608) on the [buf_o_coap_len] bytes of
    [buf_o_coap]. *)
Definition coap2oscore (buf_o_coap : bytes) : M unit :=
  let buf_o_coap_len := Zlength buf_o_coap in
  DO o_coap_pkt <- lift (buf2coap buf_o_coap) ;;
  if (CODE_EMPTY =? code (header o_coap_pkt))
     && (TYPE_ACK =? type (header o_coap_pkt)) then
    fun w =>
      let w' := {| c := c w; buf_oscore := buf_oscore w;
                   buf_oscore_len := buf_o_coap_len |} in
      match _memcpy_s (buf_oscore w) 0 buf_o_coap_len buf_o_coap with
      | Ok b => (Ok tt, {| c := c w; buf_oscore := b;
                           buf_oscore_len := buf_o_coap_len |})
      | Err e => (Err e, w')
      end
  else
    DO (e_options, u_options, plaintext_buf, plaintext_len) <-
      lift (coap2oscore_plaintext o_coap_pkt) ;;
    let plaintext := firstn (Z.to_nat plaintext_len) plaintext_buf in
    DO oscore_option <- coap2oscore_option o_coap_pkt e_options u_options ;;
    DO _ <- lift (BYTE_ARRAY_NEW "aad" MAX_AAD_LEN MAX_AAD_LEN) ;;
    DO c5 <- get_c ;;
    DO aad <- lift (create_aad (aead_alg (cc c5)) (request_kid (rrc c5))
                               (request_piv (rrc c5)) MAX_AAD_LEN) ;;
    let ciphertext_len := u32 (plaintext_len + AUTH_TAG_LEN) in
    DO _ <- lift (check_buffer_size MAX_CIPHERTEXT_LEN ciphertext_len) ;;
    DO ciphertext <- lift (plaintext_encrypt c5 aad plaintext ciphertext_len) ;;
    DO oscore_pkt <- lift (oscore_pkg_generate o_coap_pkt u_options ciphertext
                                               ciphertext_len oscore_option) ;;
    fun w =>
      match coap2buf oscore_pkt (buf_oscore w) (buf_oscore_len w) with
      | (r, b, n) => (r, {| c := c w; buf_oscore := b; buf_oscore_len := n |})
      end.

Definition is_empty_ack (p : o_coap_packet) : bool :=
  (CODE_EMPTY =? code (header p)) && (TYPE_ACK =? type (header p)).

(** Whether a call of coap2oscore gets as far as taking a sender sequence
    number: the packet parses, is not an empty ACK, its options split and
    its plaintext is set up, and it is a request, carries Observe among its
    U-options, or the context has its reboot flag set. *)
Definition takes_sequence_number (buf_o_coap : bytes) (w : world) : bool :=
  match buf2coap buf_o_coap with
  | Err _ => false
  | Ok o_coap_pkt =>
      if is_empty_ack o_coap_pkt then false
      else
        match coap2oscore_plaintext o_coap_pkt with
        | Err _ => false
        | Ok (_, u_options, _, _) =>
            is_request o_coap_pkt || is_observe u_options
            || reboot (rrc (c w))
        end
  end.

(** The option numbers of a list of options as CoAP defines them: the
    running sum of the deltas, starting after [prev], without reduction. *)
Fixpoint true_numbers (prev : Z) (os : list o_coap_option) : list Z :=
  match os with
  | [] => []
  | o :: rest => (prev + delta o) :: true_numbers (prev + delta o) rest
  end.

(** The class of a number: inner (E-list), outer (U-list); Observe is both. *)
Definition goes_inner (nr : Z) : bool := (nr =? OBSERVE) || is_class_e nr.
Definition goes_outer (nr : Z) : bool :=
  (nr =? OBSERVE) || negb (is_class_e nr).

(** What an input option becomes in the E-list and in the U-list when its
    number is taken to be [nr], deltas apart. *)
Definition inner_option (in_o_coap : o_coap_packet) (nr : Z)
    (o : o_coap_option) : o_coap_option :=
  if (nr =? OBSERVE) && negb (is_request in_o_coap)
  then {| delta := 0; len := 0; value := NULL; option_number := nr |}
  else {| delta := 0; len := u8 (len o); value := value o;
          option_number := nr |}.

Definition outer_option (nr : Z) (o : o_coap_option) : o_coap_option :=
  {| delta := 0; len := u8 (len o); value := value o; option_number := nr |}.

Definition inner_options (in_o_coap : o_coap_packet)
    (numbered : list (Z * o_coap_option)) : list o_coap_option :=
  flat_map (fun no => if goes_inner (fst no)
                      then [inner_option in_o_coap (fst no) (snd no)]
                      else []) numbered.

Definition outer_options (numbered : list (Z * o_coap_option))
  : list o_coap_option :=
  flat_map (fun no => if goes_outer (fst no)
                      then [outer_option (fst no) (snd no)]
                      else []) numbered.

(** The options of [os] with every delta rebuilt as the 16-bit difference
    between the option number and an 8-bit running sum of the deltas. *)
Fixpoint rebuild_deltas (sum : Z) (os : list o_coap_option)
  : list o_coap_option :=
  match os with
  | [] => []
  | o :: rest =>
      let d := u16 (option_number o - sum) in
      {| delta := d; len := len o; value := value o;
         option_number := option_number o |}
        :: rebuild_deltas (u8 (sum + d)) rest
  end.

(** The running sum after the options of [os]. *)
Fixpoint sum_after (sum : Z) (os : list o_coap_option) : Z :=
  match os with
  | [] => sum
  | o :: rest => sum_after (u8 (sum + u16 (option_number o - sum))) rest
  end.

(** Every delta is the difference to the number before, that number taken
    modulo 256. *)
Fixpoint deltas_rebuilt (prev : Z) (os : list o_coap_option) : Prop :=
  match os with
  | [] => True
  | o :: rest =>
      delta o = u16 (option_number o - u8 prev)
      /\ deltas_rebuilt (option_number o) rest
  end.

(** The index of the first of [nrs] above [bound], counting from [i];
    [dflt] when there is none. *)
Fixpoint first_above (bound i : Z) (nrs : list Z) (dflt : Z) : Z :=
  match nrs with
  | [] => dflt
  | n :: rest => if bound <? n then i else first_above bound (i + 1) rest dflt
  end.

(** [o] put at index [pos] of [os]. *)
Definition insert_at (pos : Z) (o : o_coap_option) (os : list o_coap_option)
  : list o_coap_option :=
  firstn (Z.to_nat pos) os ++ o :: skipn (Z.to_nat pos) os.

(** The number [nr] put into the numbers [nrs] before the first one above
    OSCORE, after all of them when there is none. *)
Definition merged_numbers (nr : Z) (nrs : list Z) : list Z :=
  let pos := first_above OSCORE 0 nrs (Zlength nrs) in
  firstn (Z.to_nat pos) nrs ++ nr :: skipn (Z.to_nat pos) nrs.



(** Two worlds that differ at most in the request-response context, and
    the computations that change nothing else. *)
Definition same_but_rrc (w w' : world) : Prop :=
  buf_oscore w' = buf_oscore w
  /\ buf_oscore_len w' = buf_oscore_len w
  /\ cc (c w') = cc (c w)
  /\ sc (c w') = sc (c w).

Definition keeps_sender {A : Type} (m : M A) : Prop :=
  forall w, same_but_rrc w (snd (m w)).


(** The same option, whatever the delta. *)
Definition same_option (a b : o_coap_option) : Prop :=
  option_number a = option_number b /\ len a = len b /\ value a = value b.

End Transform.

(** *** A platform to run the transform on

    The theorems about coap2oscore.c hold for every [Platform].  The closed
    examples need one: [test_platform] below, with the CoAP codec, the
    option classes, the nonce and the AAD as the specification describes
    them, and a stand-in for the AEAD. *)

(** Modelled from the spec: delta and length extension bytes of a CoAP
    option (4.1): '13 -> 1 extra byte + 13, 14 -> 2 extra bytes + 269,
    15 reserved'. *)
Definition read_ext (nibble : Z) (l : bytes) : option (Z * bytes) :=
  if nibble <? 13 then Some (nibble, l)
  else if nibble =? 13 then
    match l with
    | b :: r => Some (b + 13, r)
    | [] => None
    end
  else if nibble =? 14 then
    match l with
    | b1 :: b2 :: r => Some (b1 * 256 + b2 + 269, r)
    | _ => None
    end
  else None.

Definition nibble_of (v : Z) : Z :=
  if v <? 13 then v else if v <? 269 then 13 else 14.

Definition ext_of (v : Z) : bytes :=
  if v <? 13 then []
  else if v <? 269 then [v - 13]
  else Cbor.be_bytes 2 (v - 269).

(** The number of extension bytes of a delta or a length under that rule. *)
Definition coap_ext_bytes (v : Z) : Z := Zlength (ext_of v).

(** Modelled from the spec: the options and the payload of a packet (4.1),
    the payload marker 0xFF present iff there is a payload.  [nr] is the
    number of the option before. *)
Fixpoint parse_options (fuel : nat) (nr : Z) (l : bytes)
  : option (list o_coap_option * bytes) :=
  match fuel with
  | O => None
  | S fuel' =>
      match l with
      | [] => Some ([], [])
      | b :: r =>
          if b =? 255 then
            match r with
            | [] => None
            | _ => Some ([], r)
            end
          else
            match read_ext (b / 16) r with
            | None => None
            | Some (d, r1) =>
                match read_ext (b mod 16) r1 with
                | None => None
                | Some (n, r2) =>
                    match Cbor.take (Z.to_nat n) r2 with
                    | None => None
                    | Some (v, r3) =>
                        match parse_options fuel' (nr + d) r3 with
                        | None => None
                        | Some (os, pl) =>
                            Some ({| delta := d; len := n; value := v;
                                     option_number := nr + d |} :: os, pl)
                        end
                    end
                end
            end
      end
  end.

(** Modelled from the spec: [buf2coap], the parser of 4.1: version 1,
    TKL at most 8, then token, options and payload. *)
Definition test_buf2coap (buf : bytes) : result o_coap_packet :=
  match buf with
  | b0 :: b1 :: m1 :: m2 :: rest =>
      let h := {| ver := b0 / 64; type := (b0 / 16) mod 4; TKL := b0 mod 16;
                  code := b1; MID := m1 * 256 + m2 |} in
      if negb (ver h =? 1) || (8 <? TKL h) then Err not_valid_input_packet
      else
        match Cbor.take (Z.to_nat (TKL h)) rest with
        | None => Err not_valid_input_packet
        | Some (tok, rest') =>
            match parse_options (S (List.length rest')) 0 rest' with
            | None => Err not_valid_input_packet
            | Some (os, pl) =>
                Ok {| header := h; token := tok; options := os;
                      payload := pl |}
            end
        end
  | _ => Err not_valid_input_packet
  end.

(** Modelled from the spec: the serializer of 4.1 for one option and for a
    list of options, from the [delta], [len] and [value] members. *)
Definition option_bytes (o : o_coap_option) : bytes :=
  (nibble_of (delta o) * 16 + nibble_of (len o))
    :: ext_of (delta o) ++ ext_of (len o)
    ++ firstn (Z.to_nat (len o)) (value o).

Definition test_options_into_byte_string (os : list o_coap_option)
    (out_len : Z) : result bytes :=
  let b := List.concat (map option_bytes os) in
  if out_len <? Zlength b then Err buffer_to_small else Ok b.

Definition packet_bytes (p : o_coap_packet) : bytes :=
  let h := header p in
  [ver h * 64 + type h * 16 + TKL h; code h; MID h / 256; MID h mod 256]
    ++ firstn (Z.to_nat (TKL h)) (token p)
    ++ List.concat (map option_bytes (options p))
    ++ (if payload_len p =? 0 then [] else 255 :: payload p).

(** Modelled from the spec: [coap2buf]: the packet serialized into the
    output buffer when it fits in the size the caller announces. *)
Definition test_coap2buf (p : o_coap_packet) (buf : bytes) (buf_len : Z)
  : result unit * bytes * Z :=
  let b := packet_bytes p in
  if buf_len <? Zlength b then (Err dest_buffer_to_small, buf, buf_len)
  else
    match memcpy buf 0 b with
    | Ok buf' => (Ok tt, buf', Zlength b)
    | Err e => (Err e, buf, buf_len)
    end.

(** Modelled from the spec: a request has a code of class 0. *)
Definition test_is_request (p : o_coap_packet) : bool :=
  code (header p) / 32 =? 0.

(** Modelled from the spec: the option classes (3, data model): the outer
    only options of RFC 8613 are class U (Uri-Host 3, Uri-Port 7, OSCORE 9,
    Proxy-Uri 35, Proxy-Scheme 39), every other number is class E. *)
Definition test_is_class_e (nr : Z) : bool :=
  negb ((nr =? 3) || (nr =? 7) || (nr =? 9) || (nr =? 35) || (nr =? 39)).

(** Modelled from the spec: 'request_piv and request_kid cached for
    building response AAD', in case of a request. *)
Definition test_update_request_piv_request_kid (c : context)
    (piv kid : bytes) (request : bool) : result unit * req_resp_context :=
  (Ok tt,
   if request
   then {| nonce := nonce (rrc c); request_kid := kid; request_piv := piv;
           echo_opt_val := echo_opt_val (rrc c); reboot := reboot (rrc c) |}
   else rrc c).

(** Modelled from the spec: the value of the ECHO option (number 252) among
    the E-options is kept; its absence is an error. *)
Definition ECHO : Z := 252.

Definition test_cache_echo_val (old : bytes) (e_options : list o_coap_option)
  : result unit * bytes :=
  match find (fun o => option_number o =? ECHO) e_options with
  | Some o => (Ok tt, firstn (Z.to_nat (len o)) (value o))
  | None => (Err (other_error 1), old)
  end.

Definition pad_left (n : Z) (l : bytes) : bytes :=
  repeat 0 (Z.to_nat (n - Zlength l)) ++ l.

(** Modelled from the spec: the nonce (4.2.3) for a 13-byte AEAD nonce:
    the length of the identifier, the identifier padded to 7 bytes, the
    partial IV padded to 5 bytes, XOR-ed with the Common IV. *)
Definition test_create_nonce (id piv common_iv old : bytes)
  : result unit * bytes :=
  if (7 <? Zlength id) || (5 <? Zlength piv)
     || negb (Zlength common_iv =? 13)
  then (Err (other_error 2), old)
  else
    (Ok tt,
     map (fun xy => Z.lxor (fst xy) (snd xy))
         (combine (Zlength id :: pad_left 7 id ++ pad_left 5 piv) common_iv)).

(** Modelled from the spec: the AAD (4.2.4): the Enc_structure around
    [external_aad = [1, [aead_alg], request_kid, request_piv, h'']]. *)
Definition test_create_aad (alg : Z) (kid piv : bytes) (out_len : Z)
  : result bytes :=
  let external_aad :=
    Cbor.header Cbor.MAJOR_LIST 5 ++ Cbor.header 0 1
      ++ (Cbor.header Cbor.MAJOR_LIST 1 ++ Cbor.header 0 alg)
      ++ Cbor.bstr kid ++ Cbor.bstr piv ++ Cbor.bstr [] in
  let b := Cbor.header Cbor.MAJOR_LIST 3
             ++ Cbor.tstr (Cbor.bytes_of_string "Encrypt0")
             ++ Cbor.bstr [] ++ Cbor.bstr external_aad in
  if out_len <? Zlength b then Err buffer_to_small else Ok b.

(** A stand-in for the AEAD, which the specification leaves to the
    cryptographic adapter: the plaintext XOR-ed with the first byte of the
    nonce, followed by a tag of 8 bytes.  It refuses an empty key and a
    ciphertext length that is not the plaintext length plus the tag. *)
Definition test_oscore_cose_encrypt (plaintext : bytes) (out_len : Z)
    (nonce aad key : bytes) : result bytes :=
  if (Zlength key =? 0) || negb (out_len =? Zlength plaintext + 8)
  then Err (other_error 3)
  else Ok (map (fun b => Z.lxor b (nth 0 nonce 0)) plaintext
           ++ repeat (Zlength aad mod 256) 8).

(** The local arrays of the test platform hold zeros before they are
    written; the theorems about every [Platform] do not depend on it. *)
Definition test_platform : Platform :=
  {| MAX_OPTION_COUNT := 20;
     E_OPTIONS_BUFF_MAX_LEN := 256;
     MAX_PLAINTEXT_LEN := 512;
     MAX_CIPHERTEXT_LEN := 520;
     MAX_AAD_LEN := 64;
     AUTH_TAG_LEN := 8;
     OSCORE_OPT_VALUE_LEN := 20;
     buf2coap := test_buf2coap;
     coap2buf := test_coap2buf;
     is_request := test_is_request;
     is_class_e := test_is_class_e;
     options_into_byte_string := test_options_into_byte_string;
     update_request_piv_request_kid := test_update_request_piv_request_kid;
     cache_echo_val := test_cache_echo_val;
     create_nonce := test_create_nonce;
     create_aad := test_create_aad;
     oscore_cose_encrypt := test_oscore_cose_encrypt;
     uninitialized := fun _ _ => 0 |}.

(** A context with sender identifier 0x01 and the given sequence number and
    reboot flag, and a world around it with an output buffer of [n] bytes. *)
Definition test_context (ssn : Z) (rb : bool) : context :=
  {| cc := {| common_iv := [70; 34; 212; 221; 109; 148; 65; 104; 238; 251;
                            84; 152; 124];
              id_context := [];
              aead_alg := 10 |};
     sc := {| sender_id := [1];
              sender_key := [240; 145; 14; 215; 41; 94; 106; 212; 181; 79;
                             199; 147; 21; 67; 2; 255];
              sender_seq_num := ssn |};
     rrc := {| nonce := []; request_kid := []; request_piv := [];
               echo_opt_val := []; reboot := rb |} |}.

Definition test_world (ssn : Z) (rb : bool) (n : Z) : world :=
  {| c := test_context ssn rb;
     buf_oscore := repeat 0 (Z.to_nat n);
     buf_oscore_len := n |}.

(** *** Notions used by the further properties *)

(** The bound [plaintext_setup] computes for the serialized E-options
    (lines 227-231). *)
Definition e_opt_serial_len (E_options : list o_coap_option) : Z :=
  fold_left (fun acc o => u16 (acc + 1 + 2 + 2 + len o)) E_options 0.

(** What follows the E-options in the plaintext: nothing, or the payload
    marker and the payload. *)
Definition marked_payload (p : o_coap_packet) : bytes :=
  if payload_len p =? 0 then [] else 255 :: payload p.

(** Numbers that never decrease, start at [prev] or above and stay below
    256. *)
Fixpoint ascending_from (prev : Z) (nrs : list Z) : Prop :=
  match nrs with
  | [] => True
  | n :: rest => prev <= n < 256 /\ ascending_from n rest
  end.

Section Runs.
Context {P : Platform}.

(** The steps of coap2oscore after the OSCORE option (lines 588-607): the
    AAD, the encryption, the outer packet and its serialization. *)
Definition coap2oscore_tail (o_coap_pkt : o_coap_packet)
    (u_options : list o_coap_option) (plaintext : bytes) (plaintext_len : Z)
    (oscore_option : o_coap_option) : M unit :=
  DO _ <- lift (BYTE_ARRAY_NEW "aad" MAX_AAD_LEN MAX_AAD_LEN) ;;
  DO c5 <- get_c ;;
  DO aad <- lift (create_aad (aead_alg (cc c5)) (request_kid (rrc c5))
                             (request_piv (rrc c5)) MAX_AAD_LEN) ;;
  let ciphertext_len := u32 (plaintext_len + AUTH_TAG_LEN) in
  DO _ <- lift (check_buffer_size MAX_CIPHERTEXT_LEN ciphertext_len) ;;
  DO ciphertext <- lift (plaintext_encrypt c5 aad plaintext ciphertext_len) ;;
  DO oscore_pkt <- lift (oscore_pkg_generate o_coap_pkt u_options ciphertext
                                             ciphertext_len oscore_option) ;;
  fun w =>
    match coap2buf oscore_pkt (buf_oscore w) (buf_oscore_len w) with
    | (r, b, n) => (r, {| c := c w; buf_oscore := b; buf_oscore_len := n |})
    end.

(** coap2oscore called on one buffer after the other, on the same context
    and output buffer. *)
Fixpoint send_all (bufs : list bytes) (w : world) : world :=
  match bufs with
  | [] => w
  | buf :: rest => send_all rest (snd (coap2oscore buf w))
  end.

End Runs.

(** Inputs of the closed examples.  A confirmable GET with token 00 00 39
    74, Uri-Host "localhost" and Uri-Path "tv1"; a notification: non
    confirmable 2.05 Content with Observe = 42 and payload "Hi"; a non
    confirmable 2.04 Changed with payload "OK"; an empty ACK. *)
Definition test_get : bytes :=
  [68; 1; 93; 31; 0; 0; 57; 116;
   57; 108; 111; 99; 97; 108; 104; 111; 115; 116; 131; 116; 118; 49].

Definition test_notification : bytes :=
  [84; 69; 93; 31; 0; 0; 57; 116; 97; 42; 255; 72; 105].

Definition test_notification_packet : o_coap_packet :=
  {| header := {| ver := 1; type := 1; TKL := 4; code := 69; MID := 23839 |};
     token := [0; 0; 57; 116];
     options := [{| delta := 6; len := 1; value := [42];
                    option_number := 6 |}];
     payload := [72; 105] |}.

Definition test_changed : bytes := [80; 68; 0; 9; 255; 79; 75].

Definition test_empty_ack : bytes := [96; 0; 1; 2].

(** [test_get] as [buf2coap] parses it, and its two option lists. *)
Definition test_get_packet : o_coap_packet :=
  {| header := {| ver := 1; type := 0; TKL := 4; code := 1; MID := 23839 |};
     token := [0; 0; 57; 116];
     options := [{| delta := 3; len := 9;
                    value := [108; 111; 99; 97; 108; 104; 111; 115; 116];
                    option_number := 3 |};
                 {| delta := 8; len := 3; value := [116; 118; 49];
                    option_number := 11 |}];
     payload := [] |}.

Definition test_get_e_options : list o_coap_option :=
  [{| delta := 11; len := 3; value := [116; 118; 49]; option_number := 11 |}].

Definition test_get_u_options : list o_coap_option :=
  [{| delta := 3; len := 9;
      value := [108; 111; 99; 97; 108; 104; 111; 115; 116];
      option_number := 3 |}].

(** The E-option of the notification: Observe with an empty value. *)
Definition test_notification_e_options : list o_coap_option :=
  [{| delta := 6; len := 0; value := NULL; option_number := 6 |}].

(** A non confirmable 2.04 Changed with an Echo option of value 07, the
    first response after a reboot. *)
Definition test_echo : bytes := [80; 68; 0; 9; 209; 239; 7].

(** A confirmable GET with Uri-Host "a" and Uri-Query "b", as bytes and as
    [buf2coap] parses it; its E-option and its U-option. *)
Definition test_get_query : bytes := [64; 1; 0; 1; 49; 97; 193; 98].

Definition test_get_query_packet : o_coap_packet :=
  {| header := {| ver := 1; type := 0; TKL := 0; code := 1; MID := 1 |};
     token := [];
     options := [{| delta := 3; len := 1; value := [97]; option_number := 3 |};
                 {| delta := 12; len := 1; value := [98];
                    option_number := 15 |}];
     payload := [] |}.

Definition test_get_query_e_options : list o_coap_option :=
  [{| delta := 15; len := 1; value := [98]; option_number := 15 |}].

Definition test_get_query_u_options : list o_coap_option :=
  [{| delta := 3; len := 1; value := [97]; option_number := 3 |}].



(** A confirmable POST with Uri-Host "a", Uri-Query "b", Proxy-Uri "c", an
    option numbered 40 and the payload "!"; its E-options and U-options. *)
Definition test_post_packet : o_coap_packet :=
  {| header := {| ver := 1; type := 0; TKL := 0; code := 2; MID := 1 |};
     token := [];
     options := [{| delta := 3; len := 1; value := [97]; option_number := 3 |};
                 {| delta := 12; len := 1; value := [98];
                    option_number := 15 |};
                 {| delta := 20; len := 1; value := [99];
                    option_number := 35 |};
                 {| delta := 5; len := 1; value := [100];
                    option_number := 40 |}];
     payload := [33] |}.

Definition test_post_e_options : list o_coap_option :=
  [{| delta := 15; len := 1; value := [98]; option_number := 15 |};
   {| delta := 25; len := 1; value := [100]; option_number := 40 |}].

Definition test_post_u_options : list o_coap_option :=
  [{| delta := 3; len := 1; value := [97]; option_number := 3 |};
   {| delta := 32; len := 1; value := [99]; option_number := 35 |}].

(** A confirmable GET with one Uri-Path of 243 bytes. *)
Definition test_long_path_packet : o_coap_packet :=
  {| header := {| ver := 1; type := 0; TKL := 0; code := 1; MID := 1 |};
     token := [];
     options := [{| delta := 11; len := 243; value := repeat 7 243%nat;
                    option_number := 11 |}];
     payload := [] |}.

End Oscore.

(** * Properties *)

(** ** Lists and machine arithmetic *)

Lemma Zlength_nonneg {A : Type} (l : list A) : 0 <= Zlength l.
Proof. rewrite Zlength_correct. lia. Qed.

Lemma Zlength_app' {A : Type} (l1 l2 : list A) :
  Zlength (l1 ++ l2) = Zlength l1 + Zlength l2.
Proof. rewrite !Zlength_correct, length_app. lia. Qed.

Lemma Zlength_to_nat {A : Type} (l : list A) :
  Z.to_nat (Zlength l) = List.length l.
Proof. rewrite Zlength_correct. lia. Qed.

Lemma firstn_Zlength {A : Type} (l : list A) :
  firstn (Z.to_nat (Zlength l)) l = l.
Proof. rewrite Zlength_to_nat. apply firstn_all. Qed.

(** ** CBOR: what is written can be read back *)

Module CborFacts.
Import Cbor.

Lemma be_bytes_length (k : nat) (n : Z) : List.length (be_bytes k n) = k.
Proof.
  revert n; induction k as [|k IH]; intros n; simpl; [reflexivity|].
  rewrite length_app, IH. simpl. lia.
Qed.

Lemma be_value_snoc (l : bytes) (b : Z) :
  be_value (l ++ [b]) = be_value l * 256 + b.
Proof. unfold be_value. rewrite fold_left_app. reflexivity. Qed.

Lemma be_value_be_bytes (k : nat) (n : Z) :
  0 <= n -> be_value (be_bytes k n) = n mod 256 ^ Z.of_nat k.
Proof.
  revert n; induction k as [|k IH]; intros n Hn.
  - simpl. rewrite Z.mod_1_r. reflexivity.
  - cbn [be_bytes]. rewrite be_value_snoc, IH by (apply Z.div_pos; lia).
    rewrite Nat2Z.inj_succ, Z.pow_succ_r by lia.
    rewrite (Z.rem_mul_r n 256 (256 ^ Z.of_nat k)) by lia.
    lia.
Qed.

Lemma take_app (l rest : bytes) :
  take (List.length l) (l ++ rest) = Some (l, rest).
Proof.
  unfold take. rewrite length_app.
  replace (List.length l <=? List.length l + List.length rest)%nat with true
    by (symmetry; apply Nat.leb_le; lia).
  rewrite firstn_app, Nat.sub_diag, firstn_all, firstn_O, app_nil_r.
  rewrite skipn_app, Nat.sub_diag, skipn_all. reflexivity.
Qed.

Lemma take_be_bytes (k : nat) (n : Z) (rest : bytes) :
  take k (be_bytes k n ++ rest) = Some (be_bytes k n, rest).
Proof.
  rewrite <- (be_bytes_length k n) at 1. apply take_app.
Qed.

Lemma head_byte (major ai : Z) :
  0 <= major < 8 -> 0 <= ai < 32 ->
  (major * 32 + ai) / 32 = major /\ (major * 32 + ai) mod 32 = ai.
Proof.
  intros Hm Ha. split.
  - symmetry. apply (Z.div_unique _ 32 major ai); lia.
  - symmetry. apply (Z.mod_unique _ 32 major ai); lia.
Qed.

(** The head of an item is read back, whatever follows it. *)
Lemma decode_header_header (major n : Z) (rest : bytes) :
  0 <= major < 8 -> 0 <= n < 2 ^ 64 ->
  decode_header major (header major n ++ rest) = Some (n, rest).
Proof.
  intros Hm Hn. unfold header.
  assert (H64 : 2 ^ 64 = 18446744073709551616) by reflexivity.
  destruct (Z.ltb_spec n 24);
    [|destruct (Z.ltb_spec n 256);
      [|destruct (Z.ltb_spec n 65536);
        [|destruct (Z.ltb_spec n 4294967296)]]];
    cbn [app decode_header].
  - destruct (head_byte major n Hm) as [-> ->]; [lia|].
    rewrite Z.eqb_refl. cbn [negb].
    destruct (Z.ltb_spec n 24); [reflexivity|lia].
  - destruct (head_byte major 24 Hm) as [-> ->]; [lia|].
    rewrite Z.eqb_refl. cbn [negb]. cbn -[take be_bytes be_value].
    rewrite take_be_bytes, be_value_be_bytes by lia.
    rewrite Z.mod_small by (cbn; lia). reflexivity.
  - destruct (head_byte major 25 Hm) as [-> ->]; [lia|].
    rewrite Z.eqb_refl. cbn [negb]. cbn -[take be_bytes be_value].
    rewrite take_be_bytes, be_value_be_bytes by lia.
    rewrite Z.mod_small by (cbn; lia). reflexivity.
  - destruct (head_byte major 26 Hm) as [-> ->]; [lia|].
    rewrite Z.eqb_refl. cbn [negb]. cbn -[take be_bytes be_value].
    rewrite take_be_bytes, be_value_be_bytes by lia.
    rewrite Z.mod_small by (cbn; lia). reflexivity.
  - destruct (head_byte major 27 Hm) as [-> ->]; [lia|].
    rewrite Z.eqb_refl. cbn [negb]. cbn -[take be_bytes be_value].
    rewrite take_be_bytes, be_value_be_bytes by lia.
    rewrite Z.mod_small by (cbn; lia). reflexivity.
Qed.

Lemma decode_bstr_bstr (v rest : bytes) :
  Zlength v < 2 ^ 64 ->
  decode_bstr (bstr v ++ rest) = Some (v, rest).
Proof.
  intros Hv. unfold decode_bstr, bstr. rewrite <- app_assoc.
  rewrite decode_header_header
    by (unfold MAJOR_BSTR; pose proof (Zlength_nonneg v); lia).
  rewrite Zlength_to_nat. apply take_app.
Qed.

Lemma header_nonempty (major n : Z) : 1 <= Zlength (header major n).
Proof.
  unfold header.
  repeat match goal with |- context [if ?b then _ else _] => destruct b end;
    rewrite Zlength_correct; simpl; lia.
Qed.

Lemma bstr_Zlength (v : bytes) : 1 + Zlength v <= Zlength (bstr v).
Proof.
  unfold bstr. rewrite Zlength_app'.
  pose proof (header_nonempty MAJOR_BSTR (Zlength v)). lia.
Qed.

Lemma bstr_not_nil (v : bytes) : bstr v <> [].
Proof.
  intros H. pose proof (bstr_Zlength v) as L. rewrite H in L.
  pose proof (Zlength_nonneg v). rewrite Zlength_nil in L. lia.
Qed.

(** A sequence of byte strings is read back item by item. *)
Lemma decode_bstr_seq_bstrs (vs : list bytes) (fuel : nat) :
  Forall (fun v => Zlength v < 2 ^ 64) vs ->
  (List.length vs <= fuel)%nat ->
  decode_bstr_seq fuel (List.concat (map bstr vs)) = Some vs.
Proof.
  revert fuel; induction vs as [|v vs IH]; intros fuel Hb Hf.
  - destruct fuel; reflexivity.
  - inversion Hb as [|? ? Hv Hvs]; subst.
    destruct fuel as [|fuel]; [simpl in Hf; lia|].
    cbn [map List.concat].
    destruct (bstr v ++ List.concat (map bstr vs)) as [|b r] eqn:E.
    + apply app_eq_nil in E. destruct E as [E _].
      exfalso. exact (bstr_not_nil v E).
    + rewrite <- E. cbn [decode_bstr_seq].
      rewrite E. rewrite <- E.
      rewrite decode_bstr_bstr by assumption.
      rewrite IH by (simpl in Hf; auto; lia). reflexivity.
Qed.

End CborFacts.

(** ** EDHOC encoders *)

Section EdhocFacts.
Import Cbor Edhoc CborFacts.

Lemma emit_fits (s : cbor_state_t) (bs : bytes) :
  Zlength (Cbor.payload s) + Zlength bs <= payload_end s ->
  emit s bs = (true, {| Cbor.payload := Cbor.payload s ++ bs;
                        payload_end := payload_end s |}).
Proof.
  intros H. unfold emit.
  destruct (Z.leb_spec (Zlength (Cbor.payload s) + Zlength bs) (payload_end s));
    [reflexivity|lia].
Qed.

(** C1 (as amended): the byte string hashed to produce TH_3 is the CBOR
    encoding of two items, the byte strings TH_2 and CIPHERTEXT_2, in this
    order: for every input that fits the output buffer, [cbor_encode_th3]
    succeeds, writes exactly these two items and reports their length, and
    reading the output back as a CBOR sequence gives TH_2 and CIPHERTEXT_2
    and nothing else. *)
Theorem encode_th3_two_items (payload_len : Z) (input : th3) :
  payload_len < 2 ^ 32 ->
  Zlength (bstr (_th3_th_2 input) ++ bstr (_th3_CIPHERTEXT_2 input))
    <= payload_len ->
  cbor_encode_th3 payload_len input
    = (true,
       bstr (_th3_th_2 input) ++ bstr (_th3_CIPHERTEXT_2 input),
       Some (Zlength (bstr (_th3_th_2 input)
                      ++ bstr (_th3_CIPHERTEXT_2 input))))
  /\ decode_bstr_seq 2 (bstr (_th3_th_2 input)
                        ++ bstr (_th3_CIPHERTEXT_2 input))
     = Some [_th3_th_2 input; _th3_CIPHERTEXT_2 input].
Proof.
  intros Hlen Hfit. destruct input as [a b].
  cbn [_th3_th_2 _th3_CIPHERTEXT_2] in *.
  rewrite Zlength_app' in Hfit.
  pose proof (bstr_Zlength a) as La. pose proof (bstr_Zlength b) as Lb.
  pose proof (Zlength_nonneg a) as Na. pose proof (Zlength_nonneg b) as Nb.
  split.
  - unfold cbor_encode_th3, encode_th3, bstrx_encode.
    cbn [_th3_th_2 _th3_CIPHERTEXT_2].
    rewrite emit_fits by (cbn [new_state Cbor.payload payload_end];
                          rewrite Zlength_nil; lia).
    cbn [new_state Cbor.payload payload_end app].
    rewrite emit_fits by (cbn [Cbor.payload payload_end]; lia).
    cbn [Cbor.payload payload_end].
    rewrite Zlength_app', Z.min_r by lia. reflexivity.
  - pose proof (decode_bstr_seq_bstrs [a; b] 2) as D.
    cbn [map List.concat] in D. rewrite app_nil_r in D.
    apply D; [|simpl; lia].
    repeat constructor; lia.
Qed.

Lemma encode_th3_two_items_witness :
  cbor_encode_th3 64 {| _th3_th_2 := [1; 2]; _th3_CIPHERTEXT_2 := [3] |}
    = (true, [66; 1; 2; 65; 3], Some 5)
  /\ decode_bstr_seq 2 [66; 1; 2; 65; 3] = Some [[1; 2]; [3]].
Proof.
  apply (encode_th3_two_items 64
           {| _th3_th_2 := [1; 2]; _th3_CIPHERTEXT_2 := [3] |}).
  - reflexivity.
  - vm_compute. discriminate.
Defined.

(** C1 as stated fails: on TH_2 = 0x01 and CIPHERTEXT_2 = 0x02 the encoder
    writes 41 01 41 02, a sequence of two items, which is not the
    serialization of three byte strings TH_2, PLAINTEXT_2 and CRED_R,
    whatever they are. *)
Lemma encode_th3_not_three_items :
  cbor_encode_th3 64 {| _th3_th_2 := [1]; _th3_CIPHERTEXT_2 := [2] |}
    = (true, [65; 1; 65; 2], Some 4)
  /\ decode_bstr_seq 4 [65; 1; 65; 2] = Some [[1]; [2]]
  /\ forall th_2 plaintext_2 cred_r : bytes,
       [65; 1; 65; 2] <> th3_input_spec th_2 plaintext_2 cred_r.
Proof.
  split; [reflexivity|]. split; [reflexivity|].
  intros a b c H.
  assert (L : Zlength (th3_input_spec a b c) = 4)
    by (rewrite <- H; reflexivity).
  unfold th3_input_spec in L. rewrite !Zlength_app' in L.
  pose proof (bstr_Zlength a). pose proof (bstr_Zlength b).
  pose proof (bstr_Zlength c).
  pose proof (Zlength_nonneg a). pose proof (Zlength_nonneg b).
  pose proof (Zlength_nonneg c).
  pose proof (decode_bstr_seq_bstrs [a; b; c] 4) as D.
  cbn [map List.concat] in D. rewrite app_nil_r in D.
  unfold th3_input_spec in H. rewrite <- H in D.
  assert (E : decode_bstr_seq 4 [65; 1; 65; 2] = Some [a; b; c]).
  { apply D; [|simpl; lia].
    assert (4 < 2 ^ 64) by reflexivity. repeat constructor; lia. }
  vm_compute in E. discriminate E.
Qed.

Lemma tstr_Encrypt0 :
  tstr (bytes_of_string "Encrypt0")
  = [104; 69; 110; 99; 114; 121; 112; 116; 48].
Proof. reflexivity. Qed.

Lemma serialize_Enc_structure (external_aad : bytes) :
  serialize (Enc_structure external_aad)
  = [131; 104; 69; 110; 99; 114; 121; 112; 116; 48; 64] ++ bstr external_aad.
Proof.
  unfold Enc_structure. cbn [serialize map List.concat].
  rewrite tstr_Encrypt0, app_nil_r. reflexivity.
Qed.

(** C8: for every transcript hash thX, [associated_data_encode] produces the
    CBOR serialization of the COSE Enc_structure ["Encrypt0", h'', thX]: when
    the output buffer can hold it, the call succeeds, the output is that
    serialization (the array head 0x83, the text string "Encrypt0", the empty
    byte string 0x40, then thX as a byte string) and [*out_len] is its
    length. *)
Theorem associated_data_encode_Enc_structure (thX : bytes) (out_len : Z) :
  Zlength (serialize (Enc_structure thX)) <= out_len ->
  associated_data_encode thX (Zlength thX) out_len
    = (edhoc_no_error, serialize (Enc_structure thX),
       Zlength (serialize (Enc_structure thX)))
  /\ serialize (Enc_structure thX)
     = [131; 104; 69; 110; 99; 114; 121; 112; 116; 48; 64] ++ bstr thX.
Proof.
  intros Hfit. split; [|apply serialize_Enc_structure].
  rewrite serialize_Enc_structure in *.
  rewrite Zlength_app' in Hfit.
  change (Zlength [131; 104; 69; 110; 99; 114; 121; 112; 116; 48; 64])
    with 11 in Hfit.
  pose proof (bstr_Zlength thX). pose proof (Zlength_nonneg thX).
  unfold associated_data_encode, cose_enc_structure_encode.
  change (strlen context_str) with 8.
  change (firstn (Z.to_nat 8) context_str) with (bytes_of_string "Encrypt0").
  change (firstn (Z.to_nat 0) NULL) with (@nil Z).
  rewrite firstn_Zlength.
  unfold list_encode, tstrx_encode, bstrx_encode.
  rewrite emit_fits
    by (cbn [new_state Cbor.payload payload_end];
        change (Zlength (header MAJOR_LIST 3)) with 1;
        rewrite Zlength_nil; lia).
  cbn [new_state Cbor.payload payload_end app].
  rewrite tstr_Encrypt0.
  rewrite emit_fits
    by (cbn [Cbor.payload payload_end];
        change (Zlength (header MAJOR_LIST 3)) with 1;
        change (Zlength [104; 69; 110; 99; 114; 121; 112; 116; 48]) with 9;
        lia).
  cbn [Cbor.payload payload_end].
  change (header MAJOR_LIST 3 ++ [104; 69; 110; 99; 114; 121; 112; 116; 48])
    with [131; 104; 69; 110; 99; 114; 121; 112; 116; 48].
  rewrite emit_fits
    by (cbn [Cbor.payload payload_end];
        change (Zlength [131; 104; 69; 110; 99; 114; 121; 112; 116; 48]) with 10;
        change (Zlength (bstr [])) with 1; lia).
  cbn [Cbor.payload payload_end].
  change ([131; 104; 69; 110; 99; 114; 121; 112; 116; 48] ++ bstr [])
    with [131; 104; 69; 110; 99; 114; 121; 112; 116; 48; 64].
  rewrite emit_fits
    by (cbn [Cbor.payload payload_end];
        change (Zlength [131; 104; 69; 110; 99; 114; 121; 112; 116; 48; 64])
          with 11; lia).
  cbn [Cbor.payload payload_end]. reflexivity.
Qed.

Lemma associated_data_encode_Enc_structure_witness :
  associated_data_encode [170; 187; 204] 3 64
    = (edhoc_no_error,
       [131; 104; 69; 110; 99; 114; 121; 112; 116; 48; 64; 67; 170; 187; 204],
       15)
  /\ serialize (Enc_structure [170; 187; 204])
     = [131; 104; 69; 110; 99; 114; 121; 112; 116; 48; 64; 67; 170; 187; 204].
Proof.
  apply (associated_data_encode_Enc_structure [170; 187; 204] 64).
  vm_compute. discriminate.
Defined.

End EdhocFacts.

(** ** The option split *)

Import Oscore.

Section SplitFacts.
Context {P : Platform}.

Lemma u8_idem (x : Z) : u8 (u8 x) = u8 x.
Proof. unfold u8. apply Z.mod_mod. lia. Qed.

Lemma u8_range (x : Z) : 0 <= u8 x < 256.
Proof. unfold u8. apply Z.mod_pos_bound. lia. Qed.

Lemma u8_small (x : Z) : 0 <= x < 256 -> u8 x = x.
Proof. unfold u8. apply Z.mod_small. Qed.

Lemma u8_add_l (x y : Z) : u8 (u8 x + y) = u8 (x + y).
Proof. unfold u8. apply Zplus_mod_idemp_l. Qed.

(** Adding a rebuilt delta to the 8-bit sum gives the option number again,
    modulo 256. *)
Lemma u8_sum_delta (sum nr : Z) : u8 (sum + u16 (nr - sum)) = u8 nr.
Proof.
  unfold u8, u16. rewrite (Z.mod_eq (nr - sum) 65536) by lia.
  replace (sum + (nr - sum - 65536 * ((nr - sum) / 65536)))
    with (nr + (- 256 * ((nr - sum) / 65536)) * 256) by lia.
  apply Z_mod_plus_full.
Qed.

Lemma rebuild_deltas_app (sum : Z) (l1 l2 : list o_coap_option) :
  rebuild_deltas sum (l1 ++ l2)
  = rebuild_deltas sum l1 ++ rebuild_deltas (sum_after sum l1) l2.
Proof.
  revert sum; induction l1 as [|o l1 IH]; intros sum; simpl.
  - reflexivity.
  - rewrite IH. reflexivity.
Qed.

Lemma sum_after_app (sum : Z) (l1 l2 : list o_coap_option) :
  sum_after sum (l1 ++ l2) = sum_after (sum_after sum l1) l2.
Proof.
  revert sum; induction l1 as [|o l1 IH]; intros sum; simpl; auto.
Qed.

Lemma rebuild_deltas_numbers (sum : Z) (l : list o_coap_option) :
  map option_number (rebuild_deltas sum l) = map option_number l.
Proof.
  revert sum; induction l as [|o l IH]; intros sum; simpl; [reflexivity|].
  rewrite IH. reflexivity.
Qed.

Lemma rebuild_deltas_length (sum : Z) (l : list o_coap_option) :
  List.length (rebuild_deltas sum l) = List.length l.
Proof.
  revert sum; induction l as [|o l IH]; intros sum; simpl; auto.
Qed.


Lemma rebuild_deltas_In (sum : Z) (l : list o_coap_option) (o : o_coap_option) :
  In o l -> exists o', In o' (rebuild_deltas sum l) /\ same_option o' o.
Proof.
  revert sum; induction l as [|x l IH]; intros sum H; [destruct H|].
  destruct H as [H|H].
  - subst. eexists. split; [left; reflexivity|]. repeat split.
  - destruct (IH (u8 (sum + u16 (option_number x - sum))) H) as [o' [I S]].
    exists o'. split; [right; exact I|exact S].
Qed.

Lemma deltas_rebuilt_rebuild (prev : Z) (l : list o_coap_option) :
  deltas_rebuilt prev (rebuild_deltas (u8 prev) l).
Proof.
  revert prev; induction l as [|o l IH]; intros prev; simpl; [exact I|].
  split; [reflexivity|].
  rewrite u8_sum_delta. apply IH.
Qed.

(** One iteration, from a state whose [temp_option_nr] is the 8-bit image
    of the number [N] reached so far. *)
Lemma split_step_spec (in_o_coap : o_coap_packet) (s : split_state)
    (o : o_coap_option) (N : Z) :
  temp_option_nr s = u8 N ->
  let nr := u8 (N + delta o) in
  let inner := if goes_inner nr then [inner_option in_o_coap nr o] else [] in
  let outer := if goes_outer nr then [outer_option nr o] else [] in
  let s1 := split_step in_o_coap s o in
  temp_option_nr s1 = nr
  /\ e_options s1
     = e_options s ++ rebuild_deltas (temp_E_option_delta_sum s) inner
  /\ temp_E_option_delta_sum s1 = sum_after (temp_E_option_delta_sum s) inner
  /\ U_options s1
     = U_options s ++ rebuild_deltas (temp_U_option_delta_sum s) outer
  /\ temp_U_option_delta_sum s1 = sum_after (temp_U_option_delta_sum s) outer.
Proof.
  intros HN. cbn zeta.
  assert (Hnr : u8 (temp_option_nr s + delta o) = u8 (N + delta o))
    by (rewrite HN; apply u8_add_l).
  unfold split_step, goes_inner, goes_outer, inner_option, outer_option.
  rewrite Hnr.
  destruct (u8 (N + delta o) =? OBSERVE) eqn:Eobs.
  - destruct (is_request in_o_coap);
      cbn; rewrite ?app_nil_r; repeat split; reflexivity.
  - destruct (is_class_e (u8 (N + delta o)));
      cbn; rewrite ?app_nil_r; repeat split; reflexivity.
Qed.

(** The loop of [inner_outer_option_split]: the options go to the lists
    according to their numbers modulo 256, with the deltas rebuilt from the
    8-bit sums. *)
Lemma split_fold (in_o_coap : o_coap_packet) (os : list o_coap_option) :
  forall (s : split_state) (N : Z),
    temp_option_nr s = u8 N ->
    let s' := fold_left (split_step in_o_coap) os s in
    let numbered := combine (map u8 (true_numbers N os)) os in
    e_options s' = e_options s
                   ++ rebuild_deltas (temp_E_option_delta_sum s)
                                     (inner_options in_o_coap numbered)
    /\ U_options s' = U_options s
                      ++ rebuild_deltas (temp_U_option_delta_sum s)
                                        (outer_options numbered).
Proof.
  induction os as [|o os IH]; intros s N HN; cbn zeta.
  - simpl. rewrite !app_nil_r. split; reflexivity.
  - cbn [fold_left true_numbers map combine].
    destruct (split_step_spec in_o_coap s o N HN)
      as (H1 & HE & HEs & HU & HUs).
    destruct (IH (split_step in_o_coap s o) (N + delta o) H1) as [IE IU].
    rewrite IE, IU, HE, HEs, HU, HUs.
    unfold inner_options, outer_options. cbn [flat_map fst snd].
    rewrite !rebuild_deltas_app, <- !app_assoc. split; reflexivity.
Qed.

(** [inner_outer_option_split] as a whole. *)
Lemma inner_outer_option_split_spec (in_o_coap : o_coap_packet) :
  options_cnt in_o_coap <= MAX_OPTION_COUNT ->
  let numbered := combine (map u8 (true_numbers 0 (options in_o_coap)))
                          (options in_o_coap) in
  exists e_options_len,
    inner_outer_option_split in_o_coap
    = Ok (rebuild_deltas 0 (inner_options in_o_coap numbered),
          e_options_len,
          rebuild_deltas 0 (outer_options numbered)).
Proof.
  intros Hcnt numbered. unfold inner_outer_option_split.
  destruct (Z.ltb_spec MAX_OPTION_COUNT (options_cnt in_o_coap)); [lia|].
  destruct (split_fold in_o_coap (options in_o_coap) split_init 0 eq_refl)
    as [HE HU].
  rewrite HE, HU. cbn [split_init e_options U_options app
                       temp_E_option_delta_sum temp_U_option_delta_sum].
  eexists. reflexivity.
Qed.

Lemma nth_error_combine {A B : Type} (l1 : list A) (l2 : list B) (i : nat)
    (a : A) (b : B) :
  nth_error l1 i = Some a -> nth_error l2 i = Some b ->
  In (a, b) (combine l1 l2).
Proof.
  revert l2 i; induction l1 as [|x l1 IH]; intros l2 i H1 H2.
  - destruct i; discriminate.
  - destruct l2 as [|y l2]; [destruct i; discriminate|].
    destruct i as [|i]; simpl in *.
    + injection H1 as ->. injection H2 as ->. left. reflexivity.
    + right. eapply IH; eassumption.
Qed.

Lemma true_numbers_length (prev : Z) (os : list o_coap_option) :
  List.length (true_numbers prev os) = List.length os.
Proof.
  revert prev; induction os as [|o os IH]; intros prev; simpl; auto.
Qed.

Lemma map_fst_combine {A B : Type} (l1 : list A) (l2 : list B) :
  List.length l1 = List.length l2 -> map fst (combine l1 l2) = l1.
Proof.
  revert l2; induction l1 as [|x l1 IH]; intros [|y l2] H;
    simpl in *; try discriminate; [reflexivity|].
  f_equal. apply IH. lia.
Qed.

Lemma inner_options_numbers (in_o_coap : o_coap_packet)
    (numbered : list (Z * o_coap_option)) :
  map option_number (inner_options in_o_coap numbered)
  = filter goes_inner (map fst numbered).
Proof.
  unfold inner_options.
  induction numbered as [|[nr o] l IH]; simpl; [reflexivity|].
  rewrite map_app, IH.
  destruct (goes_inner nr); simpl; [|reflexivity].
  unfold inner_option. destruct ((nr =? OBSERVE) && negb (is_request in_o_coap));
    reflexivity.
Qed.

Lemma outer_options_numbers (numbered : list (Z * o_coap_option)) :
  map option_number (outer_options numbered)
  = filter goes_outer (map fst numbered).
Proof.
  unfold outer_options.
  induction numbered as [|[nr o] l IH]; simpl; [reflexivity|].
  rewrite map_app, IH.
  destruct (goes_outer nr); reflexivity.
Qed.

(** C2 (as amended): for every input CoAP packet of at most
    [MAX_OPTION_COUNT] options that contains an Observe option, the option
    split succeeds and places Observe in both the E-list and the U-list.  The
    U-list entry carries the value of the option.  In a request the E-list
    entry carries the same value; in a response (notification) the E-list
    entry is still there, with its value elided (length 0, no value). *)
Theorem observe_in_both_lists (in_o_coap : o_coap_packet) (i : nat)
    (o : o_coap_option) :
  options_cnt in_o_coap <= MAX_OPTION_COUNT ->
  nth_error (options in_o_coap) i = Some o ->
  nth_error (true_numbers 0 (options in_o_coap)) i = Some OBSERVE ->
  exists E e_len U e u,
    inner_outer_option_split in_o_coap = Ok (E, e_len, U)
    /\ In e E /\ In u U
    /\ option_number e = OBSERVE /\ option_number u = OBSERVE
    /\ len u = u8 (len o) /\ value u = value o
    /\ (is_request in_o_coap = true -> len e = len u /\ value e = value u)
    /\ (is_request in_o_coap = false -> len e = 0 /\ value e = NULL).
Proof.
  intros Hcnt Ho Hn.
  destruct (inner_outer_option_split_spec in_o_coap Hcnt) as [e_len Hsplit].
  set (numbered := combine (map u8 (true_numbers 0 (options in_o_coap)))
                           (options in_o_coap)) in *.
  assert (Hin : In (OBSERVE, o) numbered).
  { apply (nth_error_combine _ _ i); [|exact Ho].
    change (Some OBSERVE) with (Some (u8 OBSERVE)).
    apply map_nth_error. exact Hn. }
  assert (HinE : In (inner_option in_o_coap OBSERVE o)
                    (inner_options in_o_coap numbered)).
  { unfold inner_options. apply in_flat_map.
    exists (OBSERVE, o). split; [exact Hin|]. left. reflexivity. }
  assert (HinU : In (outer_option OBSERVE o) (outer_options numbered)).
  { unfold outer_options. apply in_flat_map.
    exists (OBSERVE, o). split; [exact Hin|]. left. reflexivity. }
  destruct (rebuild_deltas_In 0 _ _ HinE) as (e & He & Se1 & Se2 & Se3).
  destruct (rebuild_deltas_In 0 _ _ HinU) as (u & Hu & Su1 & Su2 & Su3).
  exists (rebuild_deltas 0 (inner_options in_o_coap numbered)), e_len,
         (rebuild_deltas 0 (outer_options numbered)), e, u.
  split; [exact Hsplit|].
  split; [exact He|]. split; [exact Hu|].
  unfold inner_option in Se1, Se2, Se3. unfold outer_option in Su1, Su2, Su3.
  cbn [option_number len value] in Su1, Su2, Su3.
  split; [|split; [exact Su1|split; [exact Su2|split; [exact Su3|]]]].
  - destruct ((OBSERVE =? OBSERVE) && negb (is_request in_o_coap));
      exact Se1.
  - split; intros Hreq; rewrite Hreq in *;
      cbn [option_number len value andb negb] in *;
      change (OBSERVE =? OBSERVE) with true in *;
      cbn [option_number len value andb negb] in *.
    + rewrite Su2, Su3. split; assumption.
    + split; assumption.
Qed.

End SplitFacts.

Lemma observe_in_both_lists_witness :
  exists E e_len U e u,
    @inner_outer_option_split test_platform
      {| header := {| ver := 1; type := 1; TKL := 0; code := 69; MID := 7 |};
         token := [];
         options := [{| delta := 6; len := 1; value := [42];
                        option_number := 6 |}];
         payload := [72; 105] |}
    = Ok (E, e_len, U)
    /\ In e E /\ In u U
    /\ option_number e = OBSERVE /\ option_number u = OBSERVE
    /\ len u = u8 1 /\ value u = [42]
    /\ (false = true -> len e = len u /\ value e = value u)
    /\ (false = false -> len e = 0 /\ value e = NULL).
Proof.
  apply (@observe_in_both_lists test_platform
           {| header := {| ver := 1; type := 1; TKL := 0; code := 69;
                           MID := 7 |};
              token := [];
              options := [{| delta := 6; len := 1; value := [42];
                             option_number := 6 |}];
              payload := [72; 105] |} 0
           {| delta := 6; len := 1; value := [42]; option_number := 6 |}).
  - vm_compute. discriminate.
  - reflexivity.
  - reflexivity.
Defined.

(** C2 as stated fails: a notification (2.05 Content) with Observe = 42 is
    split into an E-list that does contain an Observe option, of length 0,
    next to the U-list entry that carries the value. *)
Lemma observe_of_response_is_in_E_list :
  @inner_outer_option_split test_platform
    {| header := {| ver := 1; type := 1; TKL := 0; code := 69; MID := 7 |};
       token := [];
       options := [{| delta := 6; len := 1; value := [42];
                      option_number := 6 |}];
       payload := [72; 105] |}
  = Ok ([{| delta := 6; len := 0; value := NULL; option_number := OBSERVE |}],
        1,
        [{| delta := 6; len := 1; value := [42]; option_number := OBSERVE |}])
  /\ @is_request test_platform
       {| header := {| ver := 1; type := 1; TKL := 0; code := 69; MID := 7 |};
          token := [];
          options := [{| delta := 6; len := 1; value := [42];
                         option_number := 6 |}];
          payload := [72; 105] |} = false
  /\ is_observe [{| delta := 6; len := 0; value := NULL;
                    option_number := OBSERVE |}] = true.
Proof. repeat split. Qed.

(** ** The outer packet *)

Section PkgFacts.
Context {P : Platform}.

Lemma firstn_snoc {A : Type} (l : list A) (k : nat) (d : A) :
  (k < List.length l)%nat -> firstn (S k) l = firstn k l ++ [nth k l d].
Proof.
  revert k; induction l as [|x l IH]; intros k H; simpl in *; [lia|].
  destruct k as [|k]; simpl; [reflexivity|].
  f_equal. apply IH. lia.
Qed.

Lemma nth_insert (u : list o_coap_option) (oo d : o_coap_option) :
  forall pos k : nat,
    (pos <= List.length u)%nat ->
    nth k (firstn pos u ++ oo :: skipn pos u) d
    = if (k <? pos)%nat then nth k u d
      else if (k =? pos)%nat then oo
      else nth (k - 1) u d.
Proof.
  induction u as [|x u IH]; intros pos k Hpos.
  - simpl in Hpos. assert (pos = 0%nat) by lia. subst pos. simpl.
    destruct k as [|k]; [reflexivity|]. simpl. destruct k; reflexivity.
  - destruct pos as [|pos].
    + simpl. destruct k as [|k]; [reflexivity|].
      simpl. rewrite Nat.sub_0_r. reflexivity.
    + simpl in Hpos. cbn [firstn skipn app].
      destruct k as [|k]; [reflexivity|].
      cbn [nth]. rewrite IH by lia.
      change (S k <? S pos)%nat with (k <? pos)%nat.
      change (S k =? S pos)%nat with (k =? pos)%nat.
      destruct (Nat.ltb_spec k pos); [reflexivity|].
      destruct (Nat.eqb_spec k pos); [reflexivity|].
      destruct k as [|k]; [lia|].
      simpl. rewrite Nat.sub_0_r. reflexivity.
Qed.

Lemma insert_at_length (pos : Z) (oo : o_coap_option)
    (u : list o_coap_option) :
  List.length (insert_at pos oo u) = S (List.length u).
Proof.
  unfold insert_at. rewrite length_app. cbn [List.length].
  rewrite Nat.add_succ_r. f_equal.
  rewrite <- length_app, firstn_skipn. reflexivity.
Qed.

(** The second loop of [oscore_pkg_generate] after [k] iterations. *)
Lemma merge_fold (u : list o_coap_option) (pos : Z) (oo : o_coap_option) :
  0 <= pos <= Zlength u ->
  forall k : nat,
    (k <= S (List.length u))%nat ->
    let s := fold_left (merge_step u pos oo) (map Z.of_nat (seq 0 k))
                       merge_init in
    out_options s = rebuild_deltas 0 (firstn k (insert_at pos oo u))
    /\ temp_opt_number_sum s = sum_after 0 (firstn k (insert_at pos oo u))
    /\ u_opt_pos s = if Z.of_nat k <=? pos then Z.of_nat k
                     else Z.of_nat k - 1.
Proof.
  intros Hpos. rewrite Zlength_correct in Hpos.
  induction k as [|k IH]; intros Hk; cbn zeta.
  - simpl. destruct (Z.leb_spec 0 pos); [repeat split|lia].
  - rewrite seq_S, map_app, fold_left_app. cbn [map fold_left Nat.add].
    destruct (IH ltac:(lia)) as (Hout & Hsum & Hu). clear IH.
    set (s := fold_left (merge_step u pos oo) (map Z.of_nat (seq 0 k))
                        merge_init) in *.
    rewrite (firstn_snoc (insert_at pos oo u) k oo)
      by (rewrite insert_at_length; lia).
    rewrite rebuild_deltas_app, sum_after_app, <- Hout, <- Hsum.
    replace (nth k (insert_at pos oo u) oo)
      with (if (k <? Z.to_nat pos)%nat then nth k u oo
            else if (k =? Z.to_nat pos)%nat then oo else nth (k - 1) u oo)
      by (unfold insert_at; rewrite nth_insert by lia; reflexivity).
    unfold merge_step. cbn [out_options temp_opt_number_sum u_opt_pos].
    rewrite Hu.
    destruct (Z.eqb_spec (Z.of_nat k) pos) as [E|E].
    + replace (k <? Z.to_nat pos)%nat with false
        by (symmetry; apply Nat.ltb_ge; lia).
      replace (k =? Z.to_nat pos)%nat with true
        by (symmetry; apply Nat.eqb_eq; lia).
      destruct (Z.leb_spec (Z.of_nat k) pos); [|lia].
      destruct (Z.leb_spec (Z.of_nat (S k)) pos); [lia|].
      cbn [rebuild_deltas sum_after delta option_number len value].
      repeat split. lia.
    + destruct (Nat.ltb_spec k (Z.to_nat pos)).
      * destruct (Z.leb_spec (Z.of_nat k) pos); [|lia].
        destruct (Z.leb_spec (Z.of_nat (S k)) pos); [|lia].
        rewrite Nat2Z.id.
        cbn [rebuild_deltas sum_after delta option_number len value].
        repeat split. lia.
      * replace (k =? Z.to_nat pos)%nat with false
          by (symmetry; apply Nat.eqb_neq; lia).
        destruct (Z.leb_spec (Z.of_nat k) pos); [lia|].
        destruct (Z.leb_spec (Z.of_nat (S k)) pos); [lia|].
        replace (Z.to_nat (Z.of_nat k - 1)) with (k - 1)%nat by lia.
        cbn [rebuild_deltas sum_after delta option_number len value].
        repeat split. lia.
Qed.

(** The first loop: the position found. *)
Lemma find_oscore_opt_pos_spec (u : list o_coap_option) :
  forall i : Z,
    let r := find_oscore_opt_pos i u (i + Zlength u) in
    i <= r <= i + Zlength u
    /\ Forall (fun o => option_number o <= OSCORE)
              (firstn (Z.to_nat (r - i)) u)
    /\ (forall o, nth_error u (Z.to_nat (r - i)) = Some o ->
                  OSCORE < option_number o).
Proof.
  induction u as [|x u IH]; intros i; cbn zeta.
  - cbn [find_oscore_opt_pos]. rewrite Zlength_nil.
    split; [lia|]. split.
    + rewrite firstn_nil. constructor.
    + intros o H. destruct (Z.to_nat (i + 0 - i)); discriminate.
  - cbn [find_oscore_opt_pos]. rewrite Zlength_cons.
    pose proof (Zlength_nonneg u) as Hu.
    destruct (Z.ltb_spec OSCORE (option_number x)) as [Hx|Hx].
    + rewrite Z.sub_diag. cbn. split; [lia|]. split; [constructor|].
      intros o [= <-]. exact Hx.
    + replace (i + Z.succ (Zlength u)) with ((i + 1) + Zlength u) by lia.
      destruct (IH (i + 1)) as (Hr & Hall & Hnth).
      set (r := find_oscore_opt_pos (i + 1) u (i + 1 + Zlength u)) in *.
      split; [lia|].
      replace (Z.to_nat (r - i)) with (S (Z.to_nat (r - (i + 1)))) by lia.
      split.
      * cbn [firstn]. constructor; assumption.
      * cbn [nth_error]. exact Hnth.
Qed.

Lemma find_oscore_opt_pos_numbers (u : list o_coap_option) (i dflt : Z) :
  find_oscore_opt_pos i u dflt
  = first_above OSCORE i (map option_number u) dflt.
Proof.
  revert i; induction u as [|x u IH]; intros i; simpl; [reflexivity|].
  rewrite IH. reflexivity.
Qed.

(** [oscore_pkg_generate] as a whole. *)
Lemma oscore_pkg_generate_spec (in_o_coap : o_coap_packet)
    (u_options : list o_coap_option) (in_ciphertext : bytes)
    (in_ciphertext_len : Z) (oscore_option : o_coap_option) :
  Zlength u_options < MAX_OPTION_COUNT ->
  exists out,
    oscore_pkg_generate in_o_coap u_options in_ciphertext in_ciphertext_len
                        oscore_option = Ok out
    /\ code (header out)
       = (if is_request in_o_coap
          then if is_observe u_options then CODE_REQ_FETCH else CODE_REQ_POST
          else if is_observe u_options then CODE_RESP_CONTENT
               else CODE_RESP_CHANGED)
    /\ options out
       = rebuild_deltas 0
           (insert_at (find_oscore_opt_pos 0 u_options (Zlength u_options))
                      oscore_option u_options).
Proof.
  intros Hcnt. unfold oscore_pkg_generate.
  destruct (Z.ltb_spec MAX_OPTION_COUNT (Zlength u_options + 1)); [lia|].
  eexists. split; [reflexivity|]. cbn [header code options].
  split; [reflexivity|].
  pose proof (find_oscore_opt_pos_spec u_options 0) as (Hr & _ & _).
  cbn zeta in Hr. rewrite Z.add_0_l in Hr.
  pose proof (Zlength_nonneg u_options) as Hn.
  replace (Z.to_nat (Zlength u_options + 1)) with (S (List.length u_options))
    by (rewrite Zlength_correct; lia).
  destruct (merge_fold u_options _ oscore_option Hr (S (List.length u_options))
              (le_n _)) as (Hout & _ & _).
  rewrite Hout.
  rewrite <- (insert_at_length
                (find_oscore_opt_pos 0 u_options (Zlength u_options))
                oscore_option u_options).
  rewrite firstn_all. reflexivity.
Qed.


Lemma existsb_filter {A : Type} (p q : A -> bool) (l : list A) :
  (forall x, p x = true -> q x = true) ->
  existsb p (filter q l) = existsb p l.
Proof.
  intros H. induction l as [|x l IH]; simpl; [reflexivity|].
  destruct (q x) eqn:Q; simpl.
  - rewrite IH. reflexivity.
  - rewrite IH. destruct (p x) eqn:Px; [|reflexivity].
    rewrite (H x Px) in Q. discriminate.
Qed.

Lemma is_observe_numbers (os : list o_coap_option) :
  is_observe os = existsb (fun n => n =? OBSERVE) (map option_number os).
Proof.
  unfold is_observe. induction os as [|o os IH]; simpl; [reflexivity|].
  rewrite IH. reflexivity.
Qed.

(** C10: the option split and the merge of the outer options work on 8-bit
    option numbers.  For every input packet of at most [MAX_OPTION_COUNT]
    options, with [nrs] the true option numbers (the running sums of the
    deltas) reduced modulo 256: the E-list and the U-list hold the options
    whose reduced number is of class E, resp. class U, or equals Observe,
    under that reduced number; the deltas of both lists are rebuilt from the
    reduced numbers; the Observe and OSCORE comparisons of
    [oscore_pkg_generate] read the reduced numbers; and the merge of
    [oscore_pkg_generate], which runs whenever the U-list leaves room for
    one more option, gives the outer packet the reduced numbers of the
    U-list with the number of the OSCORE option put before the first one
    above OSCORE, and deltas rebuilt from these numbers. *)
Theorem option_numbers_are_reduced_modulo_256 (in_o_coap : o_coap_packet) :
  options_cnt in_o_coap <= MAX_OPTION_COUNT ->
  exists E e_len U,
    inner_outer_option_split in_o_coap = Ok (E, e_len, U)
    /\ map option_number E
       = filter goes_inner (map u8 (true_numbers 0 (options in_o_coap)))
    /\ map option_number U
       = filter goes_outer (map u8 (true_numbers 0 (options in_o_coap)))
    /\ deltas_rebuilt 0 E
    /\ deltas_rebuilt 0 U
    /\ is_observe U
       = existsb (fun n => n =? OBSERVE)
                 (map u8 (true_numbers 0 (options in_o_coap)))
    /\ find_oscore_opt_pos 0 U (Zlength U)
       = first_above OSCORE 0
           (filter goes_outer (map u8 (true_numbers 0 (options in_o_coap))))
           (Zlength U)
    /\ (forall in_ciphertext in_ciphertext_len oscore_option,
          Zlength U < MAX_OPTION_COUNT ->
          exists out,
            oscore_pkg_generate in_o_coap U in_ciphertext in_ciphertext_len
                                oscore_option = Ok out)
    /\ (forall in_ciphertext in_ciphertext_len oscore_option out,
          oscore_pkg_generate in_o_coap U in_ciphertext in_ciphertext_len
                              oscore_option = Ok out ->
          map option_number (options out)
          = merged_numbers (option_number oscore_option)
              (filter goes_outer
                 (map u8 (true_numbers 0 (options in_o_coap))))
          /\ deltas_rebuilt 0 (options out)).
Proof.
  intros Hcnt.
  destruct (inner_outer_option_split_spec in_o_coap Hcnt) as [e_len Hsplit].
  set (nrs := map u8 (true_numbers 0 (options in_o_coap))) in *.
  set (numbered := combine nrs (options in_o_coap)) in *.
  assert (Hfst : map fst numbered = nrs).
  { apply map_fst_combine. unfold nrs.
    rewrite length_map. apply true_numbers_length. }
  assert (HE : map option_number
                 (rebuild_deltas 0 (inner_options in_o_coap numbered))
               = filter goes_inner nrs)
    by (rewrite rebuild_deltas_numbers, inner_options_numbers, Hfst;
        reflexivity).
  assert (HU : map option_number (rebuild_deltas 0 (outer_options numbered))
               = filter goes_outer nrs)
    by (rewrite rebuild_deltas_numbers, outer_options_numbers, Hfst;
        reflexivity).
  eexists _, e_len, _. split; [exact Hsplit|].
  split; [exact HE|]. split; [exact HU|].
  split; [apply (deltas_rebuilt_rebuild 0)|].
  split; [apply (deltas_rebuilt_rebuild 0)|].
  split; [|split; [|split]].
  - rewrite is_observe_numbers, HU. apply existsb_filter.
    intros x Hx. unfold goes_outer. rewrite Hx. reflexivity.
  - rewrite find_oscore_opt_pos_numbers, HU. reflexivity.
  - intros ct ctlen oo Hroom.
    destruct (oscore_pkg_generate_spec in_o_coap _ ct ctlen oo Hroom)
      as (out & Hok & _).
    exists out. exact Hok.
  - intros ct ctlen oo out Hout.
    assert (Hroom : Zlength (rebuild_deltas 0 (outer_options numbered))
                    < MAX_OPTION_COUNT).
    { unfold oscore_pkg_generate in Hout.
      destruct (Z.ltb_spec MAX_OPTION_COUNT
                  (Zlength (rebuild_deltas 0 (outer_options numbered)) + 1));
        [discriminate|lia]. }
    destruct (oscore_pkg_generate_spec in_o_coap _ ct ctlen oo Hroom)
      as (out' & Hok & _ & Hopt).
    rewrite Hok in Hout. injection Hout as <-.
    rewrite Hopt. split; [|apply (deltas_rebuilt_rebuild 0)].
    rewrite rebuild_deltas_numbers.
    rewrite find_oscore_opt_pos_numbers, HU.
    unfold insert_at, merged_numbers.
    rewrite map_app. cbn [map]. rewrite <- firstn_map, <- skipn_map, HU.
    replace (Zlength (rebuild_deltas 0 (outer_options numbered)))
      with (Zlength (filter goes_outer nrs))
      by (rewrite <- HU, !Zlength_correct, length_map; reflexivity).
    reflexivity.
Qed.

End PkgFacts.



(** The outer packet of that example: FETCH, with the OSCORE option between
    Observe (6) and Proxy-Scheme (39). *)
Example outer_packet_example :
  @oscore_pkg_generate test_platform
    {| header := {| ver := 1; type := 0; TKL := 0; code := 1; MID := 1 |};
       token := []; options := []; payload := [] |}
    [{| delta := 3; len := 1; value := [97]; option_number := 3 |};
     {| delta := 3; len := 1; value := [0]; option_number := 6 |};
     {| delta := 33; len := 1; value := [98]; option_number := 39 |}]
    [1; 2; 3] 3
    {| delta := 0; len := 2; value := [9; 20]; option_number := 9 |}
  = Ok {| header := {| ver := 1; type := 0; TKL := 0; code := 5; MID := 1 |};
          token := [];
          options :=
            [{| delta := 3; len := 1; value := [97]; option_number := 3 |};
             {| delta := 3; len := 1; value := [0]; option_number := 6 |};
             {| delta := 3; len := 2; value := [9; 20]; option_number := 9 |};
             {| delta := 30; len := 1; value := [98]; option_number := 39 |}];
          payload := [1; 2; 3] |}.
Proof. reflexivity. Qed.

Lemma option_numbers_are_reduced_modulo_256_witness :
  exists E e_len U,
    @inner_outer_option_split test_platform
      {| header := {| ver := 1; type := 0; TKL := 0; code := 1; MID := 1 |};
         token := [];
         options := [{| delta := 262; len := 1; value := [0];
                        option_number := 262 |}];
         payload := [] |}
    = Ok (E, e_len, U)
    /\ map option_number E = [6]
    /\ map option_number U = [6]
    /\ deltas_rebuilt 0 E
    /\ deltas_rebuilt 0 U
    /\ is_observe U = true
    /\ find_oscore_opt_pos 0 U (Zlength U) = Zlength U
    /\ (forall in_ciphertext in_ciphertext_len oscore_option,
          Zlength U < @MAX_OPTION_COUNT test_platform ->
          exists out,
            @oscore_pkg_generate test_platform
              {| header := {| ver := 1; type := 0; TKL := 0; code := 1;
                              MID := 1 |};
                 token := [];
                 options := [{| delta := 262; len := 1; value := [0];
                                option_number := 262 |}];
                 payload := [] |}
              U in_ciphertext in_ciphertext_len oscore_option = Ok out)
    /\ (forall in_ciphertext in_ciphertext_len oscore_option out,
          @oscore_pkg_generate test_platform
            {| header := {| ver := 1; type := 0; TKL := 0; code := 1;
                            MID := 1 |};
               token := [];
               options := [{| delta := 262; len := 1; value := [0];
                              option_number := 262 |}];
               payload := [] |}
            U in_ciphertext in_ciphertext_len oscore_option = Ok out ->
          map option_number (options out)
          = [6; option_number oscore_option]
          /\ deltas_rebuilt 0 (options out)).
Proof.
  apply (@option_numbers_are_reduced_modulo_256 test_platform
           {| header := {| ver := 1; type := 0; TKL := 0; code := 1;
                           MID := 1 |};
              token := [];
              options := [{| delta := 262; len := 1; value := [0];
                             option_number := 262 |}];
              payload := [] |}).
  vm_compute. discriminate.
Defined.

(** An option of true number 262 is taken for Observe (262 mod 256 = 6). *)
Example option_262_is_split_as_observe :
  @inner_outer_option_split test_platform
    {| header := {| ver := 1; type := 0; TKL := 0; code := 1; MID := 1 |};
       token := [];
       options := [{| delta := 262; len := 1; value := [0];
                      option_number := 262 |}];
       payload := [] |}
  = Ok ([{| delta := 6; len := 1; value := [0]; option_number := 6 |}], 4,
        [{| delta := 6; len := 1; value := [0]; option_number := 6 |}]).
Proof. reflexivity. Qed.

(** Where the count of [inner_outer_option_split] and the CoAP rule agree:
    everywhere but at 13 and from 243 to 268. *)
Lemma extra_bytes_agrees_iff (v : Z) :
  0 <= v ->
  (extra_bytes v = coap_ext_bytes v <-> v <> 13 /\ ~ (243 <= v < 269)).
Proof.
  intros Hv. unfold extra_bytes, coap_ext_bytes, ext_of.
  destruct (Z.ltb_spec 13 v); destruct (Z.ltb_spec v 243);
    destruct (Z.leb_spec 243 v); destruct (Z.ltb_spec v 13);
    destruct (Z.ltb_spec v 269); cbn -[Z.sub]; try lia;
    split; intros; try lia; try discriminate.
Qed.

(** C9 fails on the code: [extra_bytes] counts no extension byte for a delta
    or length of 13 and two for 243 up to 268, where the CoAP rule gives one.
    On a GET with a Uri-Path of 13 bytes the E-options are sized 14 bytes and
    serialize to 15, and coap2oscore fails on the packet, with or without a
    payload. *)
Theorem extra_bytes_differs_from_coap_rule :
  extra_bytes 13 = 0 /\ coap_ext_bytes 13 = 1
  /\ extra_bytes 243 = 2 /\ coap_ext_bytes 243 = 1
  /\ extra_bytes 268 = 2 /\ coap_ext_bytes 268 = 1
  /\ (let buf := [64; 1; 0; 1; 189; 0; 116; 104; 105; 114; 116; 101; 101;
                  110; 98; 121; 116; 101; 115] in
      let uri_path := {| delta := 11; len := 13;
                         value := [116; 104; 105; 114; 116; 101; 101; 110;
                                   98; 121; 116; 101; 115];
                         option_number := 11 |} in
      let pkt := {| header := {| ver := 1; type := 0; TKL := 0; code := 1;
                                 MID := 1 |};
                    token := []; options := [uri_path]; payload := [] |} in
      @buf2coap test_platform buf = Ok pkt
      /\ @inner_outer_option_split test_platform pkt = Ok ([uri_path], 14, [])
      /\ @options_into_byte_string test_platform [uri_path] 256
         = Ok (189 :: 0 :: value uri_path)
      /\ Zlength (189 :: 0 :: value uri_path) = 15
      /\ fst (@coap2oscore test_platform buf (test_world 0 false 64))
         = Err dest_buffer_to_small
      /\ fst (@coap2oscore test_platform (buf ++ [255; 1; 2; 3])
                           (test_world 0 false 64))
         = Err dest_buffer_to_small).
Proof. cbv zeta. repeat split; vm_compute; reflexivity. Qed.

(** ** coap2oscore *)

Section TransformFacts.
Context {P : Platform}.

Lemma memcpy_at_0 (dest src : bytes) :
  Zlength src <= Zlength dest ->
  memcpy dest 0 src = Ok (src ++ skipn (List.length src) dest).
Proof.
  intros H. unfold memcpy.
  destruct (Z.leb_spec (0 + Zlength src) (Zlength dest)); [|lia].
  cbn [Z.leb andb Z.to_nat firstn app Z.add].
  rewrite Zlength_to_nat. reflexivity.
Qed.

(** C7: for every input buffer that parses as a CoAP packet with code 0.00
    and type ACK, and every output buffer that can hold the input,
    coap2oscore succeeds, the output is the input byte for byte (the rest of
    the output buffer is untouched), [*buf_oscore_len] is the input length,
    and the context is the one before the call: nothing is encrypted and no
    context member is updated. *)
Theorem empty_ack_is_copied (buf_o_coap : bytes) (o_coap_pkt : o_coap_packet)
    (w : world) :
  buf2coap buf_o_coap = Ok o_coap_pkt ->
  code (header o_coap_pkt) = CODE_EMPTY ->
  type (header o_coap_pkt) = TYPE_ACK ->
  Zlength buf_o_coap <= Zlength (buf_oscore w) ->
  exists out,
    coap2oscore buf_o_coap w
    = (Ok tt, {| c := c w; buf_oscore := out;
                 buf_oscore_len := Zlength buf_o_coap |})
    /\ firstn (List.length buf_o_coap) out = buf_o_coap
    /\ skipn (List.length buf_o_coap) out
       = skipn (List.length buf_o_coap) (buf_oscore w).
Proof.
  intros Hparse Hcode Htype Hroom.
  unfold coap2oscore, bind, lift. rewrite Hparse, Hcode, Htype.
  cbn [Z.eqb CODE_EMPTY TYPE_ACK Pos.eqb andb].
  unfold _memcpy_s. rewrite Z.ltb_irrefl, memcpy_at_0 by exact Hroom.
  eexists. split; [reflexivity|]. split.
  - rewrite firstn_app, Nat.sub_diag, firstn_all, firstn_O, app_nil_r.
    reflexivity.
  - rewrite skipn_app, Nat.sub_diag, skipn_all. reflexivity.
Qed.

Lemma same_but_rrc_refl (w : world) : same_but_rrc w w.
Proof. repeat split. Qed.

Lemma same_but_rrc_trans (w1 w2 w3 : world) :
  same_but_rrc w1 w2 -> same_but_rrc w2 w3 -> same_but_rrc w1 w3.
Proof.
  intros (A1 & A2 & A3 & A4) (B1 & B2 & B3 & B4).
  repeat split; congruence.
Qed.

Lemma keeps_lift {A : Type} (r : result A) : keeps_sender (lift r).
Proof. intros w. apply same_but_rrc_refl. Qed.

Lemma keeps_ret {A : Type} (a : A) : keeps_sender (ret a).
Proof. intros w. apply same_but_rrc_refl. Qed.

Lemma keeps_get_c : keeps_sender get_c.
Proof. intros w. apply same_but_rrc_refl. Qed.

Lemma keeps_set_rrc (r : req_resp_context) : keeps_sender (set_rrc r).
Proof. intros w. repeat split. Qed.

Lemma keeps_bind {A B : Type} (m : M A) (k : A -> M B) :
  keeps_sender m -> (forall a, keeps_sender (k a)) -> keeps_sender (bind m k).
Proof.
  intros Hm Hk w. unfold bind. specialize (Hm w).
  destruct (m w) as [[a|e] w1]; cbn [snd] in *.
  - eapply same_but_rrc_trans; [exact Hm|apply Hk].
  - exact Hm.
Qed.

Ltac keeps :=
  repeat first
    [ apply keeps_lift | apply keeps_ret | apply keeps_get_c
    | apply keeps_set_rrc
    | apply keeps_bind; [|intros ?]
    | match goal with
      | |- keeps_sender (if ?b then _ else _) => destruct b
      end
    | progress cbv zeta
    | progress unfold call_rrc ].

(** What the OSCORE option block changes besides the request-response
    context: the sender sequence number, exactly when it is taken. *)
Lemma coap2oscore_option_frame (o_coap_pkt : o_coap_packet)
    (e_options u_options : list o_coap_option) (w w' : world)
    (r : result o_coap_option) :
  coap2oscore_option o_coap_pkt e_options u_options w = (r, w') ->
  buf_oscore w' = buf_oscore w
  /\ buf_oscore_len w' = buf_oscore_len w
  /\ cc (c w') = cc (c w)
  /\ sender_id (sc (c w')) = sender_id (sc (c w))
  /\ sender_key (sc (c w')) = sender_key (sc (c w))
  /\ sender_seq_num (sc (c w'))
     = if is_request o_coap_pkt || is_observe u_options || reboot (rrc (c w))
       then u64 (sender_seq_num (sc (c w)) + 1)
       else sender_seq_num (sc (c w)).
Proof.
  unfold coap2oscore_option. unfold bind at 1. unfold get_c at 1.
  cbv beta iota zeta.
  destruct (is_request o_coap_pkt || is_observe u_options
            || reboot (rrc (c w))).
  2: { intros [= <- <-]. repeat split. }
  unfold bind at 1.
  change (lift (BYTE_ARRAY_NEW "piv" MAX_PIV_LEN MAX_PIV_LEN) w)
    with (Ok (local_array "piv" MAX_PIV_LEN), w).
  cbv iota. unfold bind at 1.
  unfold post_increment_sender_seq_num at 1. cbv iota.
  match goal with
  | |- bind ?m ?k ?w1 = _ -> _ =>
      assert (K : keeps_sender (bind m k)) by keeps;
      intros H; specialize (K w1); rewrite H in K;
      destruct K as (K1 & K2 & K3 & K4)
  end.
  cbn [snd] in *.
  rewrite K1, K2, K3, K4. cbn. repeat split.
Qed.

(** After the OSCORE option block, coap2oscore does not touch the context. *)
Lemma coap2oscore_tail_context (o_coap_pkt : o_coap_packet)
    (u_options : list o_coap_option) (plaintext : bytes) (plaintext_len : Z)
    (oscore_option : o_coap_option) (w : world) :
  c (snd ((DO _ <- lift (BYTE_ARRAY_NEW "aad" MAX_AAD_LEN MAX_AAD_LEN) ;;
           DO c5 <- get_c ;;
           DO aad <- lift (create_aad (aead_alg (cc c5)) (request_kid (rrc c5))
                                      (request_piv (rrc c5)) MAX_AAD_LEN) ;;
           let ciphertext_len := u32 (plaintext_len + AUTH_TAG_LEN) in
           DO _ <- lift (check_buffer_size MAX_CIPHERTEXT_LEN ciphertext_len) ;;
           DO ciphertext <- lift (plaintext_encrypt c5 aad plaintext
                                                    ciphertext_len) ;;
           DO oscore_pkt <- lift (oscore_pkg_generate o_coap_pkt u_options
                                    ciphertext ciphertext_len oscore_option) ;;
           fun w =>
             match coap2buf oscore_pkt (buf_oscore w) (buf_oscore_len w) with
             | (r, b, n) =>
                 (r, {| c := c w; buf_oscore := b; buf_oscore_len := n |})
             end) w))
  = c w.
Proof.
  unfold bind, lift, get_c. cbv zeta.
  repeat match goal with
         | |- context [match ?x with _ => _ end] => destruct x
         end;
    reflexivity.
Qed.

(** The sender sequence number after a call, whatever its outcome. *)
Lemma coap2oscore_sender_seq_num (buf_o_coap : bytes)
    (w : world) :
  sender_seq_num (sc (c (snd (coap2oscore buf_o_coap w))))
  = if takes_sequence_number buf_o_coap w
    then u64 (sender_seq_num (sc (c w)) + 1)
    else sender_seq_num (sc (c w)).
Proof.
  unfold coap2oscore, takes_sequence_number, is_empty_ack.
  unfold bind at 1. unfold lift at 1.
  destruct (buf2coap buf_o_coap) as [o_coap_pkt|e]; [|reflexivity].
  destruct ((CODE_EMPTY =? code (header o_coap_pkt))
            && (TYPE_ACK =? type (header o_coap_pkt))).
  { destruct (_memcpy_s (buf_oscore w) 0 (Zlength buf_o_coap) buf_o_coap);
      reflexivity. }
  unfold bind at 1. unfold lift at 1.
  destruct (coap2oscore_plaintext o_coap_pkt)
    as [[[[e_options u_options] plaintext_buf] plaintext_len]|e];
    [|reflexivity].
  cbv zeta. unfold bind at 1.
  destruct (coap2oscore_option o_coap_pkt e_options u_options w)
    as [r w1] eqn:Hopt.
  destruct (coap2oscore_option_frame _ _ _ _ _ _ Hopt)
    as (_ & _ & _ & _ & _ & Hssn).
  destruct r as [oscore_option|e]; [|exact Hssn].
  rewrite <- Hssn. f_equal. f_equal.
  apply (coap2oscore_tail_context o_coap_pkt u_options
           (firstn (Z.to_nat plaintext_len) plaintext_buf) plaintext_len
           oscore_option w1).
Qed.

(** C4 (as amended): the sender sequence number is committed (incremented in
    the context) as soon as coap2oscore takes it to build the partial IV,
    before the nonce, the AAD and the AEAD encryption, and it is never
    restored.  Whatever the outcome of the call, success or failure at any
    later step, the sequence number after the call is the one before plus
    one (on 64 bits) when the call got as far as taking a sequence number,
    and the one before otherwise. *)
Theorem sender_seq_num_is_committed_when_taken (buf_o_coap : bytes)
    (w : world) :
  sender_seq_num (sc (c (snd (coap2oscore buf_o_coap w))))
  = if takes_sequence_number buf_o_coap w
    then u64 (sender_seq_num (sc (c w)) + 1)
    else sender_seq_num (sc (c w)).
Proof. apply coap2oscore_sender_seq_num. Qed.

(** A call that takes a sequence number past [MAX_SSN] stops at the
    partial IV. *)
(** coap2oscore on a packet that is not an empty ACK, step by step. *)
Lemma coap2oscore_steps (buf_o_coap : bytes) (o_coap_pkt : o_coap_packet)
    (w : world) :
  buf2coap buf_o_coap = Ok o_coap_pkt ->
  is_empty_ack o_coap_pkt = false ->
  coap2oscore buf_o_coap w
  = match coap2oscore_plaintext o_coap_pkt with
    | Err e => (Err e, w)
    | Ok (e_options, u_options, plaintext_buf, plaintext_len) =>
        match coap2oscore_option o_coap_pkt e_options u_options w with
        | (Err e, w1) => (Err e, w1)
        | (Ok oscore_option, w1) =>
            coap2oscore_tail o_coap_pkt u_options
              (firstn (Z.to_nat plaintext_len) plaintext_buf) plaintext_len
              oscore_option w1
        end
    end.
Proof.
  intros Hparse Hack. unfold is_empty_ack in Hack.
  unfold coap2oscore. unfold bind at 1. unfold lift at 1.
  rewrite Hparse, Hack.
  unfold bind at 1. unfold lift at 1.
  destruct (coap2oscore_plaintext o_coap_pkt)
    as [[[[e_options u_options] plaintext_buf] plaintext_len]|e];
    [|reflexivity].
  cbv zeta. unfold bind at 1.
  destruct (coap2oscore_option o_coap_pkt e_options u_options w)
    as [[oscore_option|e] w1]; reflexivity.
Qed.

(** The last steps: the context is not touched, and the output buffer only
    by [coap2buf]. *)
Lemma coap2oscore_tail_inv (o_coap_pkt : o_coap_packet)
    (u_options : list o_coap_option) (plaintext : bytes) (plaintext_len : Z)
    (oscore_option : o_coap_option) (w1 w' : world) (r : result unit) :
  coap2oscore_tail o_coap_pkt u_options plaintext plaintext_len oscore_option
                   w1 = (r, w') ->
  c w' = c w1
  /\ ((exists e, r = Err e /\ w' = w1)
      \/ (exists ciphertext out,
            oscore_pkg_generate o_coap_pkt u_options ciphertext
              (u32 (plaintext_len + AUTH_TAG_LEN)) oscore_option = Ok out
            /\ coap2buf out (buf_oscore w1) (buf_oscore_len w1)
               = (r, buf_oscore w', buf_oscore_len w'))).
Proof.
  unfold coap2oscore_tail, bind, lift, get_c. cbv zeta.
  destruct (BYTE_ARRAY_NEW "aad" MAX_AAD_LEN MAX_AAD_LEN);
    [|intros [= <- <-]; split; [reflexivity|left; eauto]].
  destruct (create_aad _ _ _ _);
    [|intros [= <- <-]; split; [reflexivity|left; eauto]].
  destruct (check_buffer_size _ _);
    [|intros [= <- <-]; split; [reflexivity|left; eauto]].
  destruct (plaintext_encrypt _ _ _ _) as [ciphertext|];
    [|intros [= <- <-]; split; [reflexivity|left; eauto]].
  destruct (oscore_pkg_generate _ _ _ _ _) as [out|] eqn:Hpkg;
    [|intros [= <- <-]; split; [reflexivity|left; eauto]].
  destruct (coap2buf out (buf_oscore w1) (buf_oscore_len w1))
    as [[r' b] n] eqn:Hbuf.
  intros [= <- <-]. split; [reflexivity|].
  right. exists ciphertext, out. split; [exact Hpkg|exact Hbuf].
Qed.

(** *** Which errors can come out *)

Lemma store_error (buf : bytes) (i v : Z) (e : err) :
  store buf i v = Err e -> e = out_of_bounds.
Proof.
  unfold store. destruct ((0 <=? i) && (i <? Zlength buf)); congruence.
Qed.

Lemma memcpy_error (dest src : bytes) (off : Z) (e : err) :
  memcpy dest off src = Err e -> e = out_of_bounds.
Proof.
  unfold memcpy.
  destruct ((0 <=? off) && (off + Zlength src <=? Zlength dest)); congruence.
Qed.

Lemma _memcpy_s_error (dest src : bytes) (off dest_size : Z) (e : err) :
  _memcpy_s dest off dest_size src = Err e ->
  e = dest_buffer_to_small \/ e = out_of_bounds.
Proof.
  unfold _memcpy_s. destruct (dest_size <? Zlength src).
  - intros [= <-]. left. reflexivity.
  - intros H. right. apply (memcpy_error _ _ _ _ H).
Qed.











Lemma takes_sequence_number_request (buf_o_coap : bytes)
    (o_coap_pkt : o_coap_packet) (w w' : world) :
  buf2coap buf_o_coap = Ok o_coap_pkt ->
  is_request o_coap_pkt = true ->
  takes_sequence_number buf_o_coap w = true ->
  takes_sequence_number buf_o_coap w' = true.
Proof.
  intros Hparse Hreq. unfold takes_sequence_number. rewrite Hparse.
  destruct (is_empty_ack o_coap_pkt); [discriminate|].
  destruct (coap2oscore_plaintext o_coap_pkt) as [[[[? ?] ?] ?]|?];
    [|discriminate].
  rewrite Hreq. reflexivity.
Qed.





Lemma store_head (v v' : bytes) (x : Z) :
  store v 0 x = Ok v' -> nth 0 v' 0 = x.
Proof.
  unfold store.
  destruct ((0 <=? 0) && (0 <? Zlength v)); [|discriminate].
  intros [= <-]. reflexivity.
Qed.

Lemma memcpy_head (v v' src : bytes) (off : Z) :
  1 <= off -> memcpy v off src = Ok v' -> nth 0 v' 0 = nth 0 v 0.
Proof.
  intros Hoff. unfold memcpy.
  destruct (Z.leb_spec 0 off); [|lia].
  destruct (Z.leb_spec (off + Zlength src) (Zlength v)); [|discriminate].
  cbn [andb]. intros [= <-].
  pose proof (Zlength_nonneg src).
  destruct v as [|y v]; [rewrite Zlength_nil in *; lia|].
  replace (Z.to_nat off) with (S (Z.to_nat (off - 1))) by lia.
  reflexivity.
Qed.

Lemma _memcpy_s_head (v v' src : bytes) (off dest_size : Z) :
  1 <= off -> _memcpy_s v off dest_size src = Ok v' ->
  nth 0 v' 0 = nth 0 v 0.
Proof.
  intros Hoff. unfold _memcpy_s.
  destruct (dest_size <? Zlength src); [discriminate|].
  apply memcpy_head. exact Hoff.
Qed.

Lemma u8_testbit (x : Z) (i : Z) :
  0 <= i < 8 -> Z.testbit (u8 x) i = Z.testbit x i.
Proof.
  intros Hi. unfold u8. change 256 with (2 ^ 8).
  apply Z.mod_pow2_bits_low. lia.
Qed.

Lemma oscore_option_generate_len (piv kid kid_context : bytes)
    (oscore_option o : o_coap_option) :
  oscore_option_generate piv kid kid_context oscore_option = Ok o ->
  len o = len oscore_option.
Proof.
  unfold oscore_option_generate, try.
  repeat match goal with
         | |- context [match ?x with _ => _ end] => destruct x
         end;
    intros [= <-]; reflexivity.
Qed.

(** Whenever [oscore_option_generate] writes a value that starts with a
    partial IV, the first byte has the [k] flag set, in responses as in
    requests. *)
Lemma oscore_option_generate_sets_k (piv kid kid_context : bytes)
    (oscore_option o : o_coap_option) :
  len oscore_option <> 0 ->
  Zlength piv <> 0 ->
  oscore_option_generate piv kid kid_context oscore_option = Ok o ->
  Z.testbit (nth 0 (value o) 0) 3 = true.
Proof.
  intros Hlen Hpiv. unfold oscore_option_generate.
  destruct (Z.eqb_spec (len oscore_option) 0); [contradiction|].
  destruct (Z.eqb_spec (Zlength piv) 0); [contradiction|].
  cbn [negb]. unfold try at 1.
  destruct (memcpy (value oscore_option) 0
              (repeat 0 (Z.to_nat (len oscore_option)))) as [v0|]; [|discriminate].
  unfold try at 1. unfold try at 1.
  destruct (store v0 0 (u8 (Z.lor (nth 0 v0 0) (Zlength piv)))) as [v1|];
    [|discriminate].
  unfold try at 1.
  destruct (_memcpy_s v1 (0 + 1) (u32 (len oscore_option - (0 + 1))) piv)
    as [v2|]; [|discriminate].
  pose proof (Zlength_nonneg piv) as Np.
  pose proof (Zlength_nonneg kid_context) as Nk.
  assert (Hend : forall (v : bytes) (temp_ptr : Z),
             2 <= temp_ptr ->
             (TRY v <- store v 0
                        (u8 (Z.lor (nth 0 v 0) COMP_OSCORE_OPT_KID_K_MASK)) ;;
              TRY v <- (if negb (Zlength kid =? 0)
                        then _memcpy_s v temp_ptr
                               (u32 (len oscore_option - temp_ptr)) kid
                        else Ok v) ;;
              Ok {| delta := delta oscore_option; len := len oscore_option;
                    value := v; option_number := OSCORE |}) = Ok o ->
             Z.testbit (nth 0 (value o) 0) 3 = true).
  { intros v temp_ptr Hptr. unfold try at 1.
    destruct (store v 0 (u8 (Z.lor (nth 0 v 0) COMP_OSCORE_OPT_KID_K_MASK)))
      as [v3|] eqn:Hst; [|discriminate].
    pose proof (store_head _ _ _ Hst) as Hhead.
    assert (Hbit : Z.testbit (nth 0 v3 0) 3 = true).
    { rewrite Hhead, u8_testbit by lia. rewrite Z.lor_spec.
      apply orb_true_r. }
    unfold try at 1.
    destruct (negb (Zlength kid =? 0)).
    - destruct (_memcpy_s v3 temp_ptr (u32 (len oscore_option - temp_ptr)) kid)
        as [v4|] eqn:Hcp; [|discriminate].
      intros [= <-]. cbn [value].
      assert (Hone : 1 <= temp_ptr) by lia.
      rewrite (_memcpy_s_head _ _ _ _ _ Hone Hcp). exact Hbit.
    - intros [= <-]. exact Hbit. }
  cbv beta iota. unfold try at 1.
  destruct (negb (Zlength kid_context =? 0)).
  - unfold try at 1.
    destruct (store v2 0
                (u8 (Z.lor (nth 0 v2 0) COMP_OSCORE_OPT_KIDC_H_MASK)))
      as [v3|]; [|discriminate].
    unfold try at 1.
    destruct (store v3 (0 + 1 + Zlength piv) (u8 (Zlength kid_context)))
      as [v4|]; [|discriminate].
    unfold try at 1.
    destruct (_memcpy_s v4 (0 + 1 + Zlength piv + 1)
                (u32 (len oscore_option - (0 + 1 + Zlength piv + 1)))
                kid_context) as [v5|]; [|discriminate].
    cbv beta iota. apply Hend. lia.
  - cbv beta iota. apply Hend. lia.
Qed.

Lemma strip_zeros_not_nil (l : bytes) : l <> [] -> strip_zeros l <> [].
Proof.
  induction l as [|x l IH]; intros H; [contradiction|].
  destruct l as [|y l].
  - destruct x as [|x|x]; discriminate.
  - destruct x as [|x|x]; cbn [strip_zeros]; try discriminate.
    apply IH. discriminate.
Qed.

Lemma sender_seq_num2piv_not_empty (ssn : Z) (piv : bytes) :
  sender_seq_num2piv ssn = Ok piv -> Zlength piv <> 0.
Proof.
  unfold sender_seq_num2piv. destruct (MAX_SSN <? ssn); [discriminate|].
  intros [= <-]. intros H.
  apply (strip_zeros_not_nil (Cbor.be_bytes (Z.to_nat MAX_PIV_LEN) ssn)).
  - intros E. apply (f_equal (@List.length Z)) in E.
    rewrite CborFacts.be_bytes_length in E. discriminate E.
  - apply Zlength_nil_inv. exact H.
Qed.

(** Every OSCORE option value that coap2oscore builds, for a request and
    for a response with Observe or after reboot alike, has the [k] flag. *)
Lemma coap2oscore_option_sets_k (o_coap_pkt : o_coap_packet)
    (e_options u_options : list o_coap_option) (w w' : world)
    (o : o_coap_option) :
  coap2oscore_option o_coap_pkt e_options u_options w = (Ok o, w') ->
  len o <> 0 ->
  Z.testbit (nth 0 (value o) 0) 3 = true.
Proof.
  unfold coap2oscore_option. unfold bind at 1. unfold get_c at 1.
  cbv beta iota zeta.
  destruct (is_request o_coap_pkt || is_observe u_options
            || reboot (rrc (c w))).
  2: { intros [= <- <-]. cbn. congruence. }
  unfold bind at 1.
  change (lift (BYTE_ARRAY_NEW "piv" MAX_PIV_LEN MAX_PIV_LEN) w)
    with (Ok (local_array "piv" MAX_PIV_LEN), w).
  cbv iota. unfold bind at 1.
  unfold post_increment_sender_seq_num at 1. cbv iota.
  unfold bind at 1. unfold lift at 1.
  destruct (sender_seq_num2piv (sender_seq_num (sc (c w)))) as [piv|] eqn:Hpiv;
    [|discriminate].
  apply sender_seq_num2piv_not_empty in Hpiv.
  unfold bind at 1. unfold get_c at 1. cbv beta iota.
  unfold bind at 1.
  match goal with
  | |- context [call_rrc ?r ?w1] => destruct (call_rrc r w1) as [[?|?] w2]
  end; [|discriminate].
  unfold bind at 1. unfold get_c at 1. cbv beta iota.
  unfold bind at 1.
  match goal with
  | |- context [(if ?b then ?m1 else ?m2) ?w1] =>
      destruct ((if b then m1 else m2) w1) as [[?|?] w3]
  end; [|discriminate].
  unfold bind at 1. unfold get_c at 1. cbv beta iota zeta.
  unfold bind at 1. unfold set_rrc at 1. cbv beta iota.
  unfold bind at 1. unfold lift at 1.
  match goal with
  | |- context [fst ?r] => destruct (fst r)
  end; [|discriminate].
  cbn [c sc cc rrc sender_id id_context].
  match goal with
  | |- context [OSCORE_OPT_VALUE_LEN <? ?l] =>
      destruct (OSCORE_OPT_VALUE_LEN <? l)
  end; [discriminate|].
  unfold lift.
  match goal with
  | |- (?g, _) = _ -> _ => destruct g as [o'|] eqn:Hgen
  end; [|discriminate].
  intros [= -> <-] Hlen.
  rewrite (oscore_option_generate_len _ _ _ _ _ Hgen) in Hlen.
  apply (oscore_option_generate_sets_k _ _ _ _ _ Hlen Hpiv Hgen).
Qed.

(** A response without Observe and not after reboot carries an OSCORE option
    without a value, and the context is left alone. *)
Lemma plain_response_option_is_empty (o_coap_pkt : o_coap_packet)
    (e_options u_options : list o_coap_option) (w : world) :
  is_request o_coap_pkt = false ->
  is_observe u_options = false ->
  reboot (rrc (c w)) = false ->
  coap2oscore_option o_coap_pkt e_options u_options w
  = (Ok {| delta := 0; len := 0; value := NULL; option_number := OSCORE |}, w).
Proof.
  intros Hreq Hobs Hrb. unfold coap2oscore_option.
  unfold bind at 1. unfold get_c at 1. cbv beta iota zeta.
  rewrite Hreq, Hobs, Hrb. reflexivity.
Qed.

End TransformFacts.

Lemma empty_ack_is_copied_witness :
  exists out,
    @coap2oscore test_platform test_empty_ack (test_world 5 false 8)
    = (Ok tt, {| c := c (test_world 5 false 8); buf_oscore := out;
                 buf_oscore_len := Zlength test_empty_ack |})
    /\ firstn (List.length test_empty_ack) out = test_empty_ack
    /\ skipn (List.length test_empty_ack) out
       = skipn (List.length test_empty_ack) (buf_oscore (test_world 5 false 8)).
Proof.
  apply (@empty_ack_is_copied test_platform test_empty_ack
           {| header := {| ver := 1; type := 2; TKL := 0; code := 0;
                           MID := 258 |};
              token := []; options := []; payload := [] |}
           (test_world 5 false 8)).
  - reflexivity.
  - reflexivity.
  - reflexivity.
  - vm_compute. discriminate.
Defined.

(** C4 as stated fails.  On a GET with sequence number 20 and an output
    buffer of 10 bytes the packet is encrypted (with 40 bytes the call
    succeeds) and coap2oscore then fails in the serialization of the OSCORE
    packet; with an empty sender key it fails in the encryption itself.  In
    both cases the context is left with sequence number 21. *)
Lemma sender_seq_num_is_not_restored :
  fst (@coap2oscore test_platform test_get (test_world 20 false 40)) = Ok tt
  /\ fst (@coap2oscore test_platform test_get (test_world 20 false 10))
     = Err dest_buffer_to_small
  /\ sender_seq_num
       (sc (c (snd (@coap2oscore test_platform test_get
                      (test_world 20 false 10))))) = 21
  /\ (let w := {| c := {| cc := cc (test_context 20 false);
                          sc := {| sender_id := [1]; sender_key := [];
                                   sender_seq_num := 20 |};
                          rrc := rrc (test_context 20 false) |};
                  buf_oscore := repeat 0 40;
                  buf_oscore_len := 40 |} in
      fst (@coap2oscore test_platform test_get w) = Err (other_error 3)
      /\ sender_seq_num
           (sc (c (snd (@coap2oscore test_platform test_get w)))) = 21)
  /\ sender_seq_num (sc (c (test_world 20 false 10))) = 20.
Proof. cbv zeta. repeat split; vm_compute; reflexivity. Qed.



(** At [MAX_SSN] the GET is sent once more, with partial IV ff ff ff ff ff
    in its OSCORE option; the same call again fails. *)
Example last_sequence_number :
  fst (@coap2oscore test_platform test_get (test_world MAX_SSN false 48))
  = Ok tt
  /\ firstn 26 (buf_oscore (snd (@coap2oscore test_platform test_get
                                   (test_world MAX_SSN false 48))))
     = [68; 2; 93; 31; 0; 0; 57; 116;
        57; 108; 111; 99; 97; 108; 104; 111; 115; 116;
        103; 13; 255; 255; 255; 255; 255; 1]
  /\ @coap2oscore test_platform test_get
       (snd (@coap2oscore test_platform test_get (test_world MAX_SSN false 48)))
     = (Err ssn_exhausted,
        snd (post_increment_sender_seq_num
               (snd (@coap2oscore test_platform test_get
                       (test_world MAX_SSN false 48))))).
Proof. repeat split; vm_compute; reflexivity. Qed.


(** C3 fails on the code in its first part.  On the notification (2.05
    Content with Observe = 42), a context with sender identifier 0x01 and
    sequence number 5, the OSCORE option value is 09 05 01: the partial IV
    05 is there, but the first byte has the [k] flag (0x08) set and the
    sender identifier follows as kid.  The outer packet carries it after
    Observe. *)
Theorem notification_option_carries_kid :
  @buf2coap test_platform test_notification = Ok test_notification_packet
  /\ @is_request test_platform test_notification_packet = false
  /\ @inner_outer_option_split test_platform test_notification_packet
     = Ok ([{| delta := 6; len := 0; value := NULL; option_number := 6 |}], 1,
           [{| delta := 6; len := 1; value := [42]; option_number := 6 |}])
  /\ is_observe [{| delta := 6; len := 1; value := [42];
                    option_number := 6 |}] = true
  /\ fst (@coap2oscore_option test_platform test_notification_packet
            [{| delta := 6; len := 0; value := NULL; option_number := 6 |}]
            [{| delta := 6; len := 1; value := [42]; option_number := 6 |}]
            (test_world 5 false 32))
     = Ok {| delta := 0; len := 3;
             value := [9; 5; 1] ++ repeat 0 17;
             option_number := OSCORE |}
  /\ Z.land 9 COMP_OSCORE_OPT_KID_K_MASK = COMP_OSCORE_OPT_KID_K_MASK
  /\ fst (@coap2oscore test_platform test_notification (test_world 5 false 32))
     = Ok tt
  /\ firstn 15 (buf_oscore (snd (@coap2oscore test_platform test_notification
                                   (test_world 5 false 32))))
     = [84; 69; 93; 31; 0; 0; 57; 116; 97; 42; 51; 9; 5; 1; 255].
Proof. repeat split; vm_compute; reflexivity. Qed.

(** * Further properties of the code *)

(** ** Writing into arrays *)

Lemma store_app (pre post : bytes) (x v : Z) :
  store (pre ++ x :: post) (Zlength pre) v = Ok (pre ++ v :: post).
Proof.
  unfold store. pose proof (Zlength_nonneg pre). pose proof (Zlength_nonneg post).
  rewrite Zlength_app', Zlength_cons.
  destruct (Z.leb_spec 0 (Zlength pre)); [|lia].
  destruct (Z.ltb_spec (Zlength pre) (Zlength pre + Z.succ (Zlength post)));
    [|lia].
  cbn [andb]. rewrite Zlength_to_nat.
  rewrite firstn_app, Nat.sub_diag, firstn_all, firstn_O, app_nil_r.
  rewrite skipn_app, skipn_all2 by lia.
  replace (List.length pre + 1 - List.length pre)%nat with 1%nat by lia.
  reflexivity.
Qed.

Lemma memcpy_app (pre old post src : bytes) :
  Zlength old = Zlength src ->
  memcpy (pre ++ old ++ post) (Zlength pre) src = Ok (pre ++ src ++ post).
Proof.
  intros Hlen. unfold memcpy.
  pose proof (Zlength_nonneg pre). pose proof (Zlength_nonneg post).
  rewrite !Zlength_app'.
  destruct (Z.leb_spec 0 (Zlength pre)); [|lia].
  destruct (Z.leb_spec (Zlength pre + Zlength src)
              (Zlength pre + (Zlength old + Zlength post))); [|lia].
  cbn [andb]. rewrite Zlength_to_nat.
  rewrite firstn_app, Nat.sub_diag, firstn_all, firstn_O, app_nil_r.
  replace (Z.to_nat (Zlength pre + Zlength src))
    with (List.length (pre ++ old))
    by (rewrite length_app, <- Hlen, !Zlength_correct; lia).
  replace (skipn (List.length (pre ++ old)) (pre ++ old ++ post)) with post;
    [reflexivity|].
  rewrite (app_assoc pre old post).
  rewrite skipn_app, Nat.sub_diag, skipn_all. reflexivity.
Qed.

(** A list cut after its first [n] elements. *)
Lemma cut_at {A : Type} (l : list A) (n : Z) :
  0 <= n <= Zlength l ->
  exists a b, l = a ++ b /\ Zlength a = n /\ b = skipn (Z.to_nat n) l.
Proof.
  intros Hn. exists (firstn (Z.to_nat n) l), (skipn (Z.to_nat n) l).
  split; [symmetry; apply firstn_skipn|]. split; [|reflexivity].
  rewrite Zlength_correct in *. rewrite firstn_length_le by lia. lia.
Qed.

Lemma u32_small (x : Z) : 0 <= x < 2 ^ 32 -> u32 x = x.
Proof. unfold u32. change 4294967296 with (2 ^ 32). apply Z.mod_small. Qed.

(** ** The plaintext *)

Section PlaintextFacts.
Context {P : Platform}.

Lemma marked_payload_length (p : o_coap_packet) :
  Zlength (marked_payload p)
  = if payload_len p =? 0 then 0 else 1 + payload_len p.
Proof.
  unfold marked_payload, payload_len.
  destruct (Zlength (payload p) =? 0); [reflexivity|].
  rewrite Zlength_cons. lia.
Qed.

(** [plaintext_setup] once the code and the E-options are in place. *)
Lemma plaintext_setup_options (in_o_coap : o_coap_packet)
    (E_options : list o_coap_option) (b0 : Z) (old rest ser : bytes) (L : Z) :
  e_opt_serial_len E_options <= E_OPTIONS_BUFF_MAX_LEN ->
  options_into_byte_string E_options (e_opt_serial_len E_options) = Ok ser ->
  Zlength old = Zlength ser ->
  1 + Zlength ser <= L < 2 ^ 32 ->
  plaintext_setup in_o_coap E_options (b0 :: old ++ rest) L
  = if negb (payload_len in_o_coap =? 0) then
      TRY p3 <- store (code (header in_o_coap) :: ser ++ rest)
                      (0 + 1 + Zlength ser) 255 ;;
      _memcpy_s p3 (0 + 1 + Zlength ser + 1)
                (u32 (L - u32 (0 + 1 + Zlength ser + 1)))
                (payload in_o_coap)
    else Ok (code (header in_o_coap) :: ser ++ rest).
Proof.
  intros Hmax Hser Hold HL.
  unfold plaintext_setup. cbv zeta. fold (e_opt_serial_len E_options).
  assert (Hst1 : store (b0 :: old ++ rest) 0 (code (header in_o_coap))
                 = Ok (code (header in_o_coap) :: old ++ rest))
    by apply (store_app [] (old ++ rest) b0).
  rewrite Hst1. cbn [try].
  unfold BYTE_ARRAY_NEW, check_buffer_size.
  destruct (Z.ltb_spec E_OPTIONS_BUFF_MAX_LEN (e_opt_serial_len E_options));
    [lia|].
  cbn [try]. rewrite Hser. cbn [try].
  pose proof (Zlength_nonneg ser).
  change (u32 (0 + 1)) with 1. rewrite (u32_small (L - 1)) by lia.
  unfold _memcpy_s at 1.
  destruct (Z.ltb_spec (L - 1) (Zlength ser)); [lia|].
  assert (Hcp1 : memcpy (code (header in_o_coap) :: old ++ rest) (0 + 1) ser
                 = Ok (code (header in_o_coap) :: ser ++ rest))
    by apply (memcpy_app [code (header in_o_coap)] old rest ser Hold).
  rewrite Hcp1. reflexivity.
Qed.

(** The writes of [plaintext_setup] when everything fits. *)
Lemma plaintext_setup_writes (in_o_coap : o_coap_packet)
    (E_options : list o_coap_option) (plaintext_ptr ser : bytes)
    (plaintext_len : Z) :
  e_opt_serial_len E_options <= E_OPTIONS_BUFF_MAX_LEN ->
  options_into_byte_string E_options (e_opt_serial_len E_options) = Ok ser ->
  1 + Zlength ser + Zlength (marked_payload in_o_coap) <= plaintext_len ->
  plaintext_len <= Zlength plaintext_ptr ->
  plaintext_len < 2 ^ 32 ->
  plaintext_setup in_o_coap E_options plaintext_ptr plaintext_len
  = Ok (code (header in_o_coap) :: ser ++ marked_payload in_o_coap
        ++ skipn (Z.to_nat (1 + Zlength ser
                            + Zlength (marked_payload in_o_coap)))
                 plaintext_ptr).
Proof.
  intros Hmax Hser Hfit Hbuf H32.
  pose proof (Zlength_nonneg ser) as Ns.
  pose proof (Zlength_nonneg (marked_payload in_o_coap)) as Nm.
  destruct (cut_at plaintext_ptr
              (1 + Zlength ser + Zlength (marked_payload in_o_coap))
              ltac:(lia)) as (written & rest & Hcut & Hw & Hrest).
  rewrite <- Hrest. clear Hrest. subst plaintext_ptr.
  destruct (cut_at written 1 ltac:(lia)) as (a & w1 & -> & Ha & _).
  destruct a as [|b0 [|? ?]];
    [rewrite Zlength_nil in Ha; lia| |
     rewrite !Zlength_cons in Ha; pose proof (Zlength_nonneg l); lia].
  rewrite Zlength_app', Zlength_cons, Zlength_nil in Hw.
  destruct (cut_at w1 (Zlength ser) ltac:(lia)) as (old & w2 & -> & Hold & _).
  rewrite Zlength_app' in Hw.
  cbn [app]. rewrite <- app_assoc.
  rewrite (plaintext_setup_options in_o_coap E_options b0 old (w2 ++ rest) ser
             plaintext_len Hmax Hser Hold ltac:(lia)).
  rewrite marked_payload_length in *. unfold marked_payload.
  destruct (Z.eqb_spec (payload_len in_o_coap) 0) as [Hp|Hp]; cbn [negb].
  - assert (w2 = []) by (apply Zlength_nil_inv; lia). subst w2.
    reflexivity.
  - unfold payload_len in *. pose proof (Zlength_nonneg (payload in_o_coap)).
    destruct w2 as [|m oldp]; [rewrite Zlength_nil in Hw; lia|].
    rewrite Zlength_cons in Hw.
    assert (Hst2 : store (code (header in_o_coap) :: ser ++ (m :: oldp) ++ rest)
                       (0 + 1 + Zlength ser) 255
                 = Ok (code (header in_o_coap) :: ser ++ 255 :: oldp ++ rest)).
    { replace (0 + 1 + Zlength ser)
        with (Zlength (code (header in_o_coap) :: ser))
        by (rewrite Zlength_cons; lia).
      apply (store_app (code (header in_o_coap) :: ser) (oldp ++ rest) m 255). }
    rewrite Hst2. cbn [try].
    rewrite (u32_small (0 + 1 + Zlength ser + 1)) by lia.
    rewrite u32_small by lia.
    unfold _memcpy_s.
    destruct (Z.ltb_spec (plaintext_len - (0 + 1 + Zlength ser + 1))
                (Zlength (payload in_o_coap))); [lia|].
    replace (0 + 1 + Zlength ser + 1)
      with (Zlength ((code (header in_o_coap) :: ser) ++ [255]))
      by (rewrite Zlength_app', !Zlength_cons, Zlength_nil; lia).
    replace (code (header in_o_coap) :: ser ++ 255 :: oldp ++ rest)
      with (((code (header in_o_coap) :: ser) ++ [255]) ++ oldp ++ rest)
      by (cbn [app]; rewrite <- app_assoc; reflexivity).
    rewrite memcpy_app by lia.
    cbn [app]. rewrite <- app_assoc. reflexivity.
Qed.

(** The plaintext is the code, the serialized E-options and, when there is
    a payload, the marker 0xFF and the payload: whenever the length
    announced for the plaintext is enough for them, [plaintext_setup]
    succeeds, writes exactly these bytes at the start of the array and
    leaves every byte after them as it was. *)
Theorem plaintext_setup_layout (in_o_coap : o_coap_packet)
    (E_options : list o_coap_option) (plaintext_ptr ser : bytes)
    (plaintext_len : Z) :
  e_opt_serial_len E_options <= E_OPTIONS_BUFF_MAX_LEN ->
  options_into_byte_string E_options (e_opt_serial_len E_options) = Ok ser ->
  1 + Zlength ser + Zlength (marked_payload in_o_coap) <= plaintext_len ->
  plaintext_len <= Zlength plaintext_ptr ->
  plaintext_len < 2 ^ 32 ->
  plaintext_setup in_o_coap E_options plaintext_ptr plaintext_len
  = Ok (code (header in_o_coap) :: ser ++ marked_payload in_o_coap
        ++ skipn (Z.to_nat (1 + Zlength ser
                            + Zlength (marked_payload in_o_coap)))
                 plaintext_ptr).
Proof. apply plaintext_setup_writes. Qed.

(** The bounded copy that refuses, the one of the options or the one of the
    payload. *)
Lemma plaintext_setup_refuses (in_o_coap : o_coap_packet)
    (E_options : list o_coap_option) (plaintext_ptr ser : bytes)
    (plaintext_len : Z) :
  e_opt_serial_len E_options <= E_OPTIONS_BUFF_MAX_LEN ->
  options_into_byte_string E_options (e_opt_serial_len E_options) = Ok ser ->
  1 <= plaintext_len ->
  plaintext_len < 1 + Zlength ser + Zlength (marked_payload in_o_coap) ->
  plaintext_len <> 1 + Zlength ser ->
  plaintext_len <= Zlength plaintext_ptr ->
  plaintext_len < 2 ^ 32 ->
  plaintext_setup in_o_coap E_options plaintext_ptr plaintext_len
  = Err dest_buffer_to_small.
Proof.
  intros Hmax Hser H1 Hshort Hne Hbuf H32.
  pose proof (Zlength_nonneg ser) as Ns.
  destruct plaintext_ptr as [|b0 tl]; [rewrite Zlength_nil in Hbuf; lia|].
  rewrite Zlength_cons in Hbuf.
  destruct (Z.lt_ge_cases plaintext_len (1 + Zlength ser)) as [Hlt|Hge].
  - unfold plaintext_setup. cbv zeta. fold (e_opt_serial_len E_options).
    assert (Hst1 : store (b0 :: tl) 0 (code (header in_o_coap))
                   = Ok (code (header in_o_coap) :: tl))
      by apply (store_app [] tl b0).
    rewrite Hst1. cbn [try].
    unfold BYTE_ARRAY_NEW, check_buffer_size.
    destruct (Z.ltb_spec E_OPTIONS_BUFF_MAX_LEN (e_opt_serial_len E_options));
      [lia|].
    cbn [try]. rewrite Hser. cbn [try].
    change (u32 (0 + 1)) with 1. rewrite (u32_small (plaintext_len - 1)) by lia.
    unfold _memcpy_s at 1.
    destruct (Z.ltb_spec (plaintext_len - 1) (Zlength ser)); [|lia].
    reflexivity.
  - destruct (cut_at tl (Zlength ser) ltac:(lia))
      as (old & rest & -> & Hold & _).
    rewrite Zlength_app' in Hbuf.
    rewrite (plaintext_setup_options in_o_coap E_options b0 old rest ser
               plaintext_len Hmax Hser Hold ltac:(lia)).
    rewrite marked_payload_length in Hshort.
    destruct (Z.eqb_spec (payload_len in_o_coap) 0) as [Hp|Hp]; [lia|].
    cbn [negb]. unfold payload_len in *.
    destruct rest as [|m rest]; [rewrite Zlength_nil in Hbuf; lia|].
    assert (Hst2 : store (code (header in_o_coap) :: ser ++ m :: rest)
                         (0 + 1 + Zlength ser) 255
                   = Ok (code (header in_o_coap) :: ser ++ 255 :: rest)).
    { replace (0 + 1 + Zlength ser)
        with (Zlength (code (header in_o_coap) :: ser))
        by (rewrite Zlength_cons; lia).
      apply (store_app (code (header in_o_coap) :: ser) rest m 255). }
    rewrite Hst2. cbn [try].
    rewrite (u32_small (0 + 1 + Zlength ser + 1)) by lia.
    rewrite u32_small by lia.
    unfold _memcpy_s.
    destruct (Z.ltb_spec (plaintext_len - (0 + 1 + Zlength ser + 1))
                (Zlength (payload in_o_coap))); [reflexivity|lia].
Qed.

(** When the length announced for the plaintext is too short for the code,
    the E-options and the marked payload, [plaintext_setup] fails with
    [dest_buffer_to_small], in the copy of the options or in the copy of the
    payload; the one exception is a length that ends right after the
    options of a packet with a payload. *)
Theorem plaintext_setup_too_small (in_o_coap : o_coap_packet)
    (E_options : list o_coap_option) (plaintext_ptr ser : bytes)
    (plaintext_len : Z) :
  e_opt_serial_len E_options <= E_OPTIONS_BUFF_MAX_LEN ->
  options_into_byte_string E_options (e_opt_serial_len E_options) = Ok ser ->
  1 <= plaintext_len ->
  plaintext_len < 1 + Zlength ser + Zlength (marked_payload in_o_coap) ->
  plaintext_len <> 1 + Zlength ser ->
  plaintext_len <= Zlength plaintext_ptr ->
  plaintext_len < 2 ^ 32 ->
  plaintext_setup in_o_coap E_options plaintext_ptr plaintext_len
  = Err dest_buffer_to_small.
Proof. apply plaintext_setup_refuses. Qed.

(** The writes of [plaintext_setup] when the announced length ends right
    after the E-options of a packet with a payload. *)
Lemma plaintext_setup_overruns (in_o_coap : o_coap_packet)
    (E_options : list o_coap_option) (plaintext_ptr ser : bytes)
    (plaintext_len : Z) :
  e_opt_serial_len E_options <= E_OPTIONS_BUFF_MAX_LEN ->
  options_into_byte_string E_options (e_opt_serial_len E_options) = Ok ser ->
  payload_len in_o_coap <> 0 ->
  plaintext_len = 1 + Zlength ser ->
  plaintext_len + 1 + payload_len in_o_coap <= Zlength plaintext_ptr ->
  plaintext_len + 1 + payload_len in_o_coap < 2 ^ 32 ->
  exists p,
    plaintext_setup in_o_coap E_options plaintext_ptr plaintext_len = Ok p
    /\ firstn (Z.to_nat plaintext_len) p = code (header in_o_coap) :: ser
    /\ skipn (Z.to_nat plaintext_len) p
       = 255 :: payload in_o_coap
         ++ skipn (Z.to_nat (plaintext_len + 1 + payload_len in_o_coap))
                  plaintext_ptr.
Proof.
  intros Hmax Hser Hp HL Hbuf H32. unfold payload_len in *.
  pose proof (Zlength_nonneg ser) as Ns.
  pose proof (Zlength_nonneg (payload in_o_coap)) as Np.
  destruct (cut_at plaintext_ptr
              (plaintext_len + 1 + Zlength (payload in_o_coap)) ltac:(lia))
    as (written & rest & Hcut & Hw & Hrest).
  rewrite <- Hrest. clear Hrest. subst plaintext_ptr.
  destruct written as [|b0 w1]; [rewrite Zlength_nil in Hw; lia|].
  rewrite Zlength_cons in Hw.
  destruct (cut_at w1 (Zlength ser) ltac:(lia)) as (old & w2 & -> & Hold & _).
  rewrite Zlength_app' in Hw.
  destruct w2 as [|m oldp]; [rewrite Zlength_nil in Hw; lia|].
  rewrite Zlength_cons in Hw.
  cbn [app]. rewrite <- app_assoc.
  rewrite (plaintext_setup_options in_o_coap E_options b0 old
             ((m :: oldp) ++ rest) ser plaintext_len Hmax Hser Hold
             ltac:(lia)).
  unfold payload_len.
  destruct (Z.eqb_spec (Zlength (payload in_o_coap)) 0) as [|_]; [lia|].
  cbn [negb].
  assert (Hst2 : store (code (header in_o_coap) :: ser ++ (m :: oldp) ++ rest)
                       (0 + 1 + Zlength ser) 255
                 = Ok (code (header in_o_coap) :: ser ++ 255 :: oldp ++ rest)).
  { replace (0 + 1 + Zlength ser)
      with (Zlength (code (header in_o_coap) :: ser))
      by (rewrite Zlength_cons; lia).
    apply (store_app (code (header in_o_coap) :: ser) (oldp ++ rest) m 255). }
  rewrite Hst2. cbn [try].
  rewrite (u32_small (0 + 1 + Zlength ser + 1)) by lia.
  replace (plaintext_len - (0 + 1 + Zlength ser + 1)) with (-1) by lia.
  change (u32 (-1)) with 4294967295.
  unfold _memcpy_s.
  change (2 ^ 32) with 4294967296 in H32.
  destruct (Z.ltb_spec 4294967295 (Zlength (payload in_o_coap))); [lia|].
  replace (0 + 1 + Zlength ser + 1)
    with (Zlength ((code (header in_o_coap) :: ser) ++ [255]))
    by (rewrite Zlength_app', !Zlength_cons, Zlength_nil; lia).
  replace (code (header in_o_coap) :: ser ++ 255 :: oldp ++ rest)
    with (((code (header in_o_coap) :: ser) ++ [255]) ++ oldp ++ rest)
    by (cbn [app]; rewrite <- app_assoc; reflexivity).
  rewrite memcpy_app by lia.
  eexists. split; [reflexivity|].
  replace (Z.to_nat plaintext_len)
    with (List.length (code (header in_o_coap) :: ser))
    by (cbn [List.length]; rewrite HL, Zlength_correct; lia).
  rewrite <- !app_assoc.
  rewrite firstn_app, Nat.sub_diag, firstn_all, firstn_O, app_nil_r.
  rewrite skipn_app, Nat.sub_diag, skipn_all.
  split; reflexivity.
Qed.

(** The exception: when the packet has a payload and the length announced
    for the plaintext ends right after the E-options, the room left for the
    payload is computed as -1 on 32 bits, the size test of the bounded copy
    passes, and [plaintext_setup] succeeds: marker and payload are written
    after the announced length, so the plaintext of that length is the
    code and the options without the payload. *)
Theorem plaintext_setup_drops_payload (in_o_coap : o_coap_packet)
    (E_options : list o_coap_option) (plaintext_ptr ser : bytes)
    (plaintext_len : Z) :
  e_opt_serial_len E_options <= E_OPTIONS_BUFF_MAX_LEN ->
  options_into_byte_string E_options (e_opt_serial_len E_options) = Ok ser ->
  payload_len in_o_coap <> 0 ->
  plaintext_len = 1 + Zlength ser ->
  plaintext_len + 1 + payload_len in_o_coap <= Zlength plaintext_ptr ->
  plaintext_len + 1 + payload_len in_o_coap < 2 ^ 32 ->
  exists p,
    plaintext_setup in_o_coap E_options plaintext_ptr plaintext_len = Ok p
    /\ firstn (Z.to_nat plaintext_len) p = code (header in_o_coap) :: ser
    /\ skipn (Z.to_nat plaintext_len) p
       = 255 :: payload in_o_coap
         ++ skipn (Z.to_nat (plaintext_len + 1 + payload_len in_o_coap))
                  plaintext_ptr.
Proof. apply plaintext_setup_overruns. Qed.

End PlaintextFacts.

(** ** The OSCORE option value *)

Section OptionValueFacts.

Lemma u8_lor (a b : Z) :
  0 <= a < 256 -> 0 <= b < 256 -> u8 (Z.lor a b) = Z.lor a b.
Proof.
  intros Ha Hb. unfold u8. change 256 with (2 ^ 8).
  rewrite <- !Z.land_ones by lia.
  rewrite Z.land_lor_distr_l, !Z.land_ones by lia.
  rewrite !Z.mod_small by (change (2 ^ 8) with 256; lia). reflexivity.
Qed.

Lemma lor_byte_range (a b : Z) :
  0 <= a < 256 -> 0 <= b < 256 -> 0 <= Z.lor a b < 256.
Proof.
  intros Ha Hb. rewrite <- (u8_lor a b Ha Hb). apply u8_range.
Qed.

Lemma Zlength_repeat (x : Z) (n : Z) :
  0 <= n -> Zlength (repeat x (Z.to_nat n)) = n.
Proof. intros H. rewrite Zlength_correct, repeat_length. lia. Qed.

Lemma Zlength_local_array {P : Platform} (NAME : string) (n : Z) :
  0 <= n -> Zlength (local_array NAME n) = n.
Proof.
  intros H. unfold local_array.
  rewrite Zlength_correct, length_map, length_seq. lia.
Qed.

(** The [s] field of the option value: the length of the kid context and
    the kid context, when there is one. *)
Lemma get_oscore_opt_val_len_exact (piv kid kid_context : bytes) :
  1 <= Zlength piv ->
  Zlength piv + Zlength kid_context + Zlength kid <= 253 ->
  get_oscore_opt_val_len piv kid kid_context
  = 1 + Zlength piv
    + (if Zlength kid_context =? 0 then 0 else 1 + Zlength kid_context)
    + Zlength kid.
Proof.
  intros Hp Hsum. unfold get_oscore_opt_val_len.
  pose proof (Zlength_nonneg kid). pose proof (Zlength_nonneg kid_context).
  rewrite (u8_small (Zlength piv + Zlength kid_context + Zlength kid)) by lia.
  destruct (Z.eqb_spec (Zlength piv + Zlength kid_context + Zlength kid) 0);
    [lia|].
  cbn [negb].
  rewrite (u8_small (Zlength piv + Zlength kid_context + Zlength kid + 1))
    by lia.
  destruct (Z.eqb_spec (Zlength kid_context) 0); cbn [negb].
  - lia.
  - rewrite u8_small by lia. lia.
Qed.

Ltac len_solve :=
  rewrite ?Zlength_app', ?Zlength_cons, ?Zlength_nil, ?Zlength_repeat by lia;
  lia.

Ltac list_solve :=
  cbn [app]; rewrite <- ?app_assoc; cbn [app]; reflexivity.

(** Rewrite the next [store] of the goal, which writes [v] over [x] right
    after [pre]. *)
Ltac next_store pre post x v :=
  match goal with
  | |- context [store ?b ?i v] =>
      let H := fresh "Hst" in
      assert (H : store b i v = Ok (pre ++ v :: post));
      [ transitivity (store (pre ++ x :: post) (Zlength pre) v);
        [ f_equal; solve [ list_solve | len_solve ]
        | apply (store_app pre post x v) ]
      | rewrite H; clear H; cbn [try app] ]
  end.

(** Rewrite the next bounded copy of the goal, which writes [src] over [old]
    right after [pre]. *)
Ltac next_copy pre old post src :=
  match goal with
  | |- context [_memcpy_s ?b ?i ?n src] =>
      let H := fresh "Hcp" in
      assert (H : _memcpy_s b i n src = Ok (pre ++ src ++ post));
      [ unfold _memcpy_s;
        replace (n <? Zlength src) with false
          by (symmetry; apply Z.ltb_ge;
              rewrite ?u32_small by len_solve; len_solve);
        transitivity (memcpy (pre ++ old ++ post) (Zlength pre) src);
        [ f_equal; solve [ list_solve | len_solve ]
        | apply (memcpy_app pre old post src); len_solve ]
      | rewrite H; clear H; cbn [try app] ]
  end.

(** The writes of [oscore_option_generate], one after the other. *)
Lemma oscore_option_generate_layout (piv kid kid_context buf : bytes)
    (d n : Z) :
  1 <= Zlength piv ->
  Zlength piv + Zlength kid_context + Zlength kid <= 253 ->
  get_oscore_opt_val_len piv kid kid_context <= Zlength buf ->
  oscore_option_generate piv kid kid_context
    {| delta := d; len := get_oscore_opt_val_len piv kid kid_context;
       value := buf; option_number := n |}
  = Ok {| delta := d;
          len := 1 + Zlength piv
                 + (if Zlength kid_context =? 0 then 0
                    else 1 + Zlength kid_context)
                 + Zlength kid;
          value :=
            Z.lor (Z.lor (Zlength piv)
                         (if Zlength kid_context =? 0 then 0
                          else COMP_OSCORE_OPT_KIDC_H_MASK))
                  COMP_OSCORE_OPT_KID_K_MASK
              :: piv
              ++ (if Zlength kid_context =? 0 then []
                  else Zlength kid_context :: kid_context)
              ++ kid
              ++ skipn (Z.to_nat (get_oscore_opt_val_len piv kid kid_context))
                       buf;
          option_number := OSCORE |}.
Proof.
  intros Hp Hsum Hbuf.
  pose proof (Zlength_nonneg kid) as Nk.
  pose proof (Zlength_nonneg kid_context) as Nc.
  rewrite (get_oscore_opt_val_len_exact piv kid kid_context Hp Hsum) in *.
  set (l := 1 + Zlength piv
            + (if Zlength kid_context =? 0 then 0 else 1 + Zlength kid_context)
            + Zlength kid) in *.
  assert (Hl : 1 <= l <= 255)
    by (unfold l; destruct (Zlength kid_context =? 0); lia).
  destruct (cut_at buf l ltac:(lia)) as (zone & rest & -> & Hz & Hrest).
  rewrite <- Hrest. clear Hrest.
  unfold oscore_option_generate. cbn [len value delta].
  destruct (Z.eqb_spec l 0); [lia|].
  assert (Hset : memcpy (zone ++ rest) 0 (repeat 0 (Z.to_nat l))
                 = Ok (repeat 0 (Z.to_nat l) ++ rest)).
  { apply (memcpy_app [] zone rest (repeat 0 (Z.to_nat l))).
    rewrite Zlength_repeat by lia. exact Hz. }
  rewrite Hset. clear Hset. cbn [try].
  destruct (Z.eqb_spec (Zlength piv) 0); [lia|]. cbn [negb].
  assert (Hpiv_byte : u8 (Z.lor 0 (Zlength piv)) = Zlength piv)
    by (rewrite Z.lor_0_l; apply u8_small; lia).
  destruct (Z.eqb_spec (Zlength kid_context) 0) as [Hc|Hc]; cbn [negb].
  - (* no kid context *)
    replace (repeat 0 (Z.to_nat l))
      with (0 :: repeat 0 (Z.to_nat (Zlength piv))
              ++ repeat 0 (Z.to_nat (Zlength kid)))
      by (rewrite <- repeat_app; change (0 :: repeat 0 ?k) with (repeat 0 (S k));
          f_equal; unfold l; lia).
    cbn [app nth]. rewrite Hpiv_byte. rewrite <- app_assoc.
    next_store (@nil Z)
               (repeat 0 (Z.to_nat (Zlength piv))
                ++ repeat 0 (Z.to_nat (Zlength kid)) ++ rest)
               0 (Zlength piv).
    next_copy [Zlength piv] (repeat 0 (Z.to_nat (Zlength piv)))
              (repeat 0 (Z.to_nat (Zlength kid)) ++ rest) piv.
    cbn [nth].
    rewrite (u8_lor (Zlength piv) COMP_OSCORE_OPT_KID_K_MASK)
      by (unfold COMP_OSCORE_OPT_KID_K_MASK; lia).
    next_store (@nil Z) (piv ++ repeat 0 (Z.to_nat (Zlength kid)) ++ rest)
               (Zlength piv)
               (Z.lor (Zlength piv) COMP_OSCORE_OPT_KID_K_MASK).
    rewrite Z.lor_0_r.
    destruct (Z.eqb_spec (Zlength kid) 0) as [Hk|Hk]; cbn [negb try].
    + apply Zlength_nil_inv in Hk. subst kid. reflexivity.
    + next_copy (Z.lor (Zlength piv) COMP_OSCORE_OPT_KID_K_MASK :: piv)
                (repeat 0 (Z.to_nat (Zlength kid))) rest kid.
      reflexivity.
  - (* a kid context *)
    replace (repeat 0 (Z.to_nat l))
      with (0 :: repeat 0 (Z.to_nat (Zlength piv))
              ++ (0 :: repeat 0 (Z.to_nat (Zlength kid_context)))
              ++ repeat 0 (Z.to_nat (Zlength kid)))
      by (change (0 :: repeat 0 ?k) with (repeat 0 (S k));
          rewrite <- !repeat_app;
          change (0 :: repeat 0 ?k) with (repeat 0 (S k));
          f_equal; unfold l; lia).
    cbn [app nth]. rewrite Hpiv_byte.
    rewrite <- !app_assoc. cbn [app]. rewrite <- !app_assoc.
    next_store (@nil Z)
               (repeat 0 (Z.to_nat (Zlength piv))
                ++ 0 :: repeat 0 (Z.to_nat (Zlength kid_context))
                ++ repeat 0 (Z.to_nat (Zlength kid)) ++ rest)
               0 (Zlength piv).
    next_copy [Zlength piv] (repeat 0 (Z.to_nat (Zlength piv)))
              (0 :: repeat 0 (Z.to_nat (Zlength kid_context))
               ++ repeat 0 (Z.to_nat (Zlength kid)) ++ rest) piv.
    cbn [nth].
    rewrite (u8_lor (Zlength piv) COMP_OSCORE_OPT_KIDC_H_MASK)
      by (unfold COMP_OSCORE_OPT_KIDC_H_MASK; lia).
    next_store (@nil Z)
               (piv ++ 0 :: repeat 0 (Z.to_nat (Zlength kid_context))
                ++ repeat 0 (Z.to_nat (Zlength kid)) ++ rest)
               (Zlength piv)
               (Z.lor (Zlength piv) COMP_OSCORE_OPT_KIDC_H_MASK).
    rewrite (u8_small (Zlength kid_context)) by lia.
    next_store (Z.lor (Zlength piv) COMP_OSCORE_OPT_KIDC_H_MASK :: piv)
               (repeat 0 (Z.to_nat (Zlength kid_context))
                ++ repeat 0 (Z.to_nat (Zlength kid)) ++ rest)
               0 (Zlength kid_context).
    next_copy ((Z.lor (Zlength piv) COMP_OSCORE_OPT_KIDC_H_MASK :: piv)
               ++ [Zlength kid_context])
              (repeat 0 (Z.to_nat (Zlength kid_context)))
              (repeat 0 (Z.to_nat (Zlength kid)) ++ rest) kid_context.
    cbn [nth].
    assert (Hf : 0 <= Z.lor (Zlength piv) COMP_OSCORE_OPT_KIDC_H_MASK < 256)
      by (apply lor_byte_range; unfold COMP_OSCORE_OPT_KIDC_H_MASK; lia).
    rewrite (u8_lor (Z.lor (Zlength piv) COMP_OSCORE_OPT_KIDC_H_MASK)
                    COMP_OSCORE_OPT_KID_K_MASK)
      by (unfold COMP_OSCORE_OPT_KID_K_MASK; lia).
    rewrite <- !app_assoc. cbn [app].
    next_store (@nil Z)
               (piv ++ Zlength kid_context :: kid_context
                ++ repeat 0 (Z.to_nat (Zlength kid)) ++ rest)
               (Z.lor (Zlength piv) COMP_OSCORE_OPT_KIDC_H_MASK)
               (Z.lor (Z.lor (Zlength piv) COMP_OSCORE_OPT_KIDC_H_MASK)
                      COMP_OSCORE_OPT_KID_K_MASK).
    destruct (Z.eqb_spec (Zlength kid) 0) as [Hk|Hk]; cbn [negb try].
    + apply Zlength_nil_inv in Hk. subst kid. reflexivity.
    + next_copy ((Z.lor (Z.lor (Zlength piv) COMP_OSCORE_OPT_KIDC_H_MASK)
                        COMP_OSCORE_OPT_KID_K_MASK :: piv)
                 ++ Zlength kid_context :: kid_context)
                (repeat 0 (Z.to_nat (Zlength kid))) rest kid.
      rewrite <- !app_assoc. reflexivity.
Qed.

(** The flag byte of the option value when the partial IV has fewer than
    8 bytes: the piv length in the low three bits, the [h] bit exactly when
    there is a kid context, the [k] bit. *)
Lemma flag_byte_fields (n : Z) (no_kid_context : bool) :
  0 <= n < 8 ->
  Z.land (Z.lor (Z.lor n (if no_kid_context then 0
                          else COMP_OSCORE_OPT_KIDC_H_MASK))
                COMP_OSCORE_OPT_KID_K_MASK) 7 = n
  /\ Z.testbit (Z.lor (Z.lor n (if no_kid_context then 0
                                else COMP_OSCORE_OPT_KIDC_H_MASK))
                      COMP_OSCORE_OPT_KID_K_MASK) 4 = negb no_kid_context.
Proof.
  intros Hn.
  assert (C : In n [0; 1; 2; 3; 4; 5; 6; 7]) by (cbn [In]; lia).
  cbn [In] in C.
  destruct no_kid_context;
    repeat (destruct C as [<-|C]; [split; reflexivity|]);
    destruct C.
Qed.

(** The layout of the OSCORE option value.  With a partial IV, lengths that
    fit a byte and an array that can hold the value, [oscore_option_generate]
    succeeds and the value is: the flag byte, the partial IV, the length of
    the kid context and the kid context when there is one, and the kid; its
    length is the one [get_oscore_opt_val_len] gave, and the bytes of the
    array after it are untouched.  The flag byte is the bitwise OR of the
    length of the partial IV, of the [h] mask when there is a kid context,
    and of the [k] mask: the [k] bit is set in every case, and when the
    partial IV has fewer than 8 bytes the low three bits are its length and
    the [h] bit is set exactly when there is a kid context (the length of a
    longer partial IV is not masked and runs into the flag bits). *)
Theorem oscore_option_value_layout (piv kid kid_context buf : bytes)
    (d n : Z) :
  1 <= Zlength piv ->
  Zlength piv + Zlength kid_context + Zlength kid <= 253 ->
  get_oscore_opt_val_len piv kid kid_context <= Zlength buf ->
  oscore_option_generate piv kid kid_context
    {| delta := d; len := get_oscore_opt_val_len piv kid kid_context;
       value := buf; option_number := n |}
  = Ok {| delta := d;
          len := 1 + Zlength piv
                 + (if Zlength kid_context =? 0 then 0
                    else 1 + Zlength kid_context)
                 + Zlength kid;
          value :=
            Z.lor (Z.lor (Zlength piv)
                         (if Zlength kid_context =? 0 then 0
                          else COMP_OSCORE_OPT_KIDC_H_MASK))
                  COMP_OSCORE_OPT_KID_K_MASK
              :: piv
              ++ (if Zlength kid_context =? 0 then []
                  else Zlength kid_context :: kid_context)
              ++ kid
              ++ skipn (Z.to_nat (get_oscore_opt_val_len piv kid kid_context))
                       buf;
          option_number := OSCORE |}
  /\ Z.testbit (Z.lor (Z.lor (Zlength piv)
                             (if Zlength kid_context =? 0 then 0
                              else COMP_OSCORE_OPT_KIDC_H_MASK))
                      COMP_OSCORE_OPT_KID_K_MASK) 3 = true
  /\ (Zlength piv < 8 ->
      Z.land (Z.lor (Z.lor (Zlength piv)
                           (if Zlength kid_context =? 0 then 0
                            else COMP_OSCORE_OPT_KIDC_H_MASK))
                    COMP_OSCORE_OPT_KID_K_MASK) 7 = Zlength piv
      /\ Z.testbit (Z.lor (Z.lor (Zlength piv)
                                 (if Zlength kid_context =? 0 then 0
                                  else COMP_OSCORE_OPT_KIDC_H_MASK))
                          COMP_OSCORE_OPT_KID_K_MASK) 4
         = negb (Zlength kid_context =? 0)).
Proof.
  intros Hp Hsum Hbuf.
  split; [apply oscore_option_generate_layout; assumption|].
  split.
  - rewrite Z.lor_spec. change (Z.testbit COMP_OSCORE_OPT_KID_K_MASK 3)
      with true. apply orb_true_r.
  - intros H8. apply flag_byte_fields. lia.
Qed.

(** Without a partial IV and without a kid context the write position is
    still the first byte of the value when the kid is copied: the kid goes
    over the flag byte, and the value is the kid followed by one zero byte
    instead of the flag byte followed by the kid. *)
Theorem kid_overwrites_flag_byte_without_piv (kid buf : bytes) (d n : Z) :
  1 <= Zlength kid <= 254 ->
  get_oscore_opt_val_len [] kid [] <= Zlength buf ->
  oscore_option_generate [] kid []
    {| delta := d; len := get_oscore_opt_val_len [] kid [];
       value := buf; option_number := n |}
  = Ok {| delta := d;
          len := Zlength kid + 1;
          value := kid ++ 0 :: skipn (Z.to_nat (Zlength kid + 1)) buf;
          option_number := OSCORE |}.
Proof.
  intros Hk Hbuf.
  assert (Hl : get_oscore_opt_val_len [] kid [] = Zlength kid + 1).
  { unfold get_oscore_opt_val_len. rewrite Zlength_nil. cbn [Z.add Z.eqb negb].
    rewrite (u8_small (Zlength kid)) by lia.
    destruct (Z.eqb_spec (Zlength kid) 0); [lia|]. cbn [negb].
    apply u8_small. lia. }
  rewrite Hl in *.
  destruct (cut_at buf (Zlength kid + 1) ltac:(lia))
    as (zone & rest & -> & Hz & Hrest).
  rewrite <- Hrest. clear Hrest.
  unfold oscore_option_generate. cbn [len value delta].
  destruct (Z.eqb_spec (Zlength kid + 1) 0); [lia|].
  assert (Hset : memcpy (zone ++ rest) 0 (repeat 0 (Z.to_nat (Zlength kid + 1)))
                 = Ok (repeat 0 (Z.to_nat (Zlength kid + 1)) ++ rest)).
  { apply (memcpy_app [] zone rest (repeat 0 (Z.to_nat (Zlength kid + 1)))).
    rewrite Zlength_repeat by lia. exact Hz. }
  rewrite Hset. clear Hset. cbn [try].
  rewrite Zlength_nil. cbn [Z.eqb negb try].
  replace (repeat 0 (Z.to_nat (Zlength kid + 1)))
    with (0 :: repeat 0 (Z.to_nat (Zlength kid - 1)) ++ [0])
    by (change [0] with (repeat 0 1);
        rewrite <- repeat_app; change (0 :: repeat 0 ?k) with (repeat 0 (S k));
        f_equal; lia).
  cbn [app nth]. rewrite <- app_assoc. cbn [app].
  rewrite (u8_lor 0 COMP_OSCORE_OPT_KID_K_MASK)
    by (unfold COMP_OSCORE_OPT_KID_K_MASK; lia).
  next_store (@nil Z) (repeat 0 (Z.to_nat (Zlength kid - 1)) ++ 0 :: rest)
             0 (Z.lor 0 COMP_OSCORE_OPT_KID_K_MASK).
  destruct (Z.eqb_spec (Zlength kid) 0); [lia|]. cbn [negb].
  rewrite Z.sub_0_r.
  next_copy (@nil Z)
            (Z.lor 0 COMP_OSCORE_OPT_KID_K_MASK
               :: repeat 0 (Z.to_nat (Zlength kid - 1)))
            (0 :: rest) kid.
  reflexivity.
Qed.

End OptionValueFacts.

(** ** More on the option split and the merge *)

Section SplitMore.
Context {P : Platform}.

Lemma filter_class_counts (nrs : list Z) :
  (List.length (filter goes_inner nrs) <= List.length nrs)%nat
  /\ (List.length (filter goes_outer nrs) <= List.length nrs)%nat
  /\ (List.length (filter goes_inner nrs) + List.length (filter goes_outer nrs)
      = List.length nrs
        + List.length (filter (fun n => (n =? OBSERVE)%Z) nrs))%nat.
Proof.
  induction nrs as [|a nrs IH]; [cbn; repeat split; lia|].
  destruct IH as (IH1 & IH2 & IH3).
  cbn [filter]. unfold goes_inner, goes_outer in *.
  destruct (a =? OBSERVE); destruct (is_class_e a);
    cbn [orb negb List.length]; repeat split; lia.
Qed.

(** The two output arrays never overflow, and no option is lost: on every
    packet of at most [MAX_OPTION_COUNT] options the split succeeds, neither
    list is longer than the input, and together they hold every input
    option once, and those taken for Observe twice. *)
Theorem split_counts (in_o_coap : o_coap_packet) :
  options_cnt in_o_coap <= MAX_OPTION_COUNT ->
  exists E e_len U,
    inner_outer_option_split in_o_coap = Ok (E, e_len, U)
    /\ Zlength E <= options_cnt in_o_coap
    /\ Zlength U <= options_cnt in_o_coap
    /\ Zlength E + Zlength U
       = options_cnt in_o_coap
         + Zlength (filter (fun n => n =? OBSERVE)
                           (map u8 (true_numbers 0 (options in_o_coap)))).
Proof.
  intros Hcnt.
  destruct (inner_outer_option_split_spec in_o_coap Hcnt) as [e_len Hsplit].
  set (nrs := map u8 (true_numbers 0 (options in_o_coap))) in *.
  set (numbered := combine nrs (options in_o_coap)) in *.
  assert (Hfst : map fst numbered = nrs).
  { apply map_fst_combine. unfold nrs.
    rewrite length_map. apply true_numbers_length. }
  assert (Hn : List.length nrs = List.length (options in_o_coap))
    by (unfold nrs; rewrite length_map; apply true_numbers_length).
  assert (HE : List.length (rebuild_deltas 0 (inner_options in_o_coap numbered))
               = List.length (filter goes_inner nrs)).
  { rewrite <- (length_map option_number), rebuild_deltas_numbers,
      inner_options_numbers, Hfst. reflexivity. }
  assert (HU : List.length (rebuild_deltas 0 (outer_options numbered))
               = List.length (filter goes_outer nrs)).
  { rewrite <- (length_map option_number), rebuild_deltas_numbers,
      outer_options_numbers, Hfst. reflexivity. }
  destruct (filter_class_counts nrs) as (C1 & C2 & C3).
  eexists _, e_len, _. split; [exact Hsplit|].
  unfold options_cnt. rewrite !Zlength_correct, HE, HU. repeat split; lia.
Qed.

Lemma flat_map_filter {A B : Type} (p : A -> bool) (g : A -> B) (l : list A) :
  flat_map (fun x => if p x then [g x] else []) l = map g (filter p l).
Proof.
  induction l as [|x l IH]; [reflexivity|].
  cbn [flat_map filter]. rewrite IH. destruct (p x); reflexivity.
Qed.

Lemma rebuild_deltas_map {B : Type} (f : o_coap_option -> B) (sum : Z)
    (l : list o_coap_option) :
  (forall d n v nr,
      f {| delta := d; len := n; value := v; option_number := nr |}
      = f {| delta := 0; len := n; value := v; option_number := nr |}) ->
  map f (rebuild_deltas sum l) = map f l.
Proof.
  intros Hf. revert sum; induction l as [|o l IH]; intros sum;
    [reflexivity|].
  cbn [rebuild_deltas map]. rewrite IH. f_equal.
  destruct o as [d n v nr]. cbn [option_number len value delta].
  rewrite Hf. symmetry. apply Hf.
Qed.

(** The split keeps order and values: the U-list is made of the input
    options whose number, modulo 256, is of class U or Observe, in input
    order, each with its value and its length (on 8 bits); the E-list is
    made likewise of the options of class E or Observe, the value of an
    Observe option being elided when the packet is not a request. *)
Theorem split_keeps_order_and_values (in_o_coap : o_coap_packet) :
  options_cnt in_o_coap <= MAX_OPTION_COUNT ->
  exists E e_len U,
    inner_outer_option_split in_o_coap = Ok (E, e_len, U)
    /\ map (fun o => (option_number o, len o, value o)) U
       = map (fun no => (fst no, u8 (len (snd no)), value (snd no)))
           (filter (fun no => goes_outer (fst no))
              (combine (map u8 (true_numbers 0 (options in_o_coap)))
                       (options in_o_coap)))
    /\ map (fun o => (option_number o, len o, value o)) E
       = map (fun no =>
                if (fst no =? OBSERVE) && negb (is_request in_o_coap)
                then (fst no, 0, NULL)
                else (fst no, u8 (len (snd no)), value (snd no)))
           (filter (fun no => goes_inner (fst no))
              (combine (map u8 (true_numbers 0 (options in_o_coap)))
                       (options in_o_coap))).
Proof.
  intros Hcnt.
  destruct (inner_outer_option_split_spec in_o_coap Hcnt) as [e_len Hsplit].
  eexists _, e_len, _. split; [exact Hsplit|].
  rewrite !rebuild_deltas_map by reflexivity.
  unfold outer_options, inner_options.
  rewrite (flat_map_filter (fun no => goes_outer (fst no))
             (fun no => outer_option (fst no) (snd no))).
  rewrite (flat_map_filter (fun no => goes_inner (fst no))
             (fun no => inner_option in_o_coap (fst no) (snd no))).
  rewrite !map_map. split.
  - reflexivity.
  - apply map_ext. intros [nr o]. unfold inner_option. cbn [fst snd].
    destruct ((nr =? OBSERVE) && negb (is_request in_o_coap)); reflexivity.
Qed.

Lemma ascending_from_weaken (prev prev' : Z) (nrs : list Z) :
  prev' <= prev -> ascending_from prev nrs -> ascending_from prev' nrs.
Proof.
  destruct nrs as [|n nrs]; [trivial|].
  cbn [ascending_from]. intros H [H1 H2]. split; [lia|exact H2].
Qed.

Lemma ascending_from_filter (f : Z -> bool) (nrs : list Z) :
  forall prev, ascending_from prev nrs -> ascending_from prev (filter f nrs).
Proof.
  induction nrs as [|n nrs IH]; intros prev; [trivial|].
  cbn [ascending_from filter]. intros [H1 H2].
  destruct (f n).
  - split; [exact H1|apply IH; exact H2].
  - apply (ascending_from_weaken n); [lia|apply IH; exact H2].
Qed.

Lemma ascending_from_u8 (nrs : list Z) :
  forall prev, 0 <= prev -> ascending_from prev nrs -> map u8 nrs = nrs.
Proof.
  induction nrs as [|n nrs IH]; intros prev Hp; [reflexivity|].
  cbn [ascending_from map]. intros [H1 H2].
  rewrite u8_small by lia. f_equal. apply (IH n); [lia|exact H2].
Qed.

Lemma u16_small (x : Z) : 0 <= x < 65536 -> u16 x = x.
Proof. unfold u16. apply Z.mod_small. Qed.

(** Rebuilt deltas add up to the option numbers again when the numbers
    ascend below 256. *)
Lemma rebuild_true_numbers (l : list o_coap_option) :
  forall prev,
    0 <= prev < 256 ->
    ascending_from prev (map option_number l) ->
    true_numbers prev (rebuild_deltas prev l) = map option_number l.
Proof.
  induction l as [|o l IH]; intros prev Hp; [reflexivity|].
  cbn [map ascending_from rebuild_deltas true_numbers delta]. intros [H1 H2].
  rewrite (u16_small (option_number o - prev)) by lia.
  replace (prev + (option_number o - prev)) with (option_number o) by lia.
  rewrite (u8_small (option_number o)) by lia.
  f_equal. apply IH; [lia|exact H2].
Qed.

(** On a packet whose option numbers stay below 256 the split loses
    nothing to the 8-bit arithmetic: the lists hold the options under their
    true numbers, and in each list the rebuilt deltas add up to these
    numbers again, which ascend. *)
Theorem split_deltas_consistent (in_o_coap : o_coap_packet) :
  options_cnt in_o_coap <= MAX_OPTION_COUNT ->
  ascending_from 0 (true_numbers 0 (options in_o_coap)) ->
  exists E e_len U,
    inner_outer_option_split in_o_coap = Ok (E, e_len, U)
    /\ map option_number E
       = filter goes_inner (true_numbers 0 (options in_o_coap))
    /\ map option_number U
       = filter goes_outer (true_numbers 0 (options in_o_coap))
    /\ true_numbers 0 E = map option_number E
    /\ true_numbers 0 U = map option_number U
    /\ ascending_from 0 (map option_number E)
    /\ ascending_from 0 (map option_number U).
Proof.
  intros Hcnt Hasc.
  destruct (inner_outer_option_split_spec in_o_coap Hcnt) as [e_len Hsplit].
  rewrite (ascending_from_u8 _ 0 ltac:(lia) Hasc) in Hsplit.
  set (nrs := true_numbers 0 (options in_o_coap)) in *.
  set (numbered := combine nrs (options in_o_coap)) in *.
  assert (Hfst : map fst numbered = nrs)
    by (apply map_fst_combine; apply true_numbers_length).
  assert (HE : map option_number (inner_options in_o_coap numbered)
               = filter goes_inner nrs)
    by (rewrite inner_options_numbers, Hfst; reflexivity).
  assert (HU : map option_number (outer_options numbered)
               = filter goes_outer nrs)
    by (rewrite outer_options_numbers, Hfst; reflexivity).
  pose proof (ascending_from_filter goes_inner nrs 0 Hasc) as AE.
  pose proof (ascending_from_filter goes_outer nrs 0 Hasc) as AU.
  eexists _, e_len, _. split; [exact Hsplit|].
  rewrite !rebuild_deltas_numbers, HE, HU.
  split; [reflexivity|]. split; [reflexivity|].
  split; [|split; [|split; assumption]].
  - rewrite <- HE. apply rebuild_true_numbers; [lia|]. rewrite HE. exact AE.
  - rewrite <- HU. apply rebuild_true_numbers; [lia|]. rewrite HU. exact AU.
Qed.

Lemma insert_at_succ (k : Z) (oo x : o_coap_option)
    (u : list o_coap_option) :
  0 <= k -> insert_at (k + 1) oo (x :: u) = x :: insert_at k oo u.
Proof.
  intros Hk. unfold insert_at.
  replace (Z.to_nat (k + 1)) with (S (Z.to_nat k)) by lia. reflexivity.
Qed.

Lemma insert_ascending (oo : o_coap_option) (u : list o_coap_option) :
  option_number oo = OSCORE ->
  forall i prev,
    0 <= prev <= OSCORE ->
    ascending_from prev (map option_number u) ->
    ascending_from prev
      (map option_number
         (insert_at (find_oscore_opt_pos i u (i + Zlength u) - i) oo u)).
Proof.
  intros Hoo. induction u as [|x u IH]; intros i prev Hp Hasc.
  - cbn [find_oscore_opt_pos]. rewrite Zlength_nil.
    replace (i + 0 - i) with 0 by lia.
    cbn. rewrite Hoo. unfold OSCORE in *. repeat split; lia.
  - cbn [map ascending_from] in Hasc. destruct Hasc as [H1 H2].
    cbn [find_oscore_opt_pos]. rewrite Zlength_cons.
    destruct (Z.ltb_spec OSCORE (option_number x)) as [Hx|Hx].
    + rewrite Z.sub_diag. cbn. rewrite Hoo.
      unfold OSCORE in *. repeat split; try lia. exact H2.
    + replace (i + Z.succ (Zlength u)) with ((i + 1) + Zlength u) by lia.
      pose proof (find_oscore_opt_pos_spec u (i + 1)) as (Hr & _ & _).
      cbn zeta in Hr.
      set (r := find_oscore_opt_pos (i + 1) u (i + 1 + Zlength u)) in *.
      replace (r - i) with ((r - (i + 1)) + 1) by lia.
      rewrite insert_at_succ by lia.
      cbn [map ascending_from]. split; [exact H1|].
      apply IH; [lia|exact H2].
Qed.

(** When the U-options ascend below 256 and the OSCORE option carries the
    number OSCORE, the options of the outer packet ascend too, and their
    deltas add up to their numbers: the option array of the outer packet is
    a well-formed CoAP option list. *)
Theorem outer_options_well_formed (in_o_coap : o_coap_packet)
    (u_options : list o_coap_option) (in_ciphertext : bytes)
    (in_ciphertext_len : Z) (oscore_option : o_coap_option) :
  Zlength u_options < MAX_OPTION_COUNT ->
  option_number oscore_option = OSCORE ->
  ascending_from 0 (map option_number u_options) ->
  exists out,
    oscore_pkg_generate in_o_coap u_options in_ciphertext in_ciphertext_len
                        oscore_option = Ok out
    /\ options_cnt out = Zlength u_options + 1
    /\ ascending_from 0 (map option_number (options out))
    /\ true_numbers 0 (options out) = map option_number (options out).
Proof.
  intros Hcnt Hoo Hasc.
  destruct (oscore_pkg_generate_spec in_o_coap u_options in_ciphertext
              in_ciphertext_len oscore_option Hcnt) as (out & Hok & _ & Hopt).
  exists out. split; [exact Hok|].
  pose proof (insert_ascending oscore_option u_options Hoo 0 0
                ltac:(unfold OSCORE; lia) Hasc) as Hins.
  rewrite Z.add_0_l, Z.sub_0_r in Hins.
  unfold options_cnt. rewrite Hopt.
  split; [|split].
  - rewrite !Zlength_correct, rebuild_deltas_length, insert_at_length. lia.
  - rewrite rebuild_deltas_numbers. exact Hins.
  - rewrite rebuild_deltas_numbers.
    apply rebuild_true_numbers; [lia|exact Hins].
Qed.

End SplitMore.

(** ** More on coap2oscore *)

Section TransformMore.
Context {P : Platform}.

Lemma oscore_option_generate_number (piv kid kid_context : bytes)
    (oscore_option o : o_coap_option) :
  oscore_option_generate piv kid kid_context oscore_option = Ok o ->
  option_number o = OSCORE.
Proof.
  unfold oscore_option_generate, try.
  repeat match goal with
         | |- context [match ?x with _ => _ end] => destruct x
         end;
    intros [= <-]; reflexivity.
Qed.

(** The step that saves the ECHO value after a reboot. *)
Lemma echo_step (e_options : list o_coap_option) (w2 w3 : world) (u : unit) :
  (if reboot (rrc (c w2)) then
     DO _ <- set_rrc (with_echo_opt_val (rrc (c w2))
                        (snd (cache_echo_val (echo_opt_val (rrc (c w2)))
                                             e_options))) ;;
     DO _ <- lift (fst (cache_echo_val (echo_opt_val (rrc (c w2)))
                                       e_options)) ;;
     DO c3 <- get_c ;;
     set_rrc (with_reboot (rrc c3) false)
   else ret tt) w2 = (Ok u, w3) ->
  same_but_rrc w2 w3 /\ reboot (rrc (c w3)) = false.
Proof.
  destruct (reboot (rrc (c w2))) eqn:Hrb.
  - unfold bind, set_rrc, lift, get_c.
    destruct (fst (cache_echo_val (echo_opt_val (rrc (c w2))) e_options));
      [|discriminate].
    intros [= _ <-]. repeat split.
  - intros [= _ <-]. split; [apply same_but_rrc_refl|exact Hrb].
Qed.

(** What a call of the OSCORE option block that takes a sequence number
    and succeeds has done. *)
Lemma coap2oscore_option_taken (o_coap_pkt : o_coap_packet)
    (e_options u_options : list o_coap_option) (w w' : world)
    (o : o_coap_option) :
  is_request o_coap_pkt || is_observe u_options || reboot (rrc (c w)) = true ->
  coap2oscore_option o_coap_pkt e_options u_options w = (Ok o, w') ->
  exists piv,
    sender_seq_num2piv (sender_seq_num (sc (c w))) = Ok piv
    /\ get_oscore_opt_val_len piv (sender_id (sc (c w)))
                              (id_context (cc (c w)))
       <= OSCORE_OPT_VALUE_LEN
    /\ oscore_option_generate piv (sender_id (sc (c w)))
         (id_context (cc (c w)))
         {| delta := 0;
            len := get_oscore_opt_val_len piv (sender_id (sc (c w)))
                                          (id_context (cc (c w)));
            value := local_array "oscore_option" OSCORE_OPT_VALUE_LEN;
            option_number := OSCORE |} = Ok o
    /\ reboot (rrc (c w')) = false.
Proof.
  intros Hcond.
  unfold coap2oscore_option. unfold bind at 1. unfold get_c at 1.
  cbv beta iota zeta. rewrite Hcond.
  unfold bind at 1.
  change (lift (BYTE_ARRAY_NEW "piv" MAX_PIV_LEN MAX_PIV_LEN) w)
    with (Ok (local_array "piv" MAX_PIV_LEN), w).
  cbv iota. unfold bind at 1.
  unfold post_increment_sender_seq_num at 1. cbv iota.
  unfold bind at 1. unfold lift at 1.
  destruct (sender_seq_num2piv (sender_seq_num (sc (c w)))) as [piv|] eqn:Hpiv;
    [|discriminate].
  exists piv. split; [reflexivity|].
  revert H. unfold bind at 1. unfold get_c at 1. cbv beta iota.
  unfold bind at 1.
  match goal with
  | |- context [call_rrc ?r ?w1] =>
      pose proof (keeps_bind _ _ (keeps_set_rrc (snd r))
                    (fun _ => keeps_lift (fst r)) w1) as K1;
      fold (call_rrc r) in K1;
      destruct (call_rrc r w1) as [[?|?] w2]
  end; [|discriminate].
  cbn [snd] in K1.
  unfold bind at 1. unfold get_c at 1. cbv beta iota.
  unfold bind at 1.
  match goal with
  | |- context [(if ?b then ?m1 else ?m2) ?w1] =>
      destruct ((if b then m1 else m2) w1) as [[u|?] w3] eqn:Hecho
  end; [|discriminate].
  apply echo_step in Hecho. destruct Hecho as [K2 Hrb].
  destruct (same_but_rrc_trans _ _ _ K1 K2) as (_ & _ & Kcc & Ksc).
  cbn [c sc cc] in Kcc, Ksc.
  unfold bind at 1. unfold get_c at 1. cbv beta iota zeta.
  unfold bind at 1. unfold set_rrc at 1. cbv beta iota.
  unfold bind at 1. unfold lift at 1.
  match goal with
  | |- context [fst ?r] => destruct (fst r)
  end; [|discriminate].
  cbn [c sc cc rrc sender_id id_context].
  rewrite Kcc, Ksc. cbn [sender_id].
  match goal with
  | |- context [OSCORE_OPT_VALUE_LEN <? ?l] =>
      destruct (Z.ltb_spec OSCORE_OPT_VALUE_LEN l)
  end; [discriminate|].
  unfold lift.
  match goal with
  | |- (?g, _) = _ -> _ => destruct g as [o'|] eqn:Hgen
  end; [|discriminate].
  intros [= -> <-]. cbn [c rrc with_nonce reboot].
  repeat split; assumption.
Qed.

(** A call that takes no sequence number leaves the whole security context
    as it was, whether it succeeds or fails: an empty ACK, a packet that is
    rejected before the OSCORE option is built, and a response without
    Observe on a context that is not after reboot change no member of the
    context. *)
Theorem send_without_sequence_number_keeps_context (buf_o_coap : bytes)
    (w : world) :
  takes_sequence_number buf_o_coap w = false ->
  c (snd (coap2oscore buf_o_coap w)) = c w.
Proof.
  unfold takes_sequence_number.
  destruct (buf2coap buf_o_coap) as [o_coap_pkt|e] eqn:Hparse.
  2: { intros _. unfold coap2oscore, bind, lift. rewrite Hparse. reflexivity. }
  destruct (is_empty_ack o_coap_pkt) eqn:Hack.
  { intros _. unfold coap2oscore, bind, lift. rewrite Hparse.
    unfold is_empty_ack in Hack. rewrite Hack.
    destruct (_memcpy_s _ _ _ _); reflexivity. }
  rewrite (coap2oscore_steps _ _ w Hparse Hack).
  destruct (coap2oscore_plaintext o_coap_pkt)
    as [[[[e_options u_options] plaintext_buf] plaintext_len]|e];
    [|reflexivity].
  intros Hcond.
  unfold coap2oscore_option. unfold bind at 1. unfold get_c at 1.
  cbv beta iota zeta. rewrite Hcond. unfold ret.
  destruct (coap2oscore_tail _ _ _ _ _ w) as [r w'] eqn:Htail.
  apply coap2oscore_tail_inv in Htail. apply Htail.
Qed.

(** A successful call that takes a sequence number leaves the reboot flag
    of the context cleared. *)
Theorem successful_send_clears_reboot (buf_o_coap : bytes) (w w' : world) :
  takes_sequence_number buf_o_coap w = true ->
  coap2oscore buf_o_coap w = (Ok tt, w') ->
  reboot (rrc (c w')) = false.
Proof.
  unfold takes_sequence_number.
  destruct (buf2coap buf_o_coap) as [o_coap_pkt|e] eqn:Hparse;
    [|discriminate].
  destruct (is_empty_ack o_coap_pkt) eqn:Hack; [discriminate|].
  rewrite (coap2oscore_steps _ _ w Hparse Hack).
  destruct (coap2oscore_plaintext o_coap_pkt)
    as [[[[e_options u_options] plaintext_buf] plaintext_len]|e];
    [|discriminate].
  intros Hcond.
  destruct (coap2oscore_option o_coap_pkt e_options u_options w)
    as [[oscore_option|e] w1] eqn:Hopt; [|discriminate].
  destruct (coap2oscore_option_taken _ _ _ _ _ _ Hcond Hopt)
    as (piv & _ & _ & _ & Hrb).
  intros Htail. apply coap2oscore_tail_inv in Htail.
  destruct Htail as [Hc _]. rewrite Hc. exact Hrb.
Qed.

Lemma coap2oscore_option_number (o_coap_pkt : o_coap_packet)
    (e_options u_options : list o_coap_option) (w w' : world)
    (o : o_coap_option) :
  coap2oscore_option o_coap_pkt e_options u_options w = (Ok o, w') ->
  option_number o = OSCORE.
Proof.
  destruct (is_request o_coap_pkt || is_observe u_options
            || reboot (rrc (c w))) eqn:Hcond.
  - intros Hopt.
    destruct (coap2oscore_option_taken _ _ _ _ _ _ Hcond Hopt)
      as (piv & _ & _ & Hgen & _).
    apply (oscore_option_generate_number _ _ _ _ _ Hgen).
  - unfold coap2oscore_option. unfold bind at 1. unfold get_c at 1.
    cbv beta iota zeta. rewrite Hcond. intros [= <- _]. reflexivity.
Qed.

(** What a successful call on a packet that is not an empty ACK has
    written: the serialization, by [coap2buf], of an outer packet that has
    the version, type, token length, message id and token of the input, one
    of the four codes POST, FETCH, Changed and Content whatever the code of
    the input, and an option numbered OSCORE among its options. *)
Theorem successful_send_shape (buf_o_coap : bytes)
    (o_coap_pkt : o_coap_packet) (w w' : world) :
  buf2coap buf_o_coap = Ok o_coap_pkt ->
  is_empty_ack o_coap_pkt = false ->
  coap2oscore buf_o_coap w = (Ok tt, w') ->
  exists out,
    coap2buf out (buf_oscore w) (buf_oscore_len w)
    = (Ok tt, buf_oscore w', buf_oscore_len w')
    /\ ver (header out) = ver (header o_coap_pkt)
    /\ type (header out) = type (header o_coap_pkt)
    /\ TKL (header out) = TKL (header o_coap_pkt)
    /\ MID (header out) = MID (header o_coap_pkt)
    /\ token out = (if TKL (header o_coap_pkt) =? 0 then NULL
                    else token o_coap_pkt)
    /\ In (code (header out))
          [CODE_REQ_POST; CODE_REQ_FETCH; CODE_RESP_CHANGED; CODE_RESP_CONTENT]
    /\ (exists o, In o (options out) /\ option_number o = OSCORE).
Proof.
  intros Hparse Hack.
  rewrite (coap2oscore_steps _ _ w Hparse Hack).
  destruct (coap2oscore_plaintext o_coap_pkt)
    as [[[[e_options u_options] plaintext_buf] plaintext_len]|e];
    [|discriminate].
  destruct (coap2oscore_option o_coap_pkt e_options u_options w)
    as [[oscore_option|e] w1] eqn:Hopt; [|discriminate].
  pose proof (coap2oscore_option_number _ _ _ _ _ _ Hopt) as Hnr.
  destruct (coap2oscore_option_frame _ _ _ _ _ _ Hopt) as (Hb & Hn & _).
  intros Htail. apply coap2oscore_tail_inv in Htail.
  destruct Htail as [_ [(e & He & _)|(ciphertext & out & Hpkg & Hbuf)]];
    [discriminate|].
  rewrite Hb, Hn in Hbuf.
  exists out. split; [exact Hbuf|].
  assert (Hroom : Zlength u_options < MAX_OPTION_COUNT).
  { unfold oscore_pkg_generate in Hpkg.
    destruct (Z.ltb_spec MAX_OPTION_COUNT (Zlength u_options + 1));
      [discriminate|lia]. }
  destruct (oscore_pkg_generate_spec o_coap_pkt u_options ciphertext
              (u32 (plaintext_len + AUTH_TAG_LEN)) oscore_option Hroom)
    as (out' & Hok & Hcode & Hopts).
  rewrite Hok in Hpkg. injection Hpkg as ->.
  unfold oscore_pkg_generate in Hok.
  destruct (MAX_OPTION_COUNT <? Zlength u_options + 1); [discriminate|].
  injection Hok as Hout.
  repeat split; try (rewrite <- Hout; reflexivity).
  - rewrite Hcode.
    destruct (is_request o_coap_pkt); destruct (is_observe u_options);
      cbn; auto.
  - assert (Hin : In oscore_option
                    (insert_at (find_oscore_opt_pos 0 u_options
                                  (Zlength u_options))
                               oscore_option u_options))
      by (unfold insert_at; apply in_or_app; right; left; reflexivity).
    destruct (rebuild_deltas_In 0 _ _ Hin) as (o & Ho & So & _).
    exists o. split; [rewrite Hopts; exact Ho|congruence].
Qed.

(** A failing call never writes to the output buffer itself: after a
    failure the buffer holds what it held before the call, unless the
    failure is that of [coap2buf], at the very end. *)
Theorem failed_send_leaves_output (buf_o_coap : bytes) (w w' : world)
    (e : err) :
  coap2oscore buf_o_coap w = (Err e, w') ->
  buf_oscore w' = buf_oscore w
  \/ exists out,
       coap2buf out (buf_oscore w) (buf_oscore_len w)
       = (Err e, buf_oscore w', buf_oscore_len w').
Proof.
  destruct (buf2coap buf_o_coap) as [o_coap_pkt|e0] eqn:Hparse.
  2: { unfold coap2oscore, bind, lift. rewrite Hparse.
       intros [= _ <-]. left. reflexivity. }
  destruct (is_empty_ack o_coap_pkt) eqn:Hack.
  { unfold coap2oscore, bind, lift. rewrite Hparse.
    unfold is_empty_ack in Hack. rewrite Hack.
    destruct (_memcpy_s _ _ _ _); [discriminate|].
    intros [= _ <-]. left. reflexivity. }
  rewrite (coap2oscore_steps _ _ w Hparse Hack).
  destruct (coap2oscore_plaintext o_coap_pkt)
    as [[[[e_options u_options] plaintext_buf] plaintext_len]|e0].
  2: { intros [= _ <-]. left. reflexivity. }
  destruct (coap2oscore_option o_coap_pkt e_options u_options w)
    as [[oscore_option|e0] w1] eqn:Hopt;
    destruct (coap2oscore_option_frame _ _ _ _ _ _ Hopt) as (Hb & Hn & _).
  2: { intros [= _ <-]. left. exact Hb. }
  intros Htail. apply coap2oscore_tail_inv in Htail.
  destruct Htail as [_ [(e1 & _ & ->)|(ciphertext & out & _ & Hbuf)]].
  - left. exact Hb.
  - right. exists out. rewrite Hb, Hn in Hbuf. exact Hbuf.
Qed.

Lemma u64_add_l (a b : Z) : u64 (u64 a + b) = u64 (a + b).
Proof. unfold u64. apply Zplus_mod_idemp_l. Qed.

(** Every call that takes a sequence number moves it on by one, whatever
    its outcome: after sending [n] such buffers one after the other, the
    sender sequence number is the initial one plus [n], on 64 bits. *)
Theorem sender_seq_num_after_sends (bufs : list bytes) (w : world) :
  (forall buf, In buf bufs -> forall w0, takes_sequence_number buf w0 = true) ->
  0 <= sender_seq_num (sc (c w)) < 2 ^ 64 ->
  sender_seq_num (sc (c (send_all bufs w)))
  = u64 (sender_seq_num (sc (c w)) + Zlength bufs).
Proof.
  intros Htakes Hssn.
  assert (G : forall w0,
             sender_seq_num (sc (c (send_all bufs w0)))
             = if Zlength bufs =? 0 then sender_seq_num (sc (c w0))
               else u64 (sender_seq_num (sc (c w0)) + Zlength bufs)).
  { induction bufs as [|buf bufs IH]; intros w0; [reflexivity|].
    cbn [send_all]. rewrite IH by (intros; apply Htakes; right; assumption).
    rewrite coap2oscore_sender_seq_num.
    rewrite (Htakes buf (or_introl eq_refl)).
    rewrite Zlength_cons. pose proof (Zlength_nonneg bufs).
    destruct (Z.eqb_spec (Z.succ (Zlength bufs)) 0); [lia|].
    destruct (Z.eqb_spec (Zlength bufs) 0) as [E|E].
    - rewrite E. reflexivity.
    - rewrite u64_add_l. f_equal. lia. }
  rewrite G. destruct (Z.eqb_spec (Zlength bufs) 0) as [E|E]; [|reflexivity].
  rewrite E, Z.add_0_r. unfold u64. symmetry. apply Z.mod_small.
  change 18446744073709551616 with (2 ^ 64). exact Hssn.
Qed.

(** The OSCORE option of a message that takes a sequence number: its value
    starts with the flag byte, the partial IV of the sequence number the
    context had before the call, the kid context of the common context when
    there is one, and the sender identifier as kid, for a request, for a
    notification and for the first response after a reboot alike. *)
Theorem sent_option_value (o_coap_pkt : o_coap_packet)
    (e_options u_options : list o_coap_option) (w w' : world)
    (o : o_coap_option) (piv : bytes) :
  is_request o_coap_pkt || is_observe u_options || reboot (rrc (c w)) = true ->
  sender_seq_num2piv (sender_seq_num (sc (c w))) = Ok piv ->
  Zlength piv + Zlength (id_context (cc (c w)))
    + Zlength (sender_id (sc (c w))) <= 253 ->
  coap2oscore_option o_coap_pkt e_options u_options w = (Ok o, w') ->
  len o = 1 + Zlength piv
          + (if Zlength (id_context (cc (c w))) =? 0 then 0
             else 1 + Zlength (id_context (cc (c w))))
          + Zlength (sender_id (sc (c w)))
  /\ firstn (Z.to_nat (len o)) (value o)
     = Z.lor (Z.lor (Zlength piv)
                    (if Zlength (id_context (cc (c w))) =? 0 then 0
                     else COMP_OSCORE_OPT_KIDC_H_MASK))
             COMP_OSCORE_OPT_KID_K_MASK
         :: piv
         ++ (if Zlength (id_context (cc (c w))) =? 0 then []
             else Zlength (id_context (cc (c w))) :: id_context (cc (c w)))
         ++ sender_id (sc (c w)).
Proof.
  intros Hcond Hpiv Hsum Hopt.
  destruct (coap2oscore_option_taken _ _ _ _ _ _ Hcond Hopt)
    as (piv' & Hpiv' & Hlen & Hgen & _).
  rewrite Hpiv in Hpiv'. injection Hpiv' as <-.
  assert (Hp : 1 <= Zlength piv).
  { pose proof (sender_seq_num2piv_not_empty _ _ Hpiv).
    pose proof (Zlength_nonneg piv). lia. }
  pose proof (Zlength_nonneg (sender_id (sc (c w)))) as Nk.
  pose proof (Zlength_nonneg (id_context (cc (c w)))) as Nc.
  pose proof (get_oscore_opt_val_len_exact piv (sender_id (sc (c w)))
                (id_context (cc (c w))) Hp Hsum) as Hexact.
  assert (Hroom : get_oscore_opt_val_len piv (sender_id (sc (c w)))
                    (id_context (cc (c w)))
                  <= Zlength (local_array "oscore_option"
                                          OSCORE_OPT_VALUE_LEN)).
  { rewrite Zlength_local_array; [exact Hlen|].
    rewrite Hexact in Hlen.
    destruct (Zlength (id_context (cc (c w))) =? 0); lia. }
  rewrite (oscore_option_generate_layout piv (sender_id (sc (c w)))
             (id_context (cc (c w))) _ 0 OSCORE Hp Hsum Hroom) in Hgen.
  injection Hgen as Ho.
  assert (Hlen_o : len o
                   = 1 + Zlength piv
                     + (if Zlength (id_context (cc (c w))) =? 0 then 0
                        else 1 + Zlength (id_context (cc (c w))))
                     + Zlength (sender_id (sc (c w))))
    by (rewrite <- Ho; reflexivity).
  split; [exact Hlen_o|].
  rewrite Hlen_o. rewrite <- Ho. unfold value.
  set (flags := Z.lor _ _).
  set (s := if Zlength (id_context (cc (c w))) =? 0 then []
            else Zlength (id_context (cc (c w))) :: id_context (cc (c w))).
  assert (Hs : Zlength s
               = if Zlength (id_context (cc (c w))) =? 0 then 0
                 else 1 + Zlength (id_context (cc (c w)))).
  { unfold s. destruct (Zlength (id_context (cc (c w))) =? 0);
      [reflexivity|]. rewrite Zlength_cons. lia. }
  rewrite <- Hs.
  replace (1 + Zlength piv + Zlength s + Zlength (sender_id (sc (c w))))
    with (Zlength (flags :: piv ++ s ++ sender_id (sc (c w))))
    by (rewrite Zlength_cons, !Zlength_app'; lia).
  change (flags :: piv ++ s ++ sender_id (sc (c w)) ++ ?r)
    with ((flags :: piv ++ s ++ sender_id (sc (c w)) ++ r)).
  replace (flags :: piv ++ s ++ sender_id (sc (c w))
             ++ skipn (Z.to_nat (get_oscore_opt_val_len piv
                                   (sender_id (sc (c w)))
                                   (id_context (cc (c w)))))
                      (local_array "oscore_option" OSCORE_OPT_VALUE_LEN))
    with ((flags :: piv ++ s ++ sender_id (sc (c w)))
            ++ skipn (Z.to_nat (get_oscore_opt_val_len piv
                                  (sender_id (sc (c w)))
                                  (id_context (cc (c w)))))
                     (local_array "oscore_option" OSCORE_OPT_VALUE_LEN))
    by (cbn [app]; rewrite <- !app_assoc; reflexivity).
  rewrite Zlength_to_nat, firstn_app, Nat.sub_diag, firstn_all, firstn_O.
  apply app_nil_r.
Qed.

End TransformMore.

(** ** More on the input of TH_3 *)

Section EdhocMore.
Import Cbor Edhoc CborFacts.

Lemma emit_true (s s' : cbor_state_t) (bs : bytes) :
  emit s bs = (true, s') ->
  Cbor.payload s' = Cbor.payload s ++ bs
  /\ payload_end s' = payload_end s
  /\ Zlength (Cbor.payload s) + Zlength bs <= payload_end s.
Proof.
  unfold emit.
  destruct (Z.leb_spec (Zlength (Cbor.payload s) + Zlength bs) (payload_end s));
    [|discriminate].
  intros [= <-]. cbn. auto.
Qed.

Lemma emit_too_long (s : cbor_state_t) (bs : bytes) :
  payload_end s < Zlength (Cbor.payload s) + Zlength bs ->
  emit s bs = (false, s).
Proof.
  intros H. unfold emit.
  destruct (Z.leb_spec (Zlength (Cbor.payload s) + Zlength bs) (payload_end s));
    [lia|reflexivity].
Qed.

Lemma cbor_encode_th3_true (payload_len : Z) (input : th3) (out : bytes)
    (l : option Z) :
  cbor_encode_th3 payload_len input = (true, out, l) ->
  out = bstr (_th3_th_2 input) ++ bstr (_th3_CIPHERTEXT_2 input)
  /\ Zlength out <= payload_len.
Proof.
  unfold cbor_encode_th3, encode_th3, bstrx_encode.
  destruct (emit (new_state payload_len) (bstr (_th3_th_2 input)))
    as [[|] s1] eqn:E1; [|discriminate].
  destruct (emit s1 (bstr (_th3_CIPHERTEXT_2 input))) as [[|] s2] eqn:E2;
    [|discriminate].
  intros [= <- _].
  apply emit_true in E1. destruct E1 as (P1 & N1 & _).
  apply emit_true in E2. destruct E2 as (P2 & N2 & F2).
  cbn [new_state Cbor.payload payload_end app] in *.
  rewrite P2, P1. split; [reflexivity|].
  rewrite Zlength_app'. rewrite P1 in F2. lia.
Qed.

(** When the two items do not fit in the buffer, [cbor_encode_th3] returns
    false and stores nothing through [payload_len_out]. *)
Theorem cbor_encode_th3_too_small (payload_len : Z) (input : th3) :
  payload_len
    < Zlength (bstr (_th3_th_2 input) ++ bstr (_th3_CIPHERTEXT_2 input)) ->
  fst (fst (cbor_encode_th3 payload_len input)) = false
  /\ snd (cbor_encode_th3 payload_len input) = None.
Proof.
  intros Hlen. rewrite Zlength_app' in Hlen.
  unfold cbor_encode_th3, encode_th3, bstrx_encode.
  destruct (emit (new_state payload_len) (bstr (_th3_th_2 input)))
    as [[|] s1] eqn:E1; [|split; reflexivity].
  apply emit_true in E1. destruct E1 as (P1 & N1 & _).
  cbn [new_state Cbor.payload payload_end app] in P1, N1.
  rewrite emit_too_long by (rewrite P1, N1; lia).
  split; reflexivity.
Qed.

(** The input of TH_3 is unambiguous: two inputs for which
    [cbor_encode_th3] writes the same bytes have the same TH_2 and the same
    CIPHERTEXT_2, whatever the sizes of the two buffers. *)
Theorem th3_input_unambiguous (payload_len1 payload_len2 : Z)
    (input1 input2 : th3) (out : bytes) (l1 l2 : option Z) :
  payload_len1 < 2 ^ 32 ->
  payload_len2 < 2 ^ 32 ->
  cbor_encode_th3 payload_len1 input1 = (true, out, l1) ->
  cbor_encode_th3 payload_len2 input2 = (true, out, l2) ->
  input1 = input2.
Proof.
  intros Hn1 Hn2 H1 H2.
  apply cbor_encode_th3_true in H1. destruct H1 as [O1 L1].
  apply cbor_encode_th3_true in H2. destruct H2 as [O2 L2].
  destruct input1 as [a1 b1], input2 as [a2 b2].
  cbn [_th3_th_2 _th3_CIPHERTEXT_2] in *.
  assert (B : 2 ^ 32 < 2 ^ 64) by reflexivity.
  assert (D : forall a b n, Zlength (bstr a ++ bstr b) <= n -> n < 2 ^ 32 ->
                decode_bstr_seq 2 (bstr a ++ bstr b) = Some [a; b]).
  { intros a b n L N. rewrite Zlength_app' in L.
    pose proof (bstr_Zlength a). pose proof (bstr_Zlength b).
    pose proof (Zlength_nonneg a). pose proof (Zlength_nonneg b).
    pose proof (decode_bstr_seq_bstrs [a; b] 2) as D.
    cbn [map List.concat] in D. rewrite app_nil_r in D.
    apply D; [|simpl; lia]. repeat constructor; lia. }
  pose proof (D a1 b1 payload_len1) as D1.
  pose proof (D a2 b2 payload_len2) as D2.
  rewrite <- O1 in D1. rewrite <- O2 in D2.
  rewrite D1 in D2 by assumption.
  specialize (D2 L2 Hn2). injection D2 as -> ->. reflexivity.
Qed.

End EdhocMore.

(** ** The plaintext of a packet *)

Lemma skipn_repeat {A : Type} (x : A) (k n : nat) :
  skipn k (repeat x n) = repeat x (n - k).
Proof.
  revert k; induction n as [|n IH]; intros [|k]; cbn; auto.
Qed.

Lemma firstn_repeat {A : Type} (x : A) (k n : nat) :
  (k <= n)%nat -> firstn k (repeat x n) = repeat x k.
Proof.
  revert k; induction n as [|n IH]; intros [|k] H; cbn; auto; [lia|].
  f_equal. apply IH. lia.
Qed.

Section PacketPlaintext.
Context {P : Platform}.

Lemma u16_range (x : Z) : 0 <= u16 x < 65536.
Proof. unfold u16. apply Z.mod_pos_bound. lia. Qed.

Lemma split_fold_len_range (in_o_coap : o_coap_packet)
    (l : list o_coap_option) (s : split_state) :
  0 <= e_options_len s < 65536 ->
  0 <= e_options_len (fold_left (split_step in_o_coap) l s) < 65536.
Proof.
  revert s; induction l as [|o l IH]; intros s Hs; [exact Hs|].
  cbn [fold_left]. apply IH. unfold split_step.
  destruct (u8 (temp_option_nr s + delta o) =? OBSERVE).
  - cbn [e_options_len]. destruct (is_request in_o_coap); apply u16_range.
  - destruct (is_class_e (u8 (temp_option_nr s + delta o)));
      cbn [e_options_len]; [apply u16_range|exact Hs].
Qed.

Lemma split_e_options_len_range (in_o_coap : o_coap_packet)
    (E U : list o_coap_option) (e_len : Z) :
  inner_outer_option_split in_o_coap = Ok (E, e_len, U) ->
  0 <= e_len < 65536.
Proof.
  unfold inner_outer_option_split.
  destruct (MAX_OPTION_COUNT <? options_cnt in_o_coap); [discriminate|].
  intros [= _ <- _]. apply split_fold_len_range. cbn. lia.
Qed.

(** The length coap2oscore gives to the plaintext (lines 532-536). *)
Lemma plaintext_len_of_packet (in_o_coap : o_coap_packet) (e_len : Z) :
  0 <= e_len ->
  1 + e_len + Zlength (marked_payload in_o_coap) < 2 ^ 32 ->
  (if negb (payload_len in_o_coap =? 0)
   then u32 (u32 (1 + e_len) + 1 + payload_len in_o_coap)
   else u32 (1 + e_len))
  = 1 + e_len + Zlength (marked_payload in_o_coap).
Proof.
  intros He Hl. rewrite marked_payload_length in *.
  pose proof (Zlength_nonneg (payload in_o_coap)) as Np.
  fold (payload_len in_o_coap) in Np.
  destruct (Z.eqb_spec (payload_len in_o_coap) 0); cbn [negb].
  - rewrite u32_small by lia. lia.
  - rewrite (u32_small (1 + e_len)) by lia. rewrite u32_small by lia. lia.
Qed.

(** The plaintext coap2oscore builds for a packet: the code, the E-options
    as [options_into_byte_string] serializes them and, when there is a
    payload, the marker 0xFF and the payload.  Its length is not the length
    of these bytes but 1 plus the length the option split counted plus the
    marked payload: when the split counted more bytes than the serialized
    E-options have, the plaintext ends, after the payload, with that many
    bytes of the fresh array that [plaintext_setup] never wrote. *)
Theorem plaintext_of_packet (o_coap_pkt : o_coap_packet)
    (E U : list o_coap_option) (e_len : Z) (ser fresh : bytes) :
  inner_outer_option_split o_coap_pkt = Ok (E, e_len, U) ->
  e_opt_serial_len E <= E_OPTIONS_BUFF_MAX_LEN ->
  options_into_byte_string E (e_opt_serial_len E) = Ok ser ->
  Zlength ser <= e_len ->
  MAX_PLAINTEXT_LEN < 2 ^ 32 ->
  BYTE_ARRAY_NEW "plaintext" MAX_PLAINTEXT_LEN
    (1 + e_len + Zlength (marked_payload o_coap_pkt)) = Ok fresh ->
  exists plaintext_buf,
    coap2oscore_plaintext o_coap_pkt
    = Ok (E, U, plaintext_buf,
          1 + e_len + Zlength (marked_payload o_coap_pkt))
    /\ firstn (Z.to_nat (1 + e_len + Zlength (marked_payload o_coap_pkt)))
              plaintext_buf
       = code (header o_coap_pkt) :: ser ++ marked_payload o_coap_pkt
         ++ firstn (Z.to_nat (e_len - Zlength ser))
              (skipn (Z.to_nat (1 + Zlength ser
                                + Zlength (marked_payload o_coap_pkt)))
                     fresh).
Proof.
  intros Hsplit Hmax Hser Hle H32 Hfresh.
  pose proof (Zlength_nonneg ser) as Ns.
  pose proof (Zlength_nonneg (marked_payload o_coap_pkt)) as Nm.
  assert (Hroom : 1 + e_len + Zlength (marked_payload o_coap_pkt)
                  <= MAX_PLAINTEXT_LEN
                  /\ Zlength fresh = MAX_PLAINTEXT_LEN).
  { unfold BYTE_ARRAY_NEW, check_buffer_size in Hfresh.
    destruct (Z.ltb_spec MAX_PLAINTEXT_LEN
                (1 + e_len + Zlength (marked_payload o_coap_pkt)));
      [discriminate|].
    cbn [try] in Hfresh. injection Hfresh as <-.
    split; [assumption|]. apply Zlength_local_array. lia. }
  destruct Hroom as [Hroom Hsize].
  unfold coap2oscore_plaintext. rewrite Hsplit. cbn [try]. cbv zeta.
  rewrite plaintext_len_of_packet by lia.
  rewrite Hfresh. cbn [try].
  set (L := 1 + e_len + Zlength (marked_payload o_coap_pkt)) in *.
  rewrite (plaintext_setup_writes o_coap_pkt E fresh ser L Hmax Hser)
    by (unfold L in *; lia).
  cbn [try]. eexists. split; [reflexivity|].
  set (m := marked_payload o_coap_pkt) in *.
  set (tail := skipn (Z.to_nat (1 + Zlength ser + Zlength m)) fresh).
  replace (code (header o_coap_pkt) :: ser ++ m ++ tail)
    with ((code (header o_coap_pkt) :: ser ++ m) ++ tail)
    by (cbn [app]; rewrite <- !app_assoc; reflexivity).
  replace (code (header o_coap_pkt) :: ser ++ m
             ++ firstn (Z.to_nat (e_len - Zlength ser)) tail)
    with ((code (header o_coap_pkt) :: ser ++ m)
            ++ firstn (Z.to_nat (e_len - Zlength ser)) tail)
    by (cbn [app]; rewrite <- !app_assoc; reflexivity).
  assert (Hpre : List.length (code (header o_coap_pkt) :: ser ++ m)
                 = Z.to_nat (1 + Zlength ser + Zlength m)).
  { cbn [List.length]. rewrite length_app, !Zlength_correct. lia. }
  rewrite firstn_app, Hpre.
  rewrite firstn_all2 by (rewrite Hpre; unfold L; lia).
  f_equal. f_equal. unfold L. lia.
Qed.

(** A packet whose E-options serialize to more bytes than the option split
    counted for them is rejected, unless the excess is exactly the size of
    the marked payload: the plaintext is given the counted length, the
    bounded copy of the options or of the payload refuses, and coap2oscore
    fails with [dest_buffer_to_small] before it touches the context or the
    output buffer.  (In the excepted case the packet is not rejected; it
    goes on without its payload.) *)
Theorem packet_with_longer_options_is_rejected (buf_o_coap : bytes)
    (o_coap_pkt : o_coap_packet) (E U : list o_coap_option) (e_len : Z)
    (ser : bytes) (w : world) :
  buf2coap buf_o_coap = Ok o_coap_pkt ->
  is_empty_ack o_coap_pkt = false ->
  inner_outer_option_split o_coap_pkt = Ok (E, e_len, U) ->
  e_opt_serial_len E <= E_OPTIONS_BUFF_MAX_LEN ->
  options_into_byte_string E (e_opt_serial_len E) = Ok ser ->
  e_len < Zlength ser ->
  Zlength ser <> e_len + Zlength (marked_payload o_coap_pkt) ->
  1 + e_len + Zlength (marked_payload o_coap_pkt) <= MAX_PLAINTEXT_LEN ->
  MAX_PLAINTEXT_LEN < 2 ^ 32 ->
  coap2oscore buf_o_coap w = (Err dest_buffer_to_small, w).
Proof.
  intros Hparse Hack Hsplit Hmax Hser Hlt Hne Hroom H32.
  pose proof (split_e_options_len_range _ _ _ _ Hsplit) as He.
  pose proof (Zlength_nonneg (marked_payload o_coap_pkt)) as Nm.
  rewrite (coap2oscore_steps _ _ w Hparse Hack).
  assert (Hplain : coap2oscore_plaintext o_coap_pkt
                   = Err dest_buffer_to_small).
  { unfold coap2oscore_plaintext. rewrite Hsplit. cbn [try]. cbv zeta.
    rewrite plaintext_len_of_packet by lia.
    set (L := 1 + e_len + Zlength (marked_payload o_coap_pkt)) in *.
    unfold BYTE_ARRAY_NEW, check_buffer_size.
    destruct (Z.ltb_spec MAX_PLAINTEXT_LEN L); [lia|]. cbn [try].
    rewrite (plaintext_setup_refuses o_coap_pkt E
               (local_array "plaintext" MAX_PLAINTEXT_LEN) ser L Hmax Hser)
      by (rewrite ?Zlength_local_array by lia; unfold L in *; lia).
    reflexivity. }
  rewrite Hplain. reflexivity.
Qed.

(** The one case left: a packet with a payload whose E-options serialize
    to exactly as many bytes more than the split counted as the marked
    payload takes.  The plaintext is then given the length of the code and
    the options alone, [plaintext_setup] succeeds, and the plaintext that
    goes on to be encrypted is the code and the E-options: the payload of
    the packet is not in it. *)
Theorem payload_is_dropped_from_plaintext (o_coap_pkt : o_coap_packet)
    (E U : list o_coap_option) (e_len : Z) (ser : bytes) :
  inner_outer_option_split o_coap_pkt = Ok (E, e_len, U) ->
  e_opt_serial_len E <= E_OPTIONS_BUFF_MAX_LEN ->
  options_into_byte_string E (e_opt_serial_len E) = Ok ser ->
  payload_len o_coap_pkt <> 0 ->
  Zlength ser = e_len + Zlength (marked_payload o_coap_pkt) ->
  1 + Zlength ser + Zlength (marked_payload o_coap_pkt)
    <= MAX_PLAINTEXT_LEN ->
  MAX_PLAINTEXT_LEN < 2 ^ 32 ->
  exists plaintext_buf,
    coap2oscore_plaintext o_coap_pkt
    = Ok (E, U, plaintext_buf, 1 + Zlength ser)
    /\ firstn (Z.to_nat (1 + Zlength ser)) plaintext_buf
       = code (header o_coap_pkt) :: ser.
Proof.
  intros Hsplit Hmax Hser Hpay Heq Hroom H32.
  pose proof (split_e_options_len_range _ _ _ _ Hsplit) as He.
  pose proof (Zlength_nonneg ser) as Ns.
  pose proof (Zlength_nonneg (marked_payload o_coap_pkt)) as Nm.
  pose proof (marked_payload_length o_coap_pkt) as Hm.
  destruct (Z.eqb_spec (payload_len o_coap_pkt) 0) as [|_]; [contradiction|].
  unfold coap2oscore_plaintext. rewrite Hsplit. cbn [try]. cbv zeta.
  rewrite plaintext_len_of_packet by lia.
  replace (1 + e_len + Zlength (marked_payload o_coap_pkt))
    with (1 + Zlength ser) by lia.
  unfold BYTE_ARRAY_NEW, check_buffer_size.
  destruct (Z.ltb_spec MAX_PLAINTEXT_LEN (1 + Zlength ser)); [lia|].
  cbn [try].
  destruct (plaintext_setup_overruns o_coap_pkt E
              (local_array "plaintext" MAX_PLAINTEXT_LEN) ser
              (1 + Zlength ser) Hmax Hser Hpay eq_refl)
    as (p & Hp & Hfirst & _);
    [rewrite Zlength_local_array by lia; lia|lia|].
  rewrite Hp. cbn [try]. exists p. split; [reflexivity|exact Hfirst].
Qed.

(** For an empty ACK the size the caller announces for the output buffer
    is not consulted: the bound given to the copy is the length of the
    input.  An input longer than the announced size is still copied in
    full, past that size, and the call succeeds. *)
Theorem empty_ack_ignores_announced_size (buf_o_coap : bytes)
    (o_coap_pkt : o_coap_packet) (w : world) :
  buf2coap buf_o_coap = Ok o_coap_pkt ->
  is_empty_ack o_coap_pkt = true ->
  buf_oscore_len w < Zlength buf_o_coap ->
  Zlength buf_o_coap <= Zlength (buf_oscore w) ->
  fst (coap2oscore buf_o_coap w) = Ok tt
  /\ firstn (List.length buf_o_coap)
            (buf_oscore (snd (coap2oscore buf_o_coap w)))
     = buf_o_coap
  /\ buf_oscore_len (snd (coap2oscore buf_o_coap w)) = Zlength buf_o_coap.
Proof.
  intros Hparse Hack _ Hroom. unfold is_empty_ack in Hack.
  unfold coap2oscore, bind, lift. rewrite Hparse, Hack.
  unfold _memcpy_s. rewrite Z.ltb_irrefl.
  rewrite memcpy_at_0 by exact Hroom.
  cbn [fst snd buf_oscore buf_oscore_len].
  repeat split.
  rewrite firstn_app, Nat.sub_diag, firstn_all, firstn_O. apply app_nil_r.
Qed.

End PacketPlaintext.

(** ** The further properties on the example inputs *)

Lemma plaintext_setup_layout_witness :
  @plaintext_setup test_platform test_notification_packet
    test_notification_e_options (repeat 0 16%nat) 16
  = Ok (code (header test_notification_packet)
          :: [96] ++ marked_payload test_notification_packet
          ++ skipn (Z.to_nat (1 + Zlength [96]
                              + Zlength (marked_payload
                                           test_notification_packet)))
                   (repeat 0 16%nat)).
Proof.
  apply (@plaintext_setup_layout test_platform test_notification_packet
           test_notification_e_options (repeat 0 16%nat) [96] 16).
  - vm_compute. discriminate.
  - reflexivity.
  - vm_compute. discriminate.
  - vm_compute. discriminate.
  - reflexivity.
Defined.

Lemma plaintext_setup_too_small_witness :
  @plaintext_setup test_platform test_notification_packet
    test_notification_e_options (repeat 0 16%nat) 4
  = Err dest_buffer_to_small.
Proof.
  apply (@plaintext_setup_too_small test_platform test_notification_packet
           test_notification_e_options (repeat 0 16%nat) [96] 4).
  - vm_compute. discriminate.
  - reflexivity.
  - lia.
  - reflexivity.
  - vm_compute. discriminate.
  - vm_compute. discriminate.
  - reflexivity.
Defined.

Lemma plaintext_setup_drops_payload_witness :
  exists p,
    @plaintext_setup test_platform test_notification_packet
      test_notification_e_options (repeat 0 16%nat) 2 = Ok p
    /\ firstn (Z.to_nat 2) p = code (header test_notification_packet) :: [96]
    /\ skipn (Z.to_nat 2) p
       = 255 :: payload test_notification_packet
         ++ skipn (Z.to_nat (2 + 1 + payload_len test_notification_packet))
                  (repeat 0 16%nat).
Proof.
  apply (@plaintext_setup_drops_payload test_platform
           test_notification_packet test_notification_e_options
           (repeat 0 16%nat) [96] 2).
  - vm_compute. discriminate.
  - reflexivity.
  - vm_compute. discriminate.
  - reflexivity.
  - vm_compute. discriminate.
  - reflexivity.
Defined.

Lemma oscore_option_value_layout_witness :
  oscore_option_generate [20] [1] [2; 3]
    {| delta := 0; len := get_oscore_opt_val_len [20] [1] [2; 3];
       value := repeat 0 20%nat; option_number := 0 |}
  = Ok {| delta := 0;
          len := 6;
          value := [25; 20; 2; 2; 3; 1] ++ repeat 0 14%nat;
          option_number := OSCORE |}
  /\ Z.testbit 25 3 = true
  /\ Z.land 25 7 = Zlength [20]
  /\ Z.testbit 25 4 = negb (Zlength [2; 3] =? 0).
Proof.
  destruct (oscore_option_value_layout [20] [1] [2; 3] (repeat 0 20%nat) 0 0)
    as (Hvalue & Hk & Hfields).
  - vm_compute. discriminate.
  - vm_compute. discriminate.
  - vm_compute. discriminate.
  - split; [exact Hvalue|]. split; [exact Hk|].
    apply Hfields. reflexivity.
Defined.

Lemma kid_overwrites_flag_byte_without_piv_witness :
  oscore_option_generate [] [1] []
    {| delta := 0; len := get_oscore_opt_val_len [] [1] [];
       value := repeat 0 20%nat; option_number := 0 |}
  = Ok {| delta := 0;
          len := 2;
          value := [1; 0] ++ repeat 0 18%nat;
          option_number := OSCORE |}.
Proof.
  apply (kid_overwrites_flag_byte_without_piv [1] (repeat 0 20%nat) 0 0).
  - vm_compute. split; discriminate.
  - vm_compute. discriminate.
Defined.

Lemma split_counts_witness :
  exists E e_len U,
    @inner_outer_option_split test_platform test_notification_packet
    = Ok (E, e_len, U)
    /\ Zlength E <= options_cnt test_notification_packet
    /\ Zlength U <= options_cnt test_notification_packet
    /\ Zlength E + Zlength U
       = options_cnt test_notification_packet
         + Zlength (filter (fun n => n =? OBSERVE)
                      (map u8 (true_numbers 0
                                 (options test_notification_packet)))).
Proof.
  apply (@split_counts test_platform test_notification_packet).
  vm_compute. discriminate.
Defined.

Lemma split_keeps_order_and_values_witness :
  exists E e_len U,
    @inner_outer_option_split test_platform test_get_packet
    = Ok (E, e_len, U)
    /\ map (fun o => (option_number o, len o, value o)) U
       = map (fun no => (fst no, u8 (len (snd no)), value (snd no)))
           (filter (fun no => @goes_outer test_platform (fst no))
              (combine (map u8 (true_numbers 0 (options test_get_packet)))
                       (options test_get_packet)))
    /\ map (fun o => (option_number o, len o, value o)) E
       = map (fun no =>
                if (fst no =? OBSERVE)
                   && negb (@is_request test_platform test_get_packet)
                then (fst no, 0, NULL)
                else (fst no, u8 (len (snd no)), value (snd no)))
           (filter (fun no => @goes_inner test_platform (fst no))
              (combine (map u8 (true_numbers 0 (options test_get_packet)))
                       (options test_get_packet))).
Proof.
  apply (@split_keeps_order_and_values test_platform test_get_packet).
  vm_compute. discriminate.
Defined.

Lemma split_deltas_consistent_witness :
  exists E e_len U,
    @inner_outer_option_split test_platform test_get_packet
    = Ok (E, e_len, U)
    /\ map option_number E
       = filter (@goes_inner test_platform)
           (true_numbers 0 (options test_get_packet))
    /\ map option_number U
       = filter (@goes_outer test_platform)
           (true_numbers 0 (options test_get_packet))
    /\ true_numbers 0 E = map option_number E
    /\ true_numbers 0 U = map option_number U
    /\ ascending_from 0 (map option_number E)
    /\ ascending_from 0 (map option_number U).
Proof.
  apply (@split_deltas_consistent test_platform test_get_packet).
  - vm_compute. discriminate.
  - simpl. lia.
Defined.

Lemma outer_options_well_formed_witness :
  exists out,
    @oscore_pkg_generate test_platform test_get_packet test_get_u_options
      [1; 2; 3] 3
      {| delta := 0; len := 3; value := [9; 5; 1]; option_number := 9 |}
    = Ok out
    /\ options_cnt out = Zlength test_get_u_options + 1
    /\ ascending_from 0 (map option_number (options out))
    /\ true_numbers 0 (options out) = map option_number (options out).
Proof.
  apply (@outer_options_well_formed test_platform test_get_packet
           test_get_u_options [1; 2; 3] 3
           {| delta := 0; len := 3; value := [9; 5; 1];
              option_number := 9 |}).
  - reflexivity.
  - reflexivity.
  - simpl. lia.
Defined.

Lemma send_without_sequence_number_keeps_context_witness :
  c (snd (@coap2oscore test_platform test_changed (test_world 5 false 64)))
  = c (test_world 5 false 64).
Proof.
  apply (@send_without_sequence_number_keeps_context test_platform
           test_changed (test_world 5 false 64)).
  reflexivity.
Defined.

Lemma successful_send_clears_reboot_witness :
  reboot (rrc (c (snd (@coap2oscore test_platform test_echo
                         (test_world 5 true 64)))))
  = false.
Proof.
  apply (@successful_send_clears_reboot test_platform test_echo
           (test_world 5 true 64)
           (snd (@coap2oscore test_platform test_echo
                   (test_world 5 true 64)))).
  - reflexivity.
  - vm_compute. reflexivity.
Defined.

Lemma successful_send_shape_witness :
  exists out,
    @coap2buf test_platform out (buf_oscore (test_world 5 false 64))
      (buf_oscore_len (test_world 5 false 64))
    = (Ok tt,
       buf_oscore (snd (@coap2oscore test_platform test_get
                          (test_world 5 false 64))),
       buf_oscore_len (snd (@coap2oscore test_platform test_get
                              (test_world 5 false 64))))
    /\ ver (header out) = ver (header test_get_packet)
    /\ type (header out) = type (header test_get_packet)
    /\ TKL (header out) = TKL (header test_get_packet)
    /\ MID (header out) = MID (header test_get_packet)
    /\ token out = (if TKL (header test_get_packet) =? 0 then NULL
                    else token test_get_packet)
    /\ In (code (header out))
          [CODE_REQ_POST; CODE_REQ_FETCH; CODE_RESP_CHANGED; CODE_RESP_CONTENT]
    /\ (exists o, In o (options out) /\ option_number o = OSCORE).
Proof.
  apply (@successful_send_shape test_platform test_get test_get_packet
           (test_world 5 false 64)
           (snd (@coap2oscore test_platform test_get
                   (test_world 5 false 64)))).
  - reflexivity.
  - reflexivity.
  - vm_compute. reflexivity.
Defined.

Lemma failed_send_leaves_output_witness :
  buf_oscore (snd (@coap2oscore test_platform test_get
                     (test_world 5 false 20)))
  = buf_oscore (test_world 5 false 20)
  \/ exists out,
       @coap2buf test_platform out (buf_oscore (test_world 5 false 20))
         (buf_oscore_len (test_world 5 false 20))
       = (Err dest_buffer_to_small,
          buf_oscore (snd (@coap2oscore test_platform test_get
                             (test_world 5 false 20))),
          buf_oscore_len (snd (@coap2oscore test_platform test_get
                                 (test_world 5 false 20)))).
Proof.
  apply (@failed_send_leaves_output test_platform test_get
           (test_world 5 false 20)
           (snd (@coap2oscore test_platform test_get
                   (test_world 5 false 20)))
           dest_buffer_to_small).
  vm_compute. reflexivity.
Defined.

Lemma sender_seq_num_after_sends_witness :
  sender_seq_num
    (sc (c (@send_all test_platform [test_get; test_get; test_get]
              (test_world 5 false 64))))
  = u64 (sender_seq_num (sc (c (test_world 5 false 64)))
         + Zlength [test_get; test_get; test_get]).
Proof.
  apply (@sender_seq_num_after_sends test_platform
           [test_get; test_get; test_get] (test_world 5 false 64)).
  - intros buf [<-|[<-|[<-|[]]]] w0;
      apply (@takes_sequence_number_request test_platform test_get
               test_get_packet (test_world 5 false 64) w0);
      reflexivity.
  - vm_compute. split; [discriminate|reflexivity].
Defined.

Lemma sent_option_value_witness :
  len {| delta := 0; len := 3; value := [9; 5; 1] ++ repeat 0 17%nat;
         option_number := 9 |}
  = 1 + Zlength [5]
    + (if Zlength (id_context (cc (c (test_world 5 false 64)))) =? 0 then 0
       else 1 + Zlength (id_context (cc (c (test_world 5 false 64)))))
    + Zlength (sender_id (sc (c (test_world 5 false 64))))
  /\ firstn (Z.to_nat
               (len {| delta := 0; len := 3;
                       value := [9; 5; 1] ++ repeat 0 17%nat;
                       option_number := 9 |}))
       (value {| delta := 0; len := 3; value := [9; 5; 1] ++ repeat 0 17%nat;
                 option_number := 9 |})
     = Z.lor (Z.lor (Zlength [5])
                (if Zlength (id_context (cc (c (test_world 5 false 64)))) =? 0
                 then 0 else COMP_OSCORE_OPT_KIDC_H_MASK))
             COMP_OSCORE_OPT_KID_K_MASK
         :: [5]
         ++ (if Zlength (id_context (cc (c (test_world 5 false 64)))) =? 0
             then []
             else Zlength (id_context (cc (c (test_world 5 false 64))))
                  :: id_context (cc (c (test_world 5 false 64))))
         ++ sender_id (sc (c (test_world 5 false 64))).
Proof.
  apply (@sent_option_value test_platform test_get_packet test_get_e_options
           test_get_u_options (test_world 5 false 64)
           (snd (@coap2oscore_option test_platform test_get_packet
                   test_get_e_options test_get_u_options
                   (test_world 5 false 64)))
           {| delta := 0; len := 3; value := [9; 5; 1] ++ repeat 0 17%nat;
              option_number := 9 |}
           [5]).
  - reflexivity.
  - reflexivity.
  - vm_compute. discriminate.
  - vm_compute. reflexivity.
Defined.

Lemma cbor_encode_th3_too_small_witness :
  fst (fst (Edhoc.cbor_encode_th3 4
              {| Edhoc._th3_th_2 := [1; 2]; Edhoc._th3_CIPHERTEXT_2 := [3] |}))
  = false
  /\ snd (Edhoc.cbor_encode_th3 4
            {| Edhoc._th3_th_2 := [1; 2]; Edhoc._th3_CIPHERTEXT_2 := [3] |})
     = None.
Proof.
  apply (cbor_encode_th3_too_small 4
           {| Edhoc._th3_th_2 := [1; 2]; Edhoc._th3_CIPHERTEXT_2 := [3] |}).
  reflexivity.
Defined.

Lemma th3_input_unambiguous_witness :
  {| Edhoc._th3_th_2 := [1; 2]; Edhoc._th3_CIPHERTEXT_2 := [3] |}
  = {| Edhoc._th3_th_2 := [1; 2]; Edhoc._th3_CIPHERTEXT_2 := [3] |}.
Proof.
  apply (th3_input_unambiguous 64 5
           {| Edhoc._th3_th_2 := [1; 2]; Edhoc._th3_CIPHERTEXT_2 := [3] |}
           {| Edhoc._th3_th_2 := [1; 2]; Edhoc._th3_CIPHERTEXT_2 := [3] |}
           [66; 1; 2; 65; 3] (Some 5) (Some 5)).
  - reflexivity.
  - reflexivity.
  - reflexivity.
  - reflexivity.
Defined.

Lemma plaintext_of_packet_witness :
  exists plaintext_buf tail,
    @coap2oscore_plaintext test_platform test_long_path_packet
    = Ok (options test_long_path_packet, [], plaintext_buf, 247)
    /\ firstn 247 plaintext_buf
       = code (header test_long_path_packet)
           :: (189 :: 230 :: repeat 7 243%nat) ++ tail
    /\ List.length tail = 1%nat.
Proof.
  destruct (@plaintext_of_packet test_platform test_long_path_packet
              (options test_long_path_packet) [] 246
              (189 :: 230 :: repeat 7 243%nat)
              (@local_array test_platform "plaintext"
                 (@MAX_PLAINTEXT_LEN test_platform)))
    as (plaintext_buf & Hok & Hfirst).
  - vm_compute. reflexivity.
  - vm_compute. discriminate.
  - vm_compute. reflexivity.
  - vm_compute. discriminate.
  - reflexivity.
  - vm_compute. reflexivity.
  - exists plaintext_buf.
    exists (firstn 1 (skipn 246 (@local_array test_platform "plaintext"
                                   (@MAX_PLAINTEXT_LEN test_platform)))).
    split; [exact Hok|]. split; [exact Hfirst|]. reflexivity.
Defined.

Lemma packet_with_longer_options_is_rejected_witness :
  @coap2oscore test_platform test_get_query (test_world 5 false 64)
  = (Err dest_buffer_to_small, test_world 5 false 64).
Proof.
  apply (@packet_with_longer_options_is_rejected test_platform test_get_query
           test_get_query_packet test_get_query_e_options
           test_get_query_u_options 2 [209; 2; 98] (test_world 5 false 64)).
  - reflexivity.
  - reflexivity.
  - reflexivity.
  - vm_compute. discriminate.
  - reflexivity.
  - reflexivity.
  - vm_compute. discriminate.
  - vm_compute. discriminate.
  - reflexivity.
Defined.

Lemma empty_ack_ignores_announced_size_witness :
  fst (@coap2oscore test_platform test_empty_ack
         {| c := test_context 5 false; buf_oscore := repeat 0 8%nat;
            buf_oscore_len := 2 |})
  = Ok tt
  /\ firstn (List.length test_empty_ack)
            (buf_oscore
               (snd (@coap2oscore test_platform test_empty_ack
                       {| c := test_context 5 false;
                          buf_oscore := repeat 0 8%nat;
                          buf_oscore_len := 2 |})))
     = test_empty_ack
  /\ buf_oscore_len
       (snd (@coap2oscore test_platform test_empty_ack
               {| c := test_context 5 false; buf_oscore := repeat 0 8%nat;
                  buf_oscore_len := 2 |}))
     = Zlength test_empty_ack.
Proof.
  apply (@empty_ack_ignores_announced_size test_platform test_empty_ack
           {| header := {| ver := 1; type := 2; TKL := 0; code := 0;
                           MID := 258 |};
              token := []; options := []; payload := [] |}
           {| c := test_context 5 false; buf_oscore := repeat 0 8%nat;
              buf_oscore_len := 2 |}).
  - reflexivity.
  - reflexivity.
  - reflexivity.
  - vm_compute. discriminate.
Defined.

Lemma payload_is_dropped_from_plaintext_witness :
  exists plaintext_buf,
    @coap2oscore_plaintext test_platform test_post_packet
    = Ok (test_post_e_options, test_post_u_options, plaintext_buf,
          1 + Zlength [209; 2; 98; 209; 12; 100])
    /\ firstn (Z.to_nat (1 + Zlength [209; 2; 98; 209; 12; 100]))
              plaintext_buf
       = code (header test_post_packet) :: [209; 2; 98; 209; 12; 100].
Proof.
  apply (@payload_is_dropped_from_plaintext test_platform test_post_packet
           test_post_e_options test_post_u_options 4
           [209; 2; 98; 209; 12; 100]).
  - reflexivity.
  - vm_compute. discriminate.
  - reflexivity.
  - vm_compute. discriminate.
  - reflexivity.
  - vm_compute. discriminate.
  - reflexivity.
Defined.
